(** * LMStudioPlayground: tool routing, protocol extraction and the agent loop

    A shallow embedding of [src/agent.py] and [src/tools_loop.py].

    Conventions of the embedding.
    - A Python [str] is a [string]; its characters are the code points
      0..255, so every character class below is the restriction of
      Python's class to that range.
    - What the interpreter and its libraries supply ([json.loads],
      [json.dumps], [eval], the text of built-in exceptions, the iteration
      order of a [set], the model behind [llm]) is a field of the class
      [Host]; every theorem holds for all hosts.
    - The file system and the session memory [known_files] are passed
      explicitly.
    - Logging ([log], [print]) has no effect on any result and is left out. *)

From Stdlib Require Import String Ascii List ZArith Lia Bool.
From stdpp Require Import base option list strings gmap pretty.

Open Scope string_scope.
Open Scope list_scope.

(* ================================================================== *)
(** * Python text primitives *)
(* ================================================================== *)

Module Py.

Definition code (c : ascii) : nat := nat_of_ascii c.

Definition between (lo hi : nat) (c : ascii) : bool :=
  (lo <=? code c)%nat && (code c <=? hi)%nat.

Definition is_char (x c : ascii) : bool := Ascii.eqb x c.

(** The double quote, written by its code. *)
Definition dquote : ascii := ascii_of_nat 34.

(** [c in chars] for a character of a literal set. *)
Fixpoint one_of (chars : string) (c : ascii) : bool :=
  match chars with
  | EmptyString => false
  | String x rest => Ascii.eqb x c || one_of rest c
  end.

(** [\d]: the decimal digits. *)
Definition is_digit (c : ascii) : bool := between 48 57 c.

(** [str.isspace] and the class [\s]: tab..carriage return, the four
    separators 28..31, space, NEL (133) and the no-break space (160). *)
Definition is_space (c : ascii) : bool :=
  between 9 13 c || between 28 32 c || (code c =? 133)%nat || (code c =? 160)%nat.

Definition is_upper_ascii (c : ascii) : bool := between 65 90 c.
Definition is_lower_ascii (c : ascii) : bool := between 97 122 c.
Definition is_alpha_ascii (c : ascii) : bool := is_upper_ascii c || is_lower_ascii c.

(** [\w]: [str.isalnum] or the underscore. *)
Definition is_word (c : ascii) : bool :=
  is_digit c || is_alpha_ascii c || is_char "_" c
  || (code c =? 170)%nat || between 178 179 c || (code c =? 181)%nat
  || between 185 186 c || between 188 190 c
  || between 192 214 c || between 216 246 c || between 248 255 c.

(** [str.lower] on one character: A..Z and the accented capitals
    192..214, 216..222 move up by 32. *)
Definition lower_char (c : ascii) : ascii :=
  if is_upper_ascii c || between 192 214 c || between 216 222 c
  then ascii_of_nat (code c + 32) else c.

Fixpoint lower (s : string) : string :=
  match s with
  | EmptyString => EmptyString
  | String c rest => String (lower_char c) (lower rest)
  end.

(** Every character of [s] satisfies [p]. *)
Fixpoint every (p : ascii -> bool) (s : string) : bool :=
  match s with
  | EmptyString => true
  | String c rest => p c && every p rest
  end.

(** [s.startswith(p)]. *)
Fixpoint startswith (p s : string) : bool :=
  match p, s with
  | EmptyString, _ => true
  | String a p', String b s' => Ascii.eqb a b && startswith p' s'
  | String _ _, EmptyString => false
  end.

(** [p in s]. *)
Fixpoint contains (p s : string) : bool :=
  startswith p s ||
  match s with
  | EmptyString => false
  | String _ s' => contains p s'
  end.

(** [s[n:]] and [s[:n]]. *)
Fixpoint drop_str (n : nat) (s : string) : string :=
  match n, s with
  | O, _ => s
  | S n', String _ s' => drop_str n' s'
  | S _, EmptyString => EmptyString
  end.

Fixpoint take_str (n : nat) (s : string) : string :=
  match n, s with
  | O, _ => EmptyString
  | S n', String c s' => String c (take_str n' s')
  | S _, EmptyString => EmptyString
  end.

(** [s[a:b]] for [0 <= a]. *)
Definition slice (a b : nat) (s : string) : string :=
  take_str (b - a) (drop_str a s).

Fixpoint rev_str_onto (s acc : string) : string :=
  match s with
  | EmptyString => acc
  | String c rest => rev_str_onto rest (String c acc)
  end.

Definition rev_str (s : string) : string := rev_str_onto s EmptyString.

(** [s.lstrip(chars)] with the set given as a predicate. *)
Fixpoint lstrip_by (p : ascii -> bool) (s : string) : string :=
  match s with
  | EmptyString => EmptyString
  | String c rest => if p c then lstrip_by p rest else s
  end.

Definition rstrip_by (p : ascii -> bool) (s : string) : string :=
  rev_str (lstrip_by p (rev_str s)).

Definition lstrip (s : string) : string := lstrip_by is_space s.
Definition rstrip (s : string) : string := rstrip_by is_space s.
Definition strip (s : string) : string := rstrip (lstrip s).

(** [expr.replace("^", "**")]: each caret becomes two stars. *)
Fixpoint replace_caret (s : string) : string :=
  match s with
  | EmptyString => EmptyString
  | String c rest =>
      if is_char "^" c then String "*" (String "*" (replace_caret rest))
      else String c (replace_caret rest)
  end.

(** [str(n)] for a length. *)
Definition str_of_nat (n : nat) : string := pretty n.

(** Every backquote of a literal becomes a double quote: JSON texts are
    written with backquotes in this file. *)
Fixpoint jq (s : string) : string :=
  match s with
  | EmptyString => EmptyString
  | String c rest => String (if is_char "`" c then dquote else c) (jq rest)
  end.

End Py.

(* ================================================================== *)
(** * Regular expressions: the fragment of [re] the program uses *)
(* ================================================================== *)

Module Re.

(** Patterns.  [Star true r] is the greedy [r*], [Star false r] the lazy
    [r*?]; [Grp i r] is the capturing group number [i]; [Bol], [Eol] and
    [WordB] are [^], [$] and [\b] without [re.MULTILINE]. *)
Inductive regex : Type :=
| Eps
| Chr (p : ascii -> bool)
| Seq (r1 r2 : regex)
| Alt (r1 r2 : regex)
| Star (greedy : bool) (r : regex)
| Grp (i : nat) (r : regex)
| Bol
| Eol
| WordB.

Definition Opt (r : regex) : regex := Alt r Eps.
Definition Plus (r : regex) : regex := Seq r (Star true r).

(** A literal, case-sensitive or folded as [re.IGNORECASE] does. *)
Definition lit (c : ascii) : regex := Chr (Py.is_char c).
Definition lit_i (c : ascii) : regex :=
  Chr (fun x => Ascii.eqb (Py.lower_char x) (Py.lower_char c)).

Fixpoint lits (s : string) : regex :=
  match s with
  | EmptyString => Eps
  | String c EmptyString => lit c
  | String c rest => Seq (lit c) (lits rest)
  end.

Fixpoint lits_i (s : string) : regex :=
  match s with
  | EmptyString => Eps
  | String c EmptyString => lit_i c
  | String c rest => Seq (lit_i c) (lits_i rest)
  end.

(** [r{1,n+1}], greedy. *)
Fixpoint upto (n : nat) (r : regex) : regex :=
  match n with
  | O => r
  | S n' => Seq r (Opt (upto n' r))
  end.

(** The matcher's position: the index, the character before it, the text
    still to read and the groups captured so far (latest first). *)
Record cursor : Type := Cursor {
  pos : nat;
  prev : option ascii;
  rest : string;
  caps : list (nat * (nat * nat))
}.

Definition advance (c : cursor) : option (ascii * cursor) :=
  match rest c with
  | EmptyString => None
  | String a s => Some (a, Cursor (S (pos c)) (Some a) s (caps c))
  end.

Definition at_word (o : option ascii) : bool :=
  match o with Some a => Py.is_word a | None => false end.

Definition next_char (c : cursor) : option ascii :=
  match rest c with EmptyString => None | String a _ => Some a end.

(** [$]: the end of the text, or just before a newline that ends it. *)
Definition at_eol (c : cursor) : bool :=
  match rest c with
  | EmptyString => true
  | String a EmptyString => Py.is_char "010" a
  | _ => false
  end.

(** The repetition of a matcher [body]: [fuel] bounds the rounds, and a
    round that reads nothing is not repeated. *)
Definition star_loop (greedy : bool)
  (body : cursor -> (cursor -> option cursor) -> option cursor)
  (k : cursor -> option cursor) : nat -> cursor -> option cursor :=
  fix loop (fuel : nat) (c : cursor) {struct fuel} : option cursor :=
    match fuel with
    | O => k c
    | S fuel' =>
        let again (_ : unit) :=
          body c (fun c' => if (pos c <? pos c')%nat then loop fuel' c' else None) in
        if greedy then
          match again tt with Some e => Some e | None => k c end
        else
          match k c with Some e => Some e | None => again tt end
    end.

(** Backtracking matcher in continuation-passing style.  The alternatives
    are tried in the order of [re]: left before right, more repetitions
    first when greedy and fewer first when lazy. *)
Fixpoint run (r : regex) : cursor -> (cursor -> option cursor) -> option cursor :=
  match r with
  | Eps => fun c k => k c
  | Chr p => fun c k =>
      match advance c with
      | Some (a, c') => if p a then k c' else None
      | None => None
      end
  | Seq r1 r2 => fun c k => run r1 c (fun c' => run r2 c' k)
  | Alt r1 r2 => fun c k =>
      match run r1 c k with
      | Some e => Some e
      | None => run r2 c k
      end
  | Star greedy r' => fun c k =>
      star_loop greedy (run r') k (S (String.length (rest c))) c
  | Grp i r' => fun c k =>
      run r' c (fun c' =>
        k (Cursor (pos c') (prev c') (rest c') ((i, (pos c, pos c')) :: caps c')))
  | Bol => fun c k => if (pos c =? 0)%nat then k c else None
  | Eol => fun c k => if at_eol c then k c else None
  | WordB => fun c k =>
      if xorb (at_word (prev c)) (at_word (next_char c)) then k c else None
  end.

(** A match: [m.start()], [m.end()] and the captured spans. *)
Record found : Type := Found {
  m_start : nat;
  m_end : nat;
  m_caps : list (nat * (nat * nat))
}.

Definition match_at (r : regex) (c : cursor) : option found :=
  match run r c Some with
  | Some e => Some (Found (pos c) (pos e) (caps e))
  | None => None
  end.

Definition start_cursor (s : string) : cursor := Cursor 0 None s [].

(** [$] as the last thing to match. *)
Definition at_end (c : cursor) : option cursor := run Eol c Some.

(** [r.match(s)]: a match that starts at index 0. *)
Definition match_ (r : regex) (s : string) : option found :=
  match_at r (start_cursor s).

(** The leftmost match at or after the cursor, and the cursor it starts at. *)
Fixpoint search_from (r : regex) (p : nat) (pv : option ascii) (s : string)
  : option found :=
  match match_at r (Cursor p pv s []) with
  | Some f => Some f
  | None =>
      match s with
      | EmptyString => None
      | String a s' => search_from r (S p) (Some a) s'
      end
  end.

(** [r.search(s)]. *)
Definition search (r : regex) (s : string) : option found :=
  search_from r 0 None s.

(** [m.group(0)] and [m.group(i)] of a match in [s]. *)
Definition group0 (s : string) (f : found) : string :=
  Py.slice (m_start f) (m_end f) s.

Fixpoint span_of (i : nat) (l : list (nat * (nat * nat))) : option (nat * nat) :=
  match l with
  | [] => None
  | (j, sp) :: l' => if (i =? j)%nat then Some sp else span_of i l'
  end.

Definition group (i : nat) (s : string) (f : found) : string :=
  match span_of i (m_caps f) with
  | Some (a, b) => Py.slice a b s
  | None => EmptyString
  end.

(** The cursor of [s] at index [n]. *)
Fixpoint cursor_at (n : nat) (p : nat) (pv : option ascii) (s : string)
  : nat * option ascii * string :=
  match n, s with
  | O, _ => (p, pv, s)
  | S n', String a s' => cursor_at n' (S p) (Some a) s'
  | S _, EmptyString => (p, pv, s)
  end.

(** [r.finditer(s)]: the successive leftmost matches, none overlapping.
    The patterns the program passes to [findall] match no empty text; an
    empty match would move the scan on by one character. *)
Fixpoint finditer_from (fuel : nat) (r : regex) (p : nat) (pv : option ascii)
  (s : string) : list found :=
  match fuel with
  | O => []
  | S fuel' =>
      match search_from r p pv s with
      | None => []
      | Some f =>
          let step := if (m_start f <? m_end f)%nat then m_end f - p else S (m_end f - p) in
          if (String.length s <? step)%nat then [f]
          else
            let '(p', pv', s') := cursor_at step p pv s in
            f :: finditer_from fuel' r p' pv' s'
      end
  end.

Definition finditer (r : regex) (s : string) : list found :=
  finditer_from (S (String.length s)) r 0 None s.

(** [r.findall(s)] for a pattern with one group: the texts of group 1;
    and for a pattern with none: the texts matched. *)
Definition findall1 (r : regex) (s : string) : list string :=
  map (group 1 s) (finditer r s).

Definition findall0 (r : regex) (s : string) : list string :=
  map (group0 s) (finditer r s).

End Re.

(* ================================================================== *)
(** * [posixpath]: join, normpath, abspath *)
(* ================================================================== *)

Module PosixPath.

(** [s.split("/")]: the pieces between slashes, in order. *)
Fixpoint split_from (s : string) (piece_rev : string) : list string :=
  match s with
  | EmptyString => [Py.rev_str piece_rev]
  | String c s' =>
      if Py.is_char "/" c then Py.rev_str piece_rev :: split_from s' EmptyString
      else split_from s' (String c piece_rev)
  end.

Definition split_slash (s : string) : list string := split_from s EmptyString.

(** ["/".join(comps)]. *)
Fixpoint join_slash (comps : list string) : string :=
  match comps with
  | [] => EmptyString
  | [c] => c
  | c :: rest => c +:+ "/" +:+ join_slash rest
  end.

Definition isabs (p : string) : bool := Py.startswith "/" p.

Definition ends_with_slash (p : string) : bool :=
  match Py.rev_str p with
  | String c _ => Py.is_char "/" c
  | EmptyString => false
  end.

(** [os.path.join(a, b)]. *)
Definition join (a b : string) : string :=
  if Py.startswith "/" b then b
  else if String.eqb a EmptyString || ends_with_slash a then a +:+ b
  else a +:+ "/" +:+ b.

(** One round of the loop of [normpath]; [stack] is [new_comps], last
    component first. *)
Definition norm_step (rooted : bool) (stack : list string) (comp : string)
  : list string :=
  if String.eqb comp EmptyString || String.eqb comp "." then stack
  else if negb (String.eqb comp "..")
          || (negb rooted && match stack with [] => true | _ => false end)
          || match stack with top :: _ => String.eqb top ".." | [] => false end
  then comp :: stack
  else match stack with
       | _ :: below => below
       | [] => []
       end.

Definition initial_slashes (path : string) : nat :=
  if Py.startswith "/" path then
    if Py.startswith "//" path && negb (Py.startswith "///" path) then 2 else 1
  else 0.

Fixpoint slashes (n : nat) : string :=
  match n with O => EmptyString | S n' => String "/" (slashes n') end.

(** [os.path.normpath(path)]. *)
Definition normpath (path : string) : string :=
  if String.eqb path EmptyString then "."
  else
    let n := initial_slashes path in
    let stack := fold_left (norm_step (negb (n =? 0)%nat)) (split_slash path) [] in
    let out := slashes n +:+ join_slash (rev stack) in
    if String.eqb out EmptyString then "." else out.

(** [os.path.abspath(path)] in the working directory [cwd]. *)
Definition abspath (cwd path : string) : string :=
  normpath (if isabs path then path else join cwd path).

(** The names a path walks through: its non-empty pieces. *)
Definition components (p : string) : list string :=
  filter (fun c => negb (String.eqb c EmptyString)) (split_slash p).

Fixpoint is_prefix (l1 l2 : list string) : bool :=
  match l1, l2 with
  | [], _ => true
  | a :: l1', b :: l2' => String.eqb a b && is_prefix l1' l2'
  | _ :: _, [] => false
  end.

(** A resolved location lies inside the root when it is the root or below
    it, component by component; otherwise it escapes. *)
Definition inside (root p : string) : bool :=
  is_prefix (components root) (components p).

Definition escapes (root p : string) : bool := negb (inside root p).

End PosixPath.

(* ================================================================== *)
(** * The file system *)
(* ================================================================== *)

Module Fs.

Inductive node : Type :=
| File (content : string)
| Dir.

(** A tree of nodes keyed by location (the list of names from the root;
    the root itself is always a directory).  Links and permissions are
    not modelled. *)
Abbreviation t := (gmap (list string) node).

Definition is_dir (fs : t) (loc : list string) : bool :=
  match loc with
  | [] => true
  | _ => match fs !! loc with Some Dir => true | _ => false end
  end.

Definition parent (loc : list string) : list string := removelast loc.

(** Path resolution as the kernel does it: every name but the last must
    be a directory; [.] and an empty piece stay, [..] goes up. *)
Fixpoint walk (fs : t) (cur : list string) (comps : list string)
  : option (list string) :=
  match comps with
  | [] => Some cur
  | c :: more =>
      if String.eqb c EmptyString || String.eqb c "." then
        if is_dir fs cur then walk fs cur more else None
      else if String.eqb c ".." then
        if is_dir fs cur then walk fs (parent cur) more else None
      else if is_dir fs cur then walk fs (cur ++ [c]) more
      else None
  end.

Definition has_nul (p : string) : bool :=
  Py.contains (String (ascii_of_nat 0) EmptyString) p.

(** The location an absolute path names, when its directories exist. *)
Definition locate (fs : t) (path : string) : option (list string) :=
  if has_nul path then None else walk fs [] (PosixPath.split_slash path).

Definition stat (fs : t) (path : string) : option node :=
  match locate fs path with
  | Some [] => Some Dir
  | Some loc => fs !! loc
  | None => None
  end.

(** [os.path.isfile(path)]. *)
Definition isfile (fs : t) (path : string) : bool :=
  match stat fs path with Some (File _) => true | _ => false end.

(** Text mode reading translates [\r\n] and a lone [\r] to [\n]. *)
Fixpoint universal_newlines (s : string) : string :=
  match s with
  | EmptyString => EmptyString
  | String c rest =>
      if Py.is_char "013" c then
        match rest with
        | String d rest' =>
            if Py.is_char "010" d then String "010" (universal_newlines rest')
            else String "010" (universal_newlines rest)
        | EmptyString => String "010" EmptyString
        end
      else String c (universal_newlines rest)
  end.

(** [open(path, "r").read()] of a regular file. *)
Definition read_text (fs : t) (path : string) : option string :=
  match stat fs path with
  | Some (File content) => Some (universal_newlines content)
  | _ => None
  end.

(** [open(path, "w")]: the file is created or emptied; [None] when the
    path names a directory or its directory does not exist. *)
Definition open_w (fs : t) (path : string) : option (list string * t) :=
  match locate fs path with
  | Some [] => None
  | Some loc =>
      if is_dir fs (parent loc) then
        match fs !! loc with
        | Some Dir => None
        | _ => Some (loc, <[loc := File EmptyString]> fs)
        end
      else None
  | None => None
  end.

Definition write_at (fs : t) (loc : list string) (text : string) : t :=
  <[loc := File text]> fs.

End Fs.

(* ================================================================== *)
(** * JSON values, exceptions and the host *)
(* ================================================================== *)

(** What [json.loads] builds.  A [float] keeps what the program can see
    of it: whether it is non-zero, and its literal. *)
#[warnings="-register-all"]
Inductive json : Type :=
| JNull
| JBool (b : bool)
| JInt (z : Z)
| JFloat (nonzero : bool) (literal : string)
| JStr (s : string)
| JArr (items : list json)
| JObj (fields : list (string * json)).

(** A [dict] with string keys, in insertion order. *)
Definition dict : Type := list (string * json).

(** [d.get(k)] as Python's [None]-or-value: the binding of [k]. *)
Fixpoint dict_get (k : string) (d : dict) : option json :=
  match d with
  | [] => None
  | (k', v) :: d' => if String.eqb k k' then Some v else dict_get k d'
  end.

(** [k in d]. *)
Definition has_key (k : string) (d : dict) : bool :=
  match dict_get k d with Some _ => true | None => false end.

(** [d[k] = v]: an existing key keeps its place. *)
Fixpoint dict_set (k : string) (v : json) (d : dict) : dict :=
  match d with
  | [] => [(k, v)]
  | (k', v') :: d' =>
      if String.eqb k k' then (k, v) :: d' else (k', v') :: dict_set k v d'
  end.

(** Python's truth value of a decoded JSON value. *)
Definition truthy (v : json) : bool :=
  match v with
  | JNull => false
  | JBool b => b
  | JInt z => negb (z =? 0)%Z
  | JFloat nonzero _ => nonzero
  | JStr s => negb (String.eqb s EmptyString)
  | JArr items => match items with [] => false | _ => true end
  | JObj fields => match fields with [] => false | _ => true end
  end.

(** [d.get(k)] read as "is not None": a JSON [null] counts as absent. *)
Definition get_not_none (k : string) (d : dict) : option json :=
  match dict_get k d with
  | Some JNull => None
  | other => other
  end.

(** Exceptions the interpreter and its libraries raise on their own. *)
Inductive builtin_exn : Type :=
| NoSuchTool (name : json)                 (* KeyError or TypeError of TOOLS[n] *)
| BadCall (tool : string) (args : dict)    (* TypeError of f( **a ) *)
| NotAString (v : json)                    (* TypeError: a str was expected *)
| CannotOpen (path : string).              (* OSError or ValueError of open *)

Inductive pyexn : Type :=
| ValueError (msg : string)
| EvalRaised (msg : string)
| Builtin (b : builtin_exn).

(** A call that returns or raises. *)
Inductive result (A : Type) : Type :=
| Ok (a : A)
| Raise (e : pyexn).
Arguments Ok {A} a.
Arguments Raise {A} e.

(** [str(eval(expr, ...))] with no builtins and [math] as the only name. *)
Inductive eval_result : Type :=
| Returned (text : string)
| Raised (msg : string).

Record message : Type := Message { role : string; content : string }.

(** The interpreter, its libraries and the model service.  [llm] sees
    the conversations sent before it and the one sent now. *)
Class Host : Type := {
  cwd : string;
  json_loads : string -> option json;
  json_dumps : json -> string;
  py_str : json -> string;
  py_eval : string -> eval_result;
  exn_text : builtin_exn -> string;
  set_order : gset string -> list string;
  llm : list (list message) -> list message -> string
}.

(** [str(e)]. *)
Definition exn_str `{Host} (e : pyexn) : string :=
  match e with
  | ValueError msg => msg
  | EvalRaised msg => msg
  | Builtin b => exn_text b
  end.

(** [str(v)] of a decoded value: a [str] is itself. *)
Definition str_of `{Host} (v : json) : string :=
  match v with
  | JStr s => s
  | _ => py_str v
  end.

(** [ROOT = os.path.abspath(os.getcwd())]. *)
Definition ROOT `{Host} : string := PosixPath.abspath cwd cwd.

(** The tool state: the files, and the conversations sent to the model. *)
Record World : Type := MkWorld {
  files : Fs.t;
  asked : list (list message)
}.

Definition with_files (w : World) (fs : Fs.t) : World := MkWorld fs (asked w).

(* ================================================================== *)
(** * The program's patterns *)
(* ================================================================== *)

Module Pat.
Import Re.

(** [[0-9+\-*/().\s^]] *)
Definition safe_char (c : ascii) : bool :=
  Py.is_digit c || Py.one_of "+-*/()." c || Py.is_space c || Py.is_char "^" c.

(** [SAFE_EXPR = ^[0-9+\-*/().\s^]*$] *)
Definition SAFE_EXPR : regex := Seq Bol (Seq (Star true (Chr safe_char)) Eol).

(** [NUM_RE]: an optional sign, then either digits with an optional dot
    and further digits, or a dot and digits. *)
Definition NUM_RE : regex :=
  Seq (Opt (Chr (Py.one_of "+-")))
      (Alt (Seq (Plus (Chr Py.is_digit))
                (Opt (Seq (lit ".") (Star true (Chr Py.is_digit)))))
           (Seq (lit ".") (Plus (Chr Py.is_digit)))).

(** Any character but white space, the double quote and the single quote. *)
Definition file_char (c : ascii) : bool :=
  negb (Py.is_space c || Py.is_char Py.dquote c || Py.is_char "'" c).

(** [FILE_RE]: an optional [./] or [/], then lazily any run of such
    characters, then [.txt]; ignoring case. *)
Definition FILE_RE : regex :=
  Seq (Opt (Alt (lits "./") (lit "/")))
      (Seq (Star false (Chr file_char)) (lits_i ".txt")).

Definition spaces1 : regex := Plus (Chr Py.is_space).

(** [\bwhat\s+is\s+in\b], ignoring case *)
Definition WHAT_IS_IN : regex :=
  Seq WordB (Seq (lits_i "what") (Seq spaces1 (Seq (lits_i "is")
    (Seq spaces1 (Seq (lits_i "in") WordB))))).

(** [READ_INTENT = \b(what\s+is\s+in|show|display|print|read|open)\b],
    ignoring case *)
Definition READ_INTENT : regex :=
  Seq WordB
    (Seq (Grp 1
       (Alt (Seq (lits_i "what") (Seq spaces1 (Seq (lits_i "is")
               (Seq spaces1 (lits_i "in")))))
       (Alt (lits_i "show") (Alt (lits_i "display") (Alt (lits_i "print")
       (Alt (lits_i "read") (lits_i "open")))))))
     WordB).

(** [[A-Za-z0-9._/\-]] *)
Definition path_char (c : ascii) : bool :=
  Py.is_alpha_ascii c || Py.is_digit c || Py.one_of "._/-" c.

Definition alnum_ascii (c : ascii) : bool := Py.is_alpha_ascii c || Py.is_digit c.

(** [PATH_RE = (?:\./|/)?[A-Za-z0-9._/\-]+\.[A-Za-z0-9]{1,8}] *)
Definition PATH_RE : regex :=
  Seq (Opt (Alt (lits "./") (lit "/")))
      (Seq (Plus (Chr path_char)) (Seq (lit ".") (upto 7 (Chr alnum_ascii)))).

(** [[A-Za-z0-9_\-./]] *)
Definition name_char (c : ascii) : bool :=
  Py.is_alpha_ascii c || Py.is_digit c || Py.one_of "_-./" c.

(** [\b([A-Za-z0-9_\-./]+)\b\s+is\s+a\s+file], ignoring case *)
Definition IS_A_FILE : regex :=
  Seq WordB (Seq (Grp 1 (Plus (Chr name_char))) (Seq WordB (Seq spaces1
    (Seq (lits_i "is") (Seq spaces1 (Seq (lits_i "a") (Seq spaces1
      (lits_i "file")))))))).

(** [\b{re.escape(name)}\b], ignoring case *)
Definition whole_word (name : string) : regex :=
  Seq WordB (Seq (lits_i name) WordB).

(** [[A-Za-z0-9._/\-]+] *)
Definition TOKEN : regex := Plus (Chr path_char).

(** [[-+/*()\s.\d^]] *)
Definition arith_char (c : ascii) : bool :=
  Py.one_of "-+/*()" c || Py.is_space c || Py.is_char "." c || Py.is_digit c
  || Py.is_char "^" c.

(** [([-+/*()\s.\d^]+)$] *)
Definition ARITH_TAIL : regex := Seq (Grp 1 (Plus (Chr arith_char))) Eol.

(** [\d] *)
Definition DIGIT : regex := Chr Py.is_digit.

(** The characters [rstrip] removes after a path: the punctuation
    [. , ! ? : ;], both quotes and the closing parenthesis. *)
Definition trailing_punct (c : ascii) : bool :=
  Py.one_of ".,!?:;')" c || Py.is_char Py.dquote c.

End Pat.

(* ================================================================== *)
(** * The protocol extractor (the same loop in both files) *)
(* ================================================================== *)

Module Extractor.

(** The loop variables of [extract_last_json_dict]; [start = None]
    stands for [-1]. *)
Record scan : Type := Scan {
  start : option nat;
  depth : nat;
  last : option dict
}.

Definition scan0 : scan := Scan None 0 None.

(** [json.loads(frag)] kept when it is a [dict]; a failed parse and any
    other value leave [last] as it is. *)
Definition try_parse `{Host} (frag : string) (last : option dict) : option dict :=
  match json_loads frag with
  | Some (JObj d) => Some d
  | _ => last
  end.

(** One round of [for i, ch in enumerate(text)]. *)
Definition scan_step `{Host} (text : string) (i : nat) (ch : ascii) (st : scan)
  : scan :=
  if Py.is_char "{" ch then
    Scan (if (depth st =? 0)%nat then Some i else start st) (S (depth st)) (last st)
  else if Py.is_char "}" ch then
    if (0 <? depth st)%nat then
      let d := depth st - 1 in
      match (d =? 0)%nat, start st with
      | true, Some s => Scan (start st) d (try_parse (Py.slice s (S i) text) (last st))
      | _, _ => Scan (start st) d (last st)
      end
    else st
  else st.

Fixpoint scan_from `{Host} (text : string) (i : nat) (todo : string) (st : scan)
  : option dict :=
  match todo with
  | EmptyString => last st
  | String ch todo' => scan_from text (S i) todo' (scan_step text i ch st)
  end.

Definition extract_last_json_dict `{Host} (text : string) : option dict :=
  scan_from text 0 text scan0.

End Extractor.

(* ================================================================== *)
(** * [src/agent.py] *)
(* ================================================================== *)

Module Agent.

(** [args.get(k, "")]. *)
Definition get_or_empty (k : string) (args : dict) : json :=
  match dict_get k args with Some v => v | None => JStr EmptyString end.

Definition read_cap : nat := N.to_nat 4000.
Definition final_cap : nat := N.to_nat 4000.

Definition read_file `{Host} (args : dict) (fs : Fs.t) : result string :=
  let path := get_or_empty "path" args in
  if negb (truthy path) then Ok "ERROR: missing path"
  else
    match path with
    | JStr p =>
        let abs_path := PosixPath.abspath cwd (PosixPath.join ROOT p) in
        if negb (Py.startswith ROOT abs_path) then Ok "ERROR: path outside project"
        else if negb (Fs.isfile fs abs_path) then Ok ("ERROR: file not found: " +:+ p)
        else
          match Fs.read_text fs abs_path with
          | Some text => Ok (Py.take_str read_cap text)
          | None => Raise (Builtin (CannotOpen abs_path))
          end
    | other => Raise (Builtin (NotAString other))
    end.

Definition wrote (n : nat) (path : string) : string :=
  "[wrote " +:+ Py.str_of_nat n +:+ " chars to " +:+ path +:+ "]".

Definition write_file `{Host} (args : dict) (fs : Fs.t) : result string * Fs.t :=
  let path := get_or_empty "path" args in
  let text := get_or_empty "text" args in
  if negb (truthy path) then (Ok "ERROR: missing path", fs)
  else
    match path with
    | JStr p =>
        let abs_path := PosixPath.abspath cwd (PosixPath.join ROOT p) in
        if negb (Py.startswith ROOT abs_path) then (Ok "ERROR: path outside project", fs)
        else
          match Fs.open_w fs abs_path with
          | None => (Ok ("ERROR: " +:+ exn_text (CannotOpen abs_path)), fs)
          | Some (loc, fs1) =>
              match text with
              | JStr t => (Ok (wrote (String.length t) p), Fs.write_at fs1 loc t)
              | other => (Ok ("ERROR: " +:+ exn_text (NotAString other)), fs1)
              end
          end
    | other => (Raise (Builtin (NotAString other)), fs)
    end.

Definition calc `{Host} (args : dict) : string :=
  let expr := str_of (get_or_empty "expr" args) in
  match Re.match_ Pat.SAFE_EXPR expr with
  | None => "ERROR: invalid characters"
  | Some _ =>
      match py_eval (Py.replace_caret expr) with
      | Returned text => text
      | Raised msg => "ERROR: " +:+ msg
      end
  end.

Definition find_number `{Host} (args : dict) : string :=
  let text := str_of (get_or_empty "text" args) in
  match Re.search Pat.NUM_RE text with
  | Some m => Re.group0 text m
  | None => "ERROR: no number found"
  end.

Definition extract_last_json_dict `{Host} (text : string) : option dict :=
  Extractor.extract_last_json_dict text.

(** ** Heuristic fallback and the session memory *)

Definition read_directive (path : string) : dict :=
  [("tool", JStr "read_file"); ("args", JObj [("path", JStr path)])].

Definition calc_directive (expr : string) : dict :=
  [("tool", JStr "calc"); ("args", JObj [("expr", JStr expr)])].

Definition final_directive (text : string) : dict := [("final", JStr text)].

(** [for name in m: known_files.add(name.strip().lower())]. *)
Definition learn (up : string) (known : gset string) : gset string :=
  fold_left (fun acc name => acc ∪ {[ Py.lower (Py.strip name) ]})
            (Re.findall1 Pat.IS_A_FILE up) known.

(** The direct JSON pass-through. *)
Definition pass_through `{Host} (raw : string) : option dict :=
  match json_loads raw with
  | Some (JObj data) =>
      if has_key "tool" data || has_key "final" data then Some data else None
  | _ => None
  end.

Definition explicit_path (up : string) : option string :=
  match Re.search Pat.PATH_RE up with
  | Some mp => Some (Py.rstrip_by Pat.trailing_punct (Re.group0 up mp))
  | None => None
  end.

Definition mentions (up name : string) : bool :=
  match Re.search (Pat.whole_word name) up with Some _ => true | None => false end.

Definition recall `{Host} (up : string) (known : gset string) : option string :=
  find (mentions up) (set_order known).

Definition probe `{Host} (up : string) (fs : Fs.t) : option string :=
  find (fun token => Fs.isfile fs (PosixPath.join ROOT token))
       (Re.findall0 Pat.TOKEN up).

Definition arithmetic_tail (up : string) : option string :=
  match Re.search Pat.ARITH_TAIL up with
  | Some cm =>
      let g := Re.group 1 up cm in
      match Re.search Pat.DIGIT g with
      | Some _ => Some (Py.strip g)
      | None => None
      end
  | None => None
  end.

Definition or_no_output (s : string) : string :=
  if String.eqb s EmptyString then "(no output)" else s.

(** [autowrap_to_action(raw, user_prompt)] with [known_files] passed in
    and out. *)
Definition autowrap_to_action `{Host} (raw user_prompt : string)
  (known_files : gset string) (fs : Fs.t) : dict * gset string :=
  let raw := Py.strip raw in
  let up := Py.strip user_prompt in
  let known := learn up known_files in
  match pass_through raw with
  | Some data => (data, known)
  | None =>
  match explicit_path up with
  | Some path => (read_directive path, known)
  | None =>
  match recall up known with
  | Some name => (read_directive name, known)
  | None =>
  match probe up fs with
  | Some token => (read_directive token, known)
  | None =>
  match arithmetic_tail up with
  | Some expr => (calc_directive expr, known)
  | None => (final_directive (or_no_output (Py.take_str final_cap raw)), known)
  end end end end end.

End Agent.

(* ================================================================== *)
(** * [src/tools_loop.py] *)
(* ================================================================== *)

Module ToolsLoop.

Definition ENABLE_DETERMINISTIC : bool := true.
Definition ENABLE_BOOTSTRAP : bool := true.
Definition FORCE_AGENT_PREFIX : string := "agent:".
Definition LOOP_LIMIT : nat := 40.
Definition read_cap : nat := N.to_nat 8000.

(** ** Tools: each returns or raises *)

Definition read_file `{Host} (path : json) (fs : Fs.t) : result string :=
  match path with
  | JStr path =>
      let p := PosixPath.abspath cwd (PosixPath.join ROOT path) in
      if negb (Py.startswith ROOT p) then Raise (ValueError "path outside project")
      else if negb (Fs.isfile fs p) then Raise (ValueError ("not a file: " +:+ p))
      else
        match Fs.read_text fs p with
        | Some text => Ok (Py.take_str read_cap text)
        | None => Raise (Builtin (CannotOpen p))
        end
  | other => Raise (Builtin (NotAString other))
  end.

Definition write_file `{Host} (path text : json) (fs : Fs.t)
  : result string * Fs.t :=
  match path with
  | JStr path =>
      let p := PosixPath.abspath cwd (PosixPath.join ROOT path) in
      if negb (Py.startswith ROOT p) then (Raise (ValueError "path outside project"), fs)
      else
        match Fs.open_w fs p with
        | None => (Raise (Builtin (CannotOpen p)), fs)
        | Some (loc, fs1) =>
            match text with
            | JStr t => (Ok (Agent.wrote (String.length t) path), Fs.write_at fs1 loc t)
            | other => (Raise (Builtin (NotAString other)), fs1)
            end
        end
  | other => (Raise (Builtin (NotAString other)), fs)
  end.

Definition calc `{Host} (expr : json) : result string :=
  match expr with
  | JStr expr =>
      match Re.match_ Pat.SAFE_EXPR expr with
      | None => Raise (ValueError "bad chars in expr")
      | Some _ =>
          match py_eval (Py.replace_caret expr) with
          | Returned text => Ok text
          | Raised msg => Raise (EvalRaised msg)
          end
      end
  | other => Raise (Builtin (NotAString other))
  end.

Definition find_number `{Host} (text : json) : result string :=
  match text with
  | JStr text =>
      match Re.search Pat.NUM_RE text with
      | Some m => Ok (Re.group0 text m)
      | None => Raise (ValueError "no number found")
      end
  | other => Raise (Builtin (NotAString other))
  end.

Inductive tool : Type := T_read_file | T_write_file | T_calc | T_find_number.

Definition TOOLS : list (string * tool) :=
  [("read_file", T_read_file); ("write_file", T_write_file);
   ("calc", T_calc); ("find_number", T_find_number)].

Fixpoint assoc {A : Type} (k : string) (l : list (string * A)) : option A :=
  match l with
  | [] => None
  | (k', v) :: l' => if String.eqb k k' then Some v else assoc k l'
  end.

Definition tool_name (t : tool) : string :=
  match t with
  | T_read_file => "read_file"
  | T_write_file => "write_file"
  | T_calc => "calc"
  | T_find_number => "find_number"
  end.

Definition params (t : tool) : list string :=
  match t with
  | T_read_file => ["path"]
  | T_write_file => ["path"; "text"]
  | T_calc => ["expr"]
  | T_find_number => ["text"]
  end.

Definition mem_str (k : string) (l : list string) : bool :=
  existsb (String.eqb k) l.

(** [f( **a )] binds when [a] has every parameter and nothing else. *)
Definition binds (t : tool) (a : dict) : bool :=
  forallb (fun k => mem_str k (params t)) (map fst a)
  && forallb (fun p => has_key p a) (params t).

Definition arg (k : string) (a : dict) : json :=
  match dict_get k a with Some v => v | None => JNull end.

(** [TOOLS[n]( **a )]. *)
Definition call_tool `{Host} (n : json) (a : dict) (fs : Fs.t)
  : result string * Fs.t :=
  match n with
  | JStr name =>
      match assoc name TOOLS with
      | None => (Raise (Builtin (NoSuchTool n)), fs)
      | Some t =>
          if negb (binds t a) then (Raise (Builtin (BadCall (tool_name t) a)), fs)
          else
            match t with
            | T_read_file => (read_file (arg "path" a) fs, fs)
            | T_write_file => write_file (arg "path" a) (arg "text" a) fs
            | T_calc => (calc (arg "expr" a), fs)
            | T_find_number => (find_number (arg "text" a), fs)
            end
      end
  | _ => (Raise (Builtin (NoSuchTool n)), fs)
  end.

(** [run_tool(n, a)]: the [try]/[except Exception] around the call. *)
Definition run_tool `{Host} (n : json) (a : dict) (fs : Fs.t) : string * Fs.t :=
  match call_tool n a fs with
  | (Ok r, fs') => (r, fs')
  | (Raise e, fs') => ("ERROR: " +:+ exn_str e, fs')
  end.

Definition extract_last_json_dict `{Host} (text : string) : option dict :=
  Extractor.extract_last_json_dict text.

(** ** Helpers *)

Definition _first_path_in (t : string) : option string :=
  if String.eqb t EmptyString then None
  else
    match Re.search Pat.FILE_RE t with
    | Some m => Some (Py.rstrip_by Pat.trailing_punct (Re.group0 t m))
    | None => None
    end.

Definition _is_read_intent (text : string) : bool :=
  match Re.search Pat.READ_INTENT text with Some _ => true | None => false end.

Definition nonempty (s : string) : bool := negb (String.eqb s EmptyString).

(** [deterministic_execute(p)]: [None] when the layer does not answer. *)
Definition deterministic_execute `{Host} (p : string) (fs : Fs.t) : option string :=
  if negb ENABLE_DETERMINISTIC then None
  else
    match Re.search Pat.WHAT_IS_IN p with
    | Some _ =>
        if Py.contains ".txt" p then
          match _first_path_in p with
          | Some path =>
              if nonempty path then
                match read_file (JStr path) fs with
                | Ok r => Some r
                | Raise e => Some ("[error: " +:+ exn_str e +:+ "]")
                end
              else None
          | None => None
          end
        else None
    | None => None
    end.

Definition SYSTEM : string := Py.jq "
You are a programmatic agent.
You may call only these tools:
- read_file(path)
- write_file(path, text)
- calc(expr)
- find_number(text)

Rules:
- Reply with ONE JSON object ONLY:
  {`tool`:`<name>`,`args`:{...}}  OR  {`final`:`<message>`}
- Use a tool only when needed. For general questions, answer directly with {`final`:`...`}.
- After a tool call, you will receive: TOOL_RESULT: <data>
  Then call another tool or finish with {`final`:`...`}.
- No prose, no markdown, no multiple objects.
- Do NOT invent tools.
".

Definition assistant_says `{Host} (tool : json) (args : dict) : message :=
  Message "assistant" (json_dumps (JObj [("tool", tool); ("args", JObj args)])).

Definition tool_result_note (r : string) : message :=
  Message "system" ("TOOL_RESULT: " +:+ r).

Definition corrective : message :=
  Message "user"
    "Return ONE JSON object only: {'tool':..., 'args':...} OR {'final':'...' }.".

(** [_bootstrap_file_read(msgs, path)]: the result, the conversation
    with the two messages appended, the files. *)
Definition _bootstrap_file_read `{Host} (msgs : list message) (path : string)
  (fs : Fs.t) : string * list message * Fs.t :=
  if negb ENABLE_BOOTSTRAP then (EmptyString, msgs, fs)
  else
    let '(r, fs') := run_tool (JStr "read_file") [("path", JStr path)] fs in
    (r, msgs ++ [assistant_says (JStr "read_file") [("path", JStr path)];
                 tool_result_note r], fs').

(** ** The agent loop *)

Record loop_state : Type := LoopState {
  msgs : list message;
  last_tool_result : option string;
  world : World
}.

(** What one round of the [for] loop does: go round again, or return. *)
Inductive turn : Type :=
| Again (st : loop_state)
| Answer (text : string) (w : World).

(** [llm(msgs)]: the conversation is recorded as sent. *)
Definition ask `{Host} (ms : list message) (w : World) : string * World :=
  (llm (asked w) ms, MkWorld (files w) (asked w ++ [ms])).

Definition args_of (data : dict) : option dict :=
  match dict_get "args" data with
  | Some (JObj a) => Some a
  | _ => None
  end.

Definition tool_of (data : dict) : json :=
  match dict_get "tool" data with Some v => v | None => JNull end.

Definition planning_turn `{Host} (q : string) (st : loop_state) : turn :=
  let '(out, w) := ask (msgs st) (world st) in
  let raw := Py.strip out in
  match extract_last_json_dict raw with
  | None | Some [] =>
      Again (LoopState (msgs st ++ [corrective]) (last_tool_result st) w)
  | Some data =>
      let tool := tool_of data in
      let final := get_not_none "final" data in
      match truthy tool, args_of data with
      | true, Some args =>
          let '(result, fs') := run_tool tool args (files w) in
          Again (LoopState
                   (msgs st ++ [assistant_says tool args; tool_result_note result])
                   (Some result) (with_files w fs'))
      | _, _ =>
          match final with
          | Some f =>
              match _is_read_intent q, last_tool_result st with
              | true, Some r => Answer (if nonempty r then r else "[empty file]") w
              | _, _ => Answer (str_of f) w
              end
          | None => Again (LoopState (msgs st) (last_tool_result st) w)
          end
      end
  end.

Definition LOOP_EXHAUSTED : string := "ERROR: exceeded tool loop limit".

(** [for _ in range(n)] over [planning_turn], then the fixed error. *)
Fixpoint agent_loop `{Host} (n : nat) (q : string) (st : loop_state)
  : string * World :=
  match n with
  | O => (LOOP_EXHAUSTED, world st)
  | S n' =>
      match planning_turn q st with
      | Again st' => agent_loop n' q st'
      | Answer text w => (text, w)
      end
  end.

(** The request after the [agent:] prefix is taken off, and whether it
    was there. *)
Definition unprefix (q : string) : bool * string :=
  if Py.startswith FORCE_AGENT_PREFIX (Py.lower q)
  then (true, Py.lstrip (Py.drop_str (String.length FORCE_AGENT_PREFIX) q))
  else (false, q).

(** The conversation before the first model turn. *)
Definition bootstrap `{Host} (forced_agent : bool) (q : string) (fs : Fs.t)
  : list message * Fs.t :=
  let msgs := [Message "system" (Py.strip SYSTEM); Message "user" q] in
  if ENABLE_BOOTSTRAP && negb forced_agent then
    let path := _first_path_in q in
    match path with
    | Some p =>
        if nonempty p then
          let '(_, msgs', fs') := _bootstrap_file_read msgs p fs in (msgs', fs')
        else (msgs, fs)
    | None =>
        if Py.contains " file" (Py.lower q) then
          if Fs.isfile fs (PosixPath.join ROOT "notes.txt") then
            let '(_, msgs', fs') := _bootstrap_file_read msgs "./notes.txt" fs in
            (msgs', fs')
          else (msgs, fs)
        else (msgs, fs)
    end
  else (msgs, fs).

Definition short_circuit `{Host} (forced_agent : bool) (q : string) (fs : Fs.t)
  : option string :=
  if ENABLE_DETERMINISTIC && negb forced_agent then deterministic_execute q fs
  else None.

Definition initial_state `{Host} (forced_agent : bool) (q : string) (w : World)
  : loop_state :=
  let '(msgs, fs') := bootstrap forced_agent q (files w) in
  LoopState msgs None (with_files w fs').

Definition run_query `{Host} (q0 : string) (w : World) : string * World :=
  let '(forced_agent, q) := unprefix q0 in
  match short_circuit forced_agent q (files w) with
  | Some det => (det, w)
  | None => agent_loop LOOP_LIMIT q (initial_state forced_agent q w)
  end.

End ToolsLoop.

(* ================================================================== *)
(** * A reference host, for closed examples *)
(* ================================================================== *)

(** [json.loads] on the part of JSON without fractions, exponents and
    [\u] escapes; such texts are refused here although Python reads them.
    No general theorem depends on this decoder. *)
Module Json.

Definition is_ws (c : ascii) : bool :=
  Py.is_char " " c || Py.is_char "009" c || Py.is_char "010" c || Py.is_char "013" c.

Definition skip_ws (s : string) : string := Py.lstrip_by is_ws s.

Definition unescape (e : ascii) : option ascii :=
  if Py.is_char Py.dquote e then Some Py.dquote
  else if Py.is_char "\" e then Some "\"%char
  else if Py.is_char "/" e then Some "/"%char
  else if Py.is_char "b" e then Some "008"%char
  else if Py.is_char "f" e then Some "012"%char
  else if Py.is_char "n" e then Some "010"%char
  else if Py.is_char "r" e then Some "013"%char
  else if Py.is_char "t" e then Some "009"%char
  else None.

(** The text of a string literal after its opening quote, and what
    follows the closing quote. *)
Fixpoint str_body (s : string) (acc_rev : string) : option (string * string) :=
  match s with
  | EmptyString => None
  | String c r =>
      if Py.is_char Py.dquote c then Some (Py.rev_str acc_rev, r)
      else if Py.is_char "\" c then
        match r with
        | String e r' =>
            match unescape e with
            | Some x => str_body r' (String x acc_rev)
            | None => None
            end
        | EmptyString => None
        end
      else if (Py.code c <? 32)%nat then None
      else str_body r (String c acc_rev)
  end.

Fixpoint digits (s : string) (acc : Z) : Z * string :=
  match s with
  | String c r =>
      if Py.is_digit c then digits r (10 * acc + Z.of_nat (Py.code c - 48))%Z
      else (acc, s)
  | EmptyString => (acc, s)
  end.

Definition starts_fraction (s : string) : bool :=
  match s with
  | String c _ => Py.one_of ".eE" c
  | EmptyString => false
  end.

(** An integer: an optional minus, then [0] or a digit run without a
    leading zero. *)
Definition unsigned (s : string) : option (Z * string) :=
  match s with
  | String c r =>
      if Py.is_char "0" c then
        if starts_fraction r then None else Some (0%Z, r)
      else if Py.is_digit c then
        let '(z, r') := digits s 0%Z in
        if starts_fraction r' then None else Some (z, r')
      else None
  | EmptyString => None
  end.

Definition number (s : string) : option (json * string) :=
  match s with
  | String c r =>
      if Py.is_char "-" c then
        match unsigned r with
        | Some (z, r') => Some (JInt (- z), r')
        | None => None
        end
      else
        match unsigned s with
        | Some (z, r') => Some (JInt z, r')
        | None => None
        end
  | EmptyString => None
  end.

Fixpoint value (fuel : nat) (s : string) : option (json * string) :=
  match fuel with
  | O => None
  | S f =>
      match s with
      | EmptyString => None
      | String c r =>
          if Py.is_char "{" c then
            match skip_ws r with
            | String d r' =>
                if Py.is_char "}" d then Some (JObj [], r')
                else members f (skip_ws r) []
            | EmptyString => None
            end
          else if Py.is_char "[" c then
            match skip_ws r with
            | String d r' =>
                if Py.is_char "]" d then Some (JArr [], r')
                else elements f (skip_ws r) []
            | EmptyString => None
            end
          else if Py.is_char Py.dquote c then
            match str_body r EmptyString with
            | Some (t, r') => Some (JStr t, r')
            | None => None
            end
          else if Py.startswith "null" s then Some (JNull, Py.drop_str 4 s)
          else if Py.startswith "true" s then Some (JBool true, Py.drop_str 4 s)
          else if Py.startswith "false" s then Some (JBool false, Py.drop_str 5 s)
          else number s
      end
  end
with members (fuel : nat) (s : string) (acc : dict) : option (json * string) :=
  match fuel with
  | O => None
  | S f =>
      match s with
      | String c r =>
          if Py.is_char Py.dquote c then
            match str_body r EmptyString with
            | Some (k, r1) =>
                match skip_ws r1 with
                | String colon r2 =>
                    if Py.is_char ":" colon then
                      match value f (skip_ws r2) with
                      | Some (v, r3) =>
                          let acc' := dict_set k v acc in
                          match skip_ws r3 with
                          | String d r4 =>
                              if Py.is_char "," d then members f (skip_ws r4) acc'
                              else if Py.is_char "}" d then Some (JObj acc', r4)
                              else None
                          | EmptyString => None
                          end
                      | None => None
                      end
                    else None
                | EmptyString => None
                end
            | None => None
            end
          else None
      | EmptyString => None
      end
  end
with elements (fuel : nat) (s : string) (acc_rev : list json)
  : option (json * string) :=
  match fuel with
  | O => None
  | S f =>
      match value f s with
      | Some (v, r) =>
          match skip_ws r with
          | String d r' =>
              if Py.is_char "," d then elements f (skip_ws r') (v :: acc_rev)
              else if Py.is_char "]" d then Some (JArr (rev (v :: acc_rev)), r')
              else None
          | EmptyString => None
          end
      | None => None
      end
  end.

Definition loads (s : string) : option json :=
  match value (S (String.length s)) (skip_ws s) with
  | Some (v, r) => if String.eqb (skip_ws r) EmptyString then Some v else None
  | None => None
  end.

End Json.

(** Python's [eval] on integer arithmetic: decimal literals, [+ - * **],
    unary signs, parentheses and blanks.  Anything else ([/], a fraction,
    a negative exponent, ill-formed text) is outside and answers [None]. *)
Module Arith.

Inductive tok : Type :=
| TInt (z : Z) | TPlus | TMinus | TStar | TPow | TOpen | TClose.

Fixpoint all_zero (s : string) : bool :=
  match s with
  | String c r => Py.is_char "0" c && all_zero r
  | EmptyString => true
  end.

Fixpoint digit_run (s : string) : string * string :=
  match s with
  | String c r =>
      if Py.is_digit c then let '(d, r') := digit_run r in (String c d, r')
      else (EmptyString, s)
  | EmptyString => (EmptyString, EmptyString)
  end.

Fixpoint lex (fuel : nat) (s : string) : option (list tok) :=
  match fuel with
  | O => None
  | S f =>
      match s with
      | EmptyString => Some []
      | String c r =>
          if Py.is_char " " c || Py.is_char "009" c then lex f r
          else if Py.is_digit c then
            let '(d, r') := digit_run s in
            if Py.is_char "0" c && negb (all_zero d) then None
            else
              match r' with
              | String x _ => if Py.is_char "." x then None
                              else option_map (cons (TInt (fst (Json.digits d 0%Z)))) (lex f r')
              | EmptyString => Some [TInt (fst (Json.digits d 0%Z))]
              end
          else if Py.is_char "+" c then option_map (cons TPlus) (lex f r)
          else if Py.is_char "-" c then option_map (cons TMinus) (lex f r)
          else if Py.is_char "(" c then option_map (cons TOpen) (lex f r)
          else if Py.is_char ")" c then option_map (cons TClose) (lex f r)
          else if Py.is_char "*" c then
            match r with
            | String x r' =>
                if Py.is_char "*" x then option_map (cons TPow) (lex f r')
                else option_map (cons TStar) (lex f r)
            | EmptyString => Some [TStar]
            end
          else None
      end
  end.

(** Python's grammar: an expression is a sum of terms, a term a product
    of factors, a factor a signed factor or a power, and a power an atom
    with an optional exponent, itself a factor. *)
Fixpoint expr (fuel : nat) (ts : list tok) : option (Z * list tok) :=
  match fuel with
  | O => None
  | S f =>
      match term f ts with
      | Some (v, r) => expr_more f v r
      | None => None
      end
  end
with expr_more (fuel : nat) (acc : Z) (ts : list tok) : option (Z * list tok) :=
  match fuel with
  | O => None
  | S f =>
      match ts with
      | TPlus :: r =>
          match term f r with
          | Some (v, r') => expr_more f (acc + v)%Z r'
          | None => None
          end
      | TMinus :: r =>
          match term f r with
          | Some (v, r') => expr_more f (acc - v)%Z r'
          | None => None
          end
      | _ => Some (acc, ts)
      end
  end
with term (fuel : nat) (ts : list tok) : option (Z * list tok) :=
  match fuel with
  | O => None
  | S f =>
      match factor f ts with
      | Some (v, r) => term_more f v r
      | None => None
      end
  end
with term_more (fuel : nat) (acc : Z) (ts : list tok) : option (Z * list tok) :=
  match fuel with
  | O => None
  | S f =>
      match ts with
      | TStar :: r =>
          match factor f r with
          | Some (v, r') => term_more f (acc * v)%Z r'
          | None => None
          end
      | _ => Some (acc, ts)
      end
  end
with factor (fuel : nat) (ts : list tok) : option (Z * list tok) :=
  match fuel with
  | O => None
  | S f =>
      match ts with
      | TPlus :: r => factor f r
      | TMinus :: r =>
          match factor f r with
          | Some (v, r') => Some ((- v)%Z, r')
          | None => None
          end
      | _ => power f ts
      end
  end
with power (fuel : nat) (ts : list tok) : option (Z * list tok) :=
  match fuel with
  | O => None
  | S f =>
      match atom f ts with
      | Some (b, TPow :: r) =>
          match factor f r with
          | Some (e, r') => if (e <? 0)%Z then None else Some ((b ^ e)%Z, r')
          | None => None
          end
      | other => other
      end
  end
with atom (fuel : nat) (ts : list tok) : option (Z * list tok) :=
  match fuel with
  | O => None
  | S f =>
      match ts with
      | TInt z :: r => Some (z, r)
      | TOpen :: r =>
          match expr f r with
          | Some (v, TClose :: r') => Some (v, r')
          | _ => None
          end
      | _ => None
      end
  end.

Definition eval (s : string) : option Z :=
  match lex (S (String.length s)) s with
  | Some ts =>
      match expr (8 * List.length ts + 8) ts with
      | Some (v, []) => Some v
      | _ => None
      end
  | None => None
  end.

End Arith.

(** A host built from the two decoders above.  Its model replays a
    script: the [n]-th call answers the [n]-th line.  The remaining fields
    are simple renderings, exact on the values the examples reach. *)
Module Demo.

Definition hex_digit (n : nat) : ascii :=
  if (n <? 10)%nat then ascii_of_nat (48 + n) else ascii_of_nat (87 + n).

Definition escape_char (c : ascii) : string :=
  if Py.is_char Py.dquote c then String "\" (String Py.dquote EmptyString)
  else if Py.is_char "\" c then "\\"
  else if Py.is_char "010" c then "\n"
  else if Py.is_char "013" c then "\r"
  else if Py.is_char "009" c then "\t"
  else if Py.between 32 126 c then String c EmptyString
  else "\u00" +:+ String (hex_digit (Py.code c / 16))
                      (String (hex_digit (Py.code c mod 16)) EmptyString).

Fixpoint escape (s : string) : string :=
  match s with
  | EmptyString => EmptyString
  | String c r => escape_char c +:+ escape r
  end.

Definition quoted (s : string) : string :=
  String Py.dquote (escape s +:+ String Py.dquote EmptyString).

(** [json.dumps] with its default separators. *)
Fixpoint dumps (v : json) : string :=
  match v with
  | JNull => "null"
  | JBool true => "true"
  | JBool false => "false"
  | JInt z => pretty z
  | JFloat _ literal => literal
  | JStr s => quoted s
  | JArr items =>
      "[" +:+ (fix go (l : list json) : string :=
                 match l with
                 | [] => EmptyString
                 | [x] => dumps x
                 | x :: more => dumps x +:+ ", " +:+ go more
                 end) items +:+ "]"
  | JObj fields =>
      "{" +:+ (fix go (l : list (string * json)) : string :=
                 match l with
                 | [] => EmptyString
                 | [(k, x)] => quoted k +:+ ": " +:+ dumps x
                 | (k, x) :: more => quoted k +:+ ": " +:+ dumps x +:+ ", " +:+ go more
                 end) fields +:+ "}"
  end.

(** [str] of a value that is not a [str]. *)
Definition str (v : json) : string :=
  match v with
  | JNull => "None"
  | JBool true => "True"
  | JBool false => "False"
  | other => dumps other
  end.

Definition eval (s : string) : eval_result :=
  match Arith.eval s with
  | Some z => Returned (pretty z)
  | None => Raised "invalid syntax"
  end.

Definition text (b : builtin_exn) : string :=
  match b with
  | NoSuchTool (JStr name) => "'" +:+ name +:+ "'"
  | NoSuchTool other => dumps other
  | BadCall tool _ => tool +:+ "() got unexpected arguments"
  | NotAString _ => "expected str"
  | CannotOpen path => "cannot open '" +:+ path +:+ "'"
  end.

Definition scripted (script : list string) (history : list (list message))
  (_ : list message) : string :=
  nth (List.length history) script EmptyString.

Definition host (dir : string) (script : list string) : Host :=
  {| cwd := dir;
     json_loads := Json.loads;
     json_dumps := dumps;
     py_str := str;
     py_eval := eval;
     exn_text := text;
     set_order := elements;
     llm := scripted script |}.

(** A project directory with three files, one of them empty, and a
    sibling directory whose name extends the project's. *)
Definition project : string := "/home/user/proj".

Definition disk : Fs.t :=
  list_to_map
    [ (["home"], Fs.Dir);
      (["home"; "user"], Fs.Dir);
      (["home"; "user"; "proj"], Fs.Dir);
      (["home"; "user"; "proj"; "notes.txt"], Fs.File "Hello World");
      (["home"; "user"; "proj"; "empty.txt"], Fs.File EmptyString);
      (["home"; "user"; "proj"; "budget.csv"], Fs.File "item,cost");
      (["home"; "user"; "proj2"], Fs.Dir);
      (["home"; "user"; "proj2"; "secret.txt"], Fs.File "top secret") ].

Definition world0 : World := MkWorld disk [].

End Demo.

(* ================================================================== *)
(** * Vocabulary of the statements *)
(* ================================================================== *)

(** Top-level brace groups of a text, defined without the extractor's
    loop variables. *)
Module Braces.

(** Plain brace counting from depth [d]: [None] as soon as a closing
    brace has no partner. *)
Fixpoint nesting (d : nat) (s : string) : option nat :=
  match s with
  | EmptyString => Some d
  | String c r =>
      if Py.is_char "{" c then nesting (S d) r
      else if Py.is_char "}" c then
        match d with
        | O => None
        | S d' => nesting d' r
        end
      else nesting d r
  end.

(** An opening brace, a body whose braces pair up, the closing brace. *)
Definition balanced_group (g : string) : Prop :=
  exists body, g = String "{" (body +:+ "}") /\ nesting 0 body = Some 0%nat.

(** An opening brace whose partner never comes. *)
Definition never_closed (t : string) : Prop :=
  exists body, t = String "{" body /\ nesting 0 body <> None.

(** [top_level text gs]: [gs] are the balanced groups of [text] that lie
    in no other group, from left to right.  Between them stands text
    without an opening brace; an opening brace that is never closed ends
    the list. *)
Inductive top_level : string -> list string -> Prop :=
| top_end : top_level EmptyString []
| top_skip (c : ascii) (t : string) (gs : list string) :
    Py.is_char "{" c = false -> top_level t gs -> top_level (String c t) gs
| top_group (g t : string) (gs : list string) :
    balanced_group g -> top_level t gs -> top_level (g +:+ t) (g :: gs)
| top_open (t : string) :
    never_closed t -> top_level t [].

(** The group parses as a JSON object. *)
Definition as_object `{Host} (g : string) : option dict :=
  match json_loads g with
  | Some (JObj d) => Some d
  | _ => None
  end.

End Braces.

(** Words for the statements about the tools and the loop. *)
Module Says.

(** What [calc] hands back for an outcome of the evaluator. *)
Definition shown (r : eval_result) : string :=
  match r with
  | Returned text => text
  | Raised msg => "ERROR: " +:+ msg
  end.

(** The host evaluates integer arithmetic as Python does. *)
Definition integer_arithmetic `{Host} : Prop :=
  forall s z, Arith.eval s = Some z -> py_eval s = Returned (pretty z).

(** The path resolves to a location inside the project root. *)
Definition in_sandbox `{Host} (path : string) : bool :=
  PosixPath.inside ROOT (PosixPath.abspath cwd (PosixPath.join ROOT path)).

(** The text with a carriage return between two letters. *)
Definition with_cr : string := String "a" (String "013" (String "b" EmptyString)).
Definition with_lf : string := String "a" (String "010" (String "b" EmptyString)).


(** The absolute path both file tools compute for [p]. *)
Definition resolved `{Host} (p : string) : string :=
  PosixPath.abspath cwd (PosixPath.join ROOT p).

(** The group just parsed replaces the running candidate. *)
Definition keep `{Host} (g : string) (last : option dict) : option dict :=
  match Braces.as_object g with Some d => Some d | None => last end.

Definition last_kept `{Host} (gs : list string) (last : option dict)
  : option dict :=
  fold_left (fun acc g => keep g acc) gs last.




(** The directive the loop reads from the model's reply in state [st]. *)
Definition directive_at `{Host} (st : ToolsLoop.loop_state) : option dict :=
  ToolsLoop.extract_last_json_dict
    (Py.strip (llm (asked (ToolsLoop.world st)) (ToolsLoop.msgs st))).

(** The tool branch of the loop applies to the directive. *)
Definition is_tool_call (data : dict) : bool :=
  truthy (ToolsLoop.tool_of data) &&
  match ToolsLoop.args_of data with Some _ => true | None => false end.

(** In state [st] the model's reply is a final answer with text [f]:
    a directive was read, the tool branch does not apply to it, and
    its [final] is not [None]. *)
Definition final_at `{Host} (st : ToolsLoop.loop_state) (f : json) : Prop :=
  exists data,
    directive_at st = Some data
    /\ is_tool_call data = false
    /\ get_not_none "final" data = Some f.

(** The loop state after [k] rounds that all went round again. *)
Fixpoint state_after `{Host} (k : nat) (q : string) (st : ToolsLoop.loop_state)
  : option ToolsLoop.loop_state :=
  match k with
  | O => Some st
  | S k' =>
      match ToolsLoop.planning_turn q st with
      | ToolsLoop.Again st' => state_after k' q st'
      | ToolsLoop.Answer _ _ => None
      end
  end.

(** The world once the model has been asked in state [st]. *)
Definition asked_once (st : ToolsLoop.loop_state) : World :=
  MkWorld (files (ToolsLoop.world st))
          (asked (ToolsLoop.world st) ++ [ToolsLoop.msgs st]).

End Says.

(** Replies of the model for the closed examples. *)
Module Scripts.



(** The model reads an empty file and then answers, with other words. *)
Definition reads_empty_again : list string :=
  [Py.jq "{`tool`: `read_file`, `args`: {`path`: `empty.txt`}}";
   Py.jq "{`final`: `The file is blank.`}"].

(** A directive with a tool call and a final text. *)
Definition tool_and_final : list string :=
  [Py.jq "{`tool`: `calc`, `args`: {`expr`: `2^3`}, `final`: `eight`}"].

(** A directive whose tool is the empty string. *)
Definition empty_tool_and_final : list string :=
  [Py.jq "{`tool`: ``, `args`: {}, `final`: `done`}"].

(** The state after [k] rounds, or the start when the run has ended. *)
Definition after `{Host} (k : nat) (q : string) : ToolsLoop.loop_state :=
  let st0 := ToolsLoop.initial_state true q Demo.world0 in
  match Says.state_after k q st0 with Some st => st | None => st0 end.

End Scripts.

(** What a match consumed, said without the matcher's continuations. *)
Module Matched.
Import Re.

(** [steps r c c']: the pattern [r] can take the matcher from the cursor
    [c] to the cursor [c']. *)
Inductive steps : regex -> cursor -> cursor -> Prop :=
| steps_eps (c : cursor) : steps Eps c c
| steps_chr (p : ascii -> bool) (c c' : cursor) (a : ascii) :
    advance c = Some (a, c') -> p a = true -> steps (Chr p) c c'
| steps_seq (r1 r2 : regex) (c c1 c2 : cursor) :
    steps r1 c c1 -> steps r2 c1 c2 -> steps (Seq r1 r2) c c2
| steps_alt_l (r1 r2 : regex) (c c' : cursor) :
    steps r1 c c' -> steps (Alt r1 r2) c c'
| steps_alt_r (r1 r2 : regex) (c c' : cursor) :
    steps r2 c c' -> steps (Alt r1 r2) c c'
| steps_star_stop (g : bool) (r : regex) (c : cursor) : steps (Star g r) c c
| steps_star_more (g : bool) (r : regex) (c c1 c2 : cursor) :
    steps r c c1 -> steps (Star g r) c1 c2 -> steps (Star g r) c c2
| steps_grp (i : nat) (r : regex) (c c' : cursor) :
    steps r c c' ->
    steps (Grp i r) c
      (Cursor (pos c') (prev c') (rest c') ((i, (pos c, pos c')) :: caps c'))
| steps_bol (c : cursor) : pos c = 0%nat -> steps Bol c c
| steps_eol (c : cursor) : at_eol c = true -> steps Eol c c
| steps_wordb (c : cursor) :
    xorb (at_word (prev c)) (at_word (next_char c)) = true -> steps WordB c c.

(** Between [c] and [c'] the matcher read the text [t]. *)
Definition consumed (c c' : cursor) (t : string) : Prop :=
  rest c = t +:+ rest c' /\ pos c' = (pos c + String.length t)%nat.

(** The characters a match of the pattern can be made of. *)
Fixpoint alphabet (r : regex) (a : ascii) : bool :=
  match r with
  | Eps | Bol | Eol | WordB => false
  | Chr p => p a
  | Seq r1 r2 | Alt r1 r2 => alphabet r1 a || alphabet r2 a
  | Star _ r' | Grp _ r' => alphabet r' a
  end.

(** Some character of [s] satisfies [p]. *)
Definition has (p : ascii -> bool) (s : string) : bool :=
  negb (Py.every (fun a => negb (p a)) s).

(** Every character of the class [q] is in the class [p]: the 256
    characters are tried one by one. *)
Definition within (q p : ascii -> bool) : bool :=
  forallb (fun n => implb (q (ascii_of_nat n)) (p (ascii_of_nat n))) (seq 0 256).

(** Every match of the pattern reads a character of the class [p]. *)
Fixpoint must (p : ascii -> bool) (r : regex) : bool :=
  match r with
  | Eps | Bol | Eol | WordB | Star _ _ => false
  | Chr q => within q p
  | Seq r1 r2 => must p r1 || must p r2
  | Alt r1 r2 => must p r1 && must p r2
  | Grp _ r' => must p r'
  end.

(** The characters of a number as [NUM_RE] matches it. *)
Definition num_char (a : ascii) : bool :=
  Py.is_digit a || Py.one_of "+-." a.

(** The text ends with [.txt], in any letter case. *)
Definition ends_with_txt (path : string) : Prop :=
  exists stem ext, path = stem +:+ ext /\ Py.lower ext = ".txt".

End Matched.

(** Words for the statements about the conversations a run sends. *)
Module Trace.

(** Each conversation of [sent] extends the one before it, the first
    one extending [ms]. *)
Fixpoint grows_from (ms : list message) (sent : list (list message)) : Prop :=
  match sent with
  | [] => True
  | c :: later => (exists more, c = ms ++ more) /\ grows_from c later
  end.

(** The two messages every conversation of [tools_loop.py] starts with. *)
Definition opening (q : string) : list message :=
  [Message "system" (Py.strip ToolsLoop.SYSTEM); Message "user" q].

(** The pair of messages a tool call leaves in the conversation. *)
Definition exchange `{Host} (tool : json) (args : dict) (r : string)
  : list message :=
  [ToolsLoop.assistant_says tool args; ToolsLoop.tool_result_note r].

(** The files [fs] came from the files [fs0] by writes of regular files
    only, each at a place named by the resolution of a path that begins
    with the text of [ROOT]: the directories are the same, and every
    place that differs is such a place. *)
Definition only_files_within `{Host} (fs0 fs : Fs.t) : Prop :=
  (forall cur, Fs.is_dir fs cur = Fs.is_dir fs0 cur)
  /\ forall loc,
       fs !! loc <> fs0 !! loc ->
       exists p,
         Py.startswith ROOT (Says.resolved p) = true
         /\ Fs.locate fs0 (Says.resolved p) = Some loc
         /\ exists text, fs !! loc = Some (Fs.File text).

End Trace.

(* ================================================================== *)
(** * [src/agent.py]: direct commands, the planner and [run_query] *)
(* ================================================================== *)

(** One call of [llm(messages, temperature, max_tokens)] in [agent.py];
    the temperature is kept by its literal. *)
Record request : Type := Request {
  messages : list message;
  temperature : string;
  max_tokens : nat
}.

(** The model service of [agent.py], which sees the calls made before
    the present one, and the interpreter's [float]:
    [float_at_least text bound] is [float(text) >= bound], and [false]
    when [float(text)] raises. *)
Class Service : Type := {
  complete : list request -> request -> string;
  float_at_least : string -> string -> bool
}.

Module AgentRun.
Import Re.

Definition PLAN_CONF_THRESHOLD : string := "0.6".

Definition WHITELIST_TOOLS : gset string :=
  {[ "read_file"; "write_file"; "calc"; "find_number" ]}.

Definition SENTINEL_AGENT : string := "<|agent|>".
Definition SENTINEL_CHAT : string := "<|chat|>".

(** The dot of a pattern: any character but the newline; with
    [re.DOTALL], any character. *)
Definition not_newline (c : ascii) : bool := negb (Py.is_char "010" c).
Definition any_char (c : ascii) : bool := true.
Definition not_space (c : ascii) : bool := negb (Py.is_space c).

(** [RE_READ]: at the start, [!read], white space, then group 1, one or
    more characters of a line, up to the end; ignoring case. *)
Definition RE_READ : regex :=
  Seq Bol (Seq (lits_i "!read") (Seq Pat.spaces1
    (Seq (Grp 1 (Plus (Chr not_newline))) Eol))).

(** [RE_WRITE]: at the start, [!write], white space, group 1 of one or
    more characters that are no white space, white space, three [<],
    optional white space, then group 2, any text up to the end; ignoring
    case, the dot matching newlines too. *)
Definition RE_WRITE : regex :=
  Seq Bol (Seq (lits_i "!write") (Seq Pat.spaces1
    (Seq (Grp 1 (Plus (Chr not_space))) (Seq Pat.spaces1
      (Seq (lits_i "<<<") (Seq (Star true (Chr Py.is_space))
        (Seq (Grp 2 (Star true (Chr any_char))) Eol))))))).

(** [RE_CALC] and [RE_NUM]: as [RE_READ], with [!calc] and [!num]. *)
Definition RE_CALC : regex :=
  Seq Bol (Seq (lits_i "!calc") (Seq Pat.spaces1
    (Seq (Grp 1 (Plus (Chr not_newline))) Eol))).

Definition RE_NUM : regex :=
  Seq Bol (Seq (lits_i "!num") (Seq Pat.spaces1
    (Seq (Grp 1 (Plus (Chr not_newline))) Eol))).

(** The tool state of [agent.py]: the files, the session memory and the
    calls made to the model. *)
Record Session : Type := MkSession {
  disk : Fs.t;
  known_files : gset string;
  calls : list request
}.

Definition with_disk (s : Session) (fs : Fs.t) : Session :=
  MkSession fs (known_files s) (calls s).

Definition with_known (s : Session) (known : gset string) : Session :=
  MkSession (disk s) known (calls s).

(** What ends a run that no [try] catches. *)
Inductive failure : Type :=
| Unhashable (v : json)   (* TypeError: a list or dict looked up in a set or dict *)
| NoGet (v : json)        (* AttributeError: [args.get] on a value that is no dict *)
| InTool (e : pyexn).     (* raised inside a tool *)

(** A run returns a value (a [str], or whatever the model put under
    [final]) or ends with an exception. *)
Inductive outcome : Type :=
| Returns (v : json)
| Fails (f : failure).

Inductive attempt (A : Type) : Type :=
| Done (a : A)
| Failed (f : failure).
Arguments Done {A} a.
Arguments Failed {A} f.

(** [TOOLS]: each tool takes the [args] dict. *)
Definition TOOLS `{Host} : list (string * (dict -> Fs.t -> result string * Fs.t)) :=
  [("read_file", fun args fs => (Agent.read_file args fs, fs));
   ("write_file", fun args fs => Agent.write_file args fs);
   ("calc", fun args fs => (Ok (Agent.calc args), fs));
   ("find_number", fun args fs => (Ok (Agent.find_number args), fs))].

(** [llm(messages, temperature, max_tokens)]: the call is recorded. *)
Definition llm `{Service} (ms : list message) (temp : string) (limit : nat)
  (s : Session) : string * Session :=
  let r := Request ms temp limit in
  (complete (calls s) r, MkSession (disk s) (known_files s) (calls s ++ [r])).

Definition PLANNER_SYSTEM : string :=
"You are a router. Decide how to handle the user's request.
Return ONE JSON object only with keys: route, tool, args, confidence.
- route: 'tool' or 'chat'
- tool: one of ['read_file','write_file','calc','find_number'] or null when route='chat'
- args: object of arguments for the chosen tool ({} if none)
- confidence: float 0.0..1.0 (your certainty)
No prose. No markdown. JSON only.".

Definition plan_route `{Host} `{Service} (user_prompt : string) (s : Session)
  : dict * Session :=
  let '(out, s') :=
    llm [Message "system" PLANNER_SYSTEM; Message "user" user_prompt] "0.0" 200 s in
  let raw := Py.strip out in
  match json_loads raw with
  | Some (JObj obj) => (obj, s')
  | _ =>
      match Agent.extract_last_json_dict raw with
      | Some obj => (obj, s')
      | None => ([], s')
      end
  end.

(** [tool not in WHITELIST_TOOLS] hashes [tool]: a list or a dict raises. *)
Definition valid_tool_choice (tool : json) (args : dict) : attempt bool :=
  match tool with
  | JArr _ | JObj _ => Failed (Unhashable tool)
  | JStr name =>
      if negb (bool_decide (name ∈ WHITELIST_TOOLS)) then Done false
      else if String.eqb name "read_file" && negb (has_key "path" args)
      then Done false
      else if String.eqb name "write_file"
              && negb (forallb (fun k => has_key k args) ["path"; "text"])
      then Done false
      else if String.eqb name "calc" && negb (has_key "expr" args) then Done false
      else if String.eqb name "find_number" && negb (has_key "text" args)
      then Done false
      else Done true
  | _ => Done false
  end.

(** [m.group(i)] handed to the tools as the values of a fresh dict. *)
Definition handle_direct_command `{Host} (q : string) (fs : Fs.t)
  : option (result string * Fs.t) :=
  match match_ RE_READ q with
  | Some m =>
      Some (Agent.read_file [("path", JStr (Py.strip (group 1 q m)))] fs, fs)
  | None =>
  match match_ RE_WRITE q with
  | Some m =>
      Some (Agent.write_file
              [("path", JStr (group 1 q m)); ("text", JStr (group 2 q m))] fs)
  | None =>
  match match_ RE_CALC q with
  | Some m => Some (Ok (Agent.calc [("expr", JStr (Py.strip (group 1 q m)))]), fs)
  | None =>
  match match_ RE_NUM q with
  | Some m => Some (Ok (Agent.find_number [("text", JStr (group 1 q m))]), fs)
  | None => None
  end end end end.

(** [d.get(k, default)]. *)
Definition get_or (k : string) (default : json) (d : dict) : json :=
  match dict_get k d with Some v => v | None => default end.

Definition is_read_file (t : json) : bool :=
  match t with JStr name => String.eqb name "read_file" | _ => false end.

(** [fn = TOOLS.get(t)], the unknown-tool text, [fn(a)] and the label
    put before the result: the same lines at the three places that run
    a tool. *)
Definition dispatch `{Host} (t a : json) (fs : Fs.t) : outcome * Fs.t :=
  match t with
  | JArr _ | JObj _ => (Fails (Unhashable t), fs)
  | _ =>
      match (match t with
             | JStr name => ToolsLoop.assoc name TOOLS
             | _ => None
             end) with
      | None => (Returns (JStr ("ERROR: unknown tool '" +:+ str_of t +:+ "'")), fs)
      | Some fn =>
          match a with
          | JObj args =>
              match fn args fs with
              | (Ok res, fs') =>
                  (Returns (JStr (if is_read_file t then res
                                  else "[TOOL RESULT] " +:+ res)), fs')
              | (Raise e, fs') => (Fails (InTool e), fs')
              end
          | other => (Fails (NoGet other), fs)
          end
      end
  end.

Definition run_tool_of `{Host} (t a : json) (s : Session) : outcome * Session :=
  let '(o, fs') := dispatch t a (disk s) in (o, with_disk s fs').

(** [float(v) >= PLAN_CONF_THRESHOLD], and [False] when [float(v)]
    raises: [None], a list and a dict raise TypeError, an [int] too
    large for a [float] raises OverflowError. *)
Definition reaches_threshold `{Service} (v : json) : bool :=
  match v with
  | JNull => false
  | JBool b => b
  | JInt z => (1 <=? z)%Z && (z <? 2 ^ 1024 - 2 ^ 970)%Z
  | JFloat _ literal => float_at_least literal PLAN_CONF_THRESHOLD
  | JStr text => float_at_least text PLAN_CONF_THRESHOLD
  | JArr _ | JObj _ => false
  end.

(** [conf >= PLAN_CONF_THRESHOLD] for
    [conf = float(plan.get("confidence", 0.0))] under its [try]. *)
Definition confident `{Service} (plan : dict) : bool :=
  match dict_get "confidence" plan with
  | Some v => reaches_threshold v
  | None => false
  end.

(** The free chat: one call, its reply stripped. *)
Definition free_chat `{Service} (q : string) (s : Session) : outcome * Session :=
  let '(out, s') :=
    llm [Message "system" "You are a helpful assistant."; Message "user" q]
        "0.3" 600 s in
  (Returns (JStr (Py.strip out)), s').

(** The fallback: one normal call, then [autowrap_to_action]. *)
Definition fallback `{Host} `{Service} (q : string) (s : Session)
  : outcome * Session :=
  let '(raw, s1) :=
    llm [Message "system" "You are an assistant. Respond naturally.";
         Message "user" q] "0.3" 500 s in
  let '(data, known) :=
    Agent.autowrap_to_action raw q (known_files s1) (disk s1) in
  let s2 := with_known s1 known in
  if has_key "tool" data then
    run_tool_of (get_or "tool" JNull data) (get_or "args" (JObj []) data) s2
  else if has_key "final" data then (Returns (get_or "final" JNull data), s2)
  else (Returns (JStr "ERROR: no valid result"), s2).

(** What follows the confident tool branch when it has not returned. *)
Definition chat_or_fallback `{Host} `{Service} (route : string)
  (conf_reaches force_agent : bool) (q : string) (s : Session)
  : outcome * Session :=
  if String.eqb route "chat" && conf_reaches && negb force_agent
  then free_chat q s
  else fallback q s.

(** The planner pass and the branches after it. *)
Definition planned `{Host} `{Service} (force_agent : bool) (q : string)
  (s : Session) : outcome * Session :=
  let '(plan, s1) := plan_route q s in
  let route :=
    if force_agent then "tool"
    else Py.lower (str_of (get_or "route" (JStr EmptyString) plan)) in
  let tool := get_or "tool" JNull plan in
  let args := match dict_get "args" plan with Some (JObj d) => d | _ => [] end in
  let conf_reaches := if force_agent then true else confident plan in
  let gate : attempt bool :=
    if String.eqb route "tool" && (force_agent || conf_reaches) then
      match tool with
      | JNull => Done true
      | _ => valid_tool_choice tool args
      end
    else Done false in
  match gate with
  | Failed f => (Fails f, s1)
  | Done false => chat_or_fallback route conf_reaches force_agent q s1
  | Done true =>
      match (if truthy tool then valid_tool_choice tool args else Done false) with
      | Failed f => (Fails f, s1)
      | Done true => run_tool_of tool (JObj args) s1
      | Done false =>
          let '(data, known) :=
            Agent.autowrap_to_action EmptyString q (known_files s1) (disk s1) in
          let s2 := with_known s1 known in
          if has_key "tool" data then
            run_tool_of (get_or "tool" JNull data) (get_or "args" (JObj []) data) s2
          else chat_or_fallback route conf_reaches force_agent q s2
      end
  end.

Definition of_result (r : result string) : outcome :=
  match r with
  | Ok text => Returns (JStr text)
  | Raise e => Fails (InTool e)
  end.

Definition run_query `{Host} `{Service} (user_input : string) (s : Session)
  : outcome * Session :=
  let q := Py.strip user_input in
  match handle_direct_command q (disk s) with
  | Some (direct, fs') => (of_result direct, with_disk s fs')
  | None =>
      if Py.startswith SENTINEL_AGENT q then
        planned true (Py.lstrip (Py.drop_str (String.length SENTINEL_AGENT) q)) s
      else if Py.startswith SENTINEL_CHAT q then free_chat q s
      else planned false q s
  end.

End AgentRun.

(** A scripted service for closed examples: the [n]-th call answers the
    [n]-th line; its [float] knows the texts the examples use. *)
Module DemoService.

Definition scripted (script : list string) (history : list request)
  (_ : request) : string :=
  nth (List.length history) script EmptyString.

Definition at_least (text bound : string) : bool :=
  String.eqb bound "0.6"
  && existsb (String.eqb text) ["0.6"; "0.7"; "0.8"; "0.9"; "0.95"; "1"; "1.0"].

Definition service (script : list string) : Service :=
  {| complete := scripted script; float_at_least := at_least |}.

Definition session0 : AgentRun.Session := AgentRun.MkSession Demo.disk ∅ [].

End DemoService.

(** Words for the statements about [run_query] of [agent.py]. *)
Module AgentSays.
Import AgentRun.

Definition planner_call (q : string) : request :=
  Request [Message "system" PLANNER_SYSTEM; Message "user" q] "0.0" 200.

Definition chat_call (q : string) : request :=
  Request [Message "system" "You are a helpful assistant."; Message "user" q]
          "0.3" 600.

Definition fallback_call (q : string) : request :=
  Request [Message "system" "You are an assistant. Respond naturally.";
           Message "user" q] "0.3" 500.

(** The request is a direct command. *)
Definition is_direct `{Host} (input : string) (s : Session) : bool :=
  match handle_direct_command (Py.strip input) (disk s) with
  | Some _ => true
  | None => false
  end.

(** The request starts with the agent sentinel. *)
Definition forced (input : string) : bool :=
  Py.startswith SENTINEL_AGENT (Py.strip input).

(** The request starts with the chat sentinel. *)
Definition free (input : string) : bool :=
  Py.startswith SENTINEL_CHAT (Py.strip input).

(** The request as the planner and the fallback see it: stripped, and
    without the agent sentinel and the white space after it. *)
Definition request_text (input : string) : string :=
  if forced input
  then Py.lstrip (Py.drop_str (String.length SENTINEL_AGENT) (Py.strip input))
  else Py.strip input.

(** The planner's answer to the request, as a dict. *)
Definition plan_of `{Host} `{Service} (input : string) (s : Session) : dict :=
  fst (plan_route (request_text input) s).

(** The session once the planner has been asked. *)
Definition planned_session (input : string) (s : Session) : Session :=
  MkSession (disk s) (known_files s) (calls s ++ [planner_call (request_text input)]).

(** The route read from the plan. *)
Definition route_of `{Host} (plan : dict) : string :=
  Py.lower (str_of (get_or "route" (JStr EmptyString) plan)).

(** A list or a dict: a value Python cannot hash. *)
Definition is_container (v : json) : bool :=
  match v with JArr _ | JObj _ => true | _ => false end.

(** The keys of [args] each tool reads. *)
Definition keys_read (name : string) : list string :=
  if String.eqb name "read_file" then ["path"]
  else if String.eqb name "write_file" then ["path"; "text"]
  else if String.eqb name "calc" then ["expr"]
  else if String.eqb name "find_number" then ["text"]
  else [].

(** The memory [known'] holds what [known] held, and beyond it only
    names declared in [q] by [... is a file], stripped and lowered. *)
Definition remembers_more (q : string) (known known' : gset string) : Prop :=
  known ⊆ known'
  /\ forall name,
       name ∈ known' ->
       name ∈ known
       \/ exists declared,
            In declared (Re.findall1 Pat.IS_A_FILE (Py.strip q))
            /\ name = Py.lower (Py.strip declared).

(** The files [fs'] are the files [fs], but for at most one place: the
    one named by the resolution of a path that begins with the text of
    [ROOT]. *)
Definition writes_within `{Host} (fs fs' : Fs.t) : Prop :=
  fs' = fs
  \/ exists p loc,
       Py.startswith ROOT (Says.resolved p) = true
       /\ Fs.locate fs (Says.resolved p) = Some loc
       /\ forall other, other <> loc -> fs' !! other = fs !! other.

End AgentSays.

(* ================================================================== *)
(** * Facts about texts *)
(* ================================================================== *)

#[local] Arguments String.append !s1 s2 : simpl nomatch.

Section StrFacts.

Lemma app_nil_r_str (s : string) : s +:+ EmptyString = s.
Proof. induction s as [|c s IH]; simpl; [reflexivity | now rewrite IH]. Qed.

Lemma app_assoc_str (a b c : string) : (a +:+ b) +:+ c = a +:+ (b +:+ c).
Proof. induction a as [|x a IH]; simpl; [reflexivity | now rewrite IH]. Qed.

Lemma length_app_str (a b : string) :
  String.length (a +:+ b) = String.length a + String.length b.
Proof. induction a as [|x a IH]; simpl; [reflexivity | now rewrite IH]. Qed.

Lemma drop_app_length (a b : string) : Py.drop_str (String.length a) (a +:+ b) = b.
Proof. induction a as [|x a IH]; simpl; [now destruct b | exact IH]. Qed.

Lemma take_app_length (a b : string) : Py.take_str (String.length a) (a +:+ b) = a.
Proof. induction a as [|x a IH]; simpl; [now destruct b | now rewrite IH]. Qed.

Lemma slice_middle (pre g t : string) :
  Py.slice (String.length pre) (String.length pre + String.length g)
           (pre +:+ (g +:+ t)) = g.
Proof.
  unfold Py.slice. rewrite drop_app_length.
  replace (String.length pre + String.length g - String.length pre)
    with (String.length g) by lia.
  apply take_app_length.
Qed.

Lemma is_char_eq (x c : ascii) : Py.is_char x c = true -> c = x.
Proof. unfold Py.is_char. intros E. apply Ascii.eqb_eq in E. now subst. Qed.

End StrFacts.

(* ================================================================== *)
(** * The allow-list pattern *)
(* ================================================================== *)

Section SafeExpr.
Import Re.

Lemma newline_is_safe (a : ascii) :
  Py.is_char "010" a = true -> Pat.safe_char a = true.
Proof. intros E. apply is_char_eq in E. subst a. reflexivity. Qed.

(** One round of a greedy repetition of a character class. *)
Lemma star_chr_round (p : ascii -> bool) (k : cursor -> option cursor)
  (fuel n : nat) (pv : option ascii) (a : ascii) (s : string) cs :
  star_loop true (run (Chr p)) k (S fuel) (Cursor n pv (String a s) cs) =
  if p a then
    match star_loop true (run (Chr p)) k fuel (Cursor (S n) (Some a) s cs) with
    | Some e => Some e
    | None => k (Cursor n pv (String a s) cs)
    end
  else k (Cursor n pv (String a s) cs).
Proof.
  cbn [star_loop run advance rest pos caps].
  destruct (p a); [|reflexivity].
  replace (n <? S n)%nat with true by (symmetry; apply Nat.ltb_lt; lia).
  reflexivity.
Qed.

Lemma star_chr_done (p : ascii -> bool) (k : cursor -> option cursor)
  (fuel n : nat) (pv : option ascii) cs :
  star_loop true (run (Chr p)) k (S fuel) (Cursor n pv EmptyString cs) =
  k (Cursor n pv EmptyString cs).
Proof. reflexivity. Qed.

(** The class repeated and then [$] succeeds exactly on texts made of
    the class: backtracking to a shorter run never helps, because the
    newline that [$] tolerates is itself in the class. *)
Lemma star_safe_then_end (s : string) :
  forall fuel n pv cs,
    (String.length s < fuel)%nat ->
    star_loop true (run (Chr Pat.safe_char)) at_end fuel (Cursor n pv s cs) <> None
    <-> Py.every Pat.safe_char s = true.
Proof.
  induction s as [|a s IH]; intros fuel n pv cs Hlen;
    (destruct fuel as [|fuel]; [simpl in Hlen; lia|]).
  - rewrite star_chr_done. cbn. split; [reflexivity | discriminate].
  - simpl in Hlen. assert (Hlen' : (String.length s < fuel)%nat) by lia.
    specialize (IH fuel (S n) (Some a) cs Hlen').
    rewrite star_chr_round. cbn [Py.every].
    assert (Hend : at_end (Cursor n pv (String a s) cs) <> None ->
                   s = EmptyString /\ Pat.safe_char a = true).
    { unfold at_end. cbn [run at_eol rest]. destruct s as [|b s'].
      - destruct (Py.is_char "010" a) eqn:Hn; [|congruence].
        intros _. split; [reflexivity | now apply newline_is_safe].
      - congruence. }
    destruct (Pat.safe_char a) eqn:Ha; cbn [andb].
    + destruct (star_loop true _ at_end fuel _) eqn:L.
      * split; [intros _; apply IH; discriminate | discriminate].
      * split.
        -- intros X. apply Hend in X as [-> _]. reflexivity.
        -- intros E. apply IH in E. congruence.
    + split; [|discriminate].
      intros X. apply Hend in X as [_ X]. discriminate X.
Qed.

Lemma SAFE_EXPR_spec (s : string) :
  match_ Pat.SAFE_EXPR s <> None <-> Py.every Pat.safe_char s = true.
Proof.
  rewrite <- (star_safe_then_end s (S (String.length s)) 0 None []) by lia.
  unfold match_, match_at, start_cursor, Pat.SAFE_EXPR.
  cbn [run pos rest Nat.eqb].
  change (fun c' : cursor => if at_eol c' then Some c' else None) with at_end.
  destruct (star_loop true _ at_end _ _); split; congruence.
Qed.

Lemma SAFE_EXPR_accepts (s : string) :
  Py.every Pat.safe_char s = true -> exists m, match_ Pat.SAFE_EXPR s = Some m.
Proof.
  intros E. apply SAFE_EXPR_spec in E.
  destruct (match_ Pat.SAFE_EXPR s) as [m|]; [now exists m | congruence].
Qed.

Lemma SAFE_EXPR_rejects (s : string) :
  Py.every Pat.safe_char s = false -> match_ Pat.SAFE_EXPR s = None.
Proof.
  intros E. destruct (match_ Pat.SAFE_EXPR s) as [m|] eqn:M; [|reflexivity].
  assert (X : match_ Pat.SAFE_EXPR s <> None) by congruence.
  apply SAFE_EXPR_spec in X. congruence.
Qed.

End SafeExpr.

(* ================================================================== *)
(** * calc: the character allow-list *)
(* ================================================================== *)

Section CalcFacts.
Context `{Host}.
Import Says.

Lemma agent_calc_safe (expr : string) :
  Py.every Pat.safe_char expr = true ->
  Agent.calc [("expr", JStr expr)] = shown (py_eval (Py.replace_caret expr)).
Proof.
  intros E. destruct (SAFE_EXPR_accepts expr E) as [m Hm].
  unfold Agent.calc, Agent.get_or_empty. cbn [dict_get String.eqb Ascii.eqb Bool.eqb str_of].
  rewrite Hm. reflexivity.
Qed.

Lemma agent_calc_unsafe (expr : string) :
  Py.every Pat.safe_char expr = false ->
  Agent.calc [("expr", JStr expr)] = "ERROR: invalid characters".
Proof.
  intros E. unfold Agent.calc, Agent.get_or_empty.
  cbn [dict_get String.eqb Ascii.eqb Bool.eqb str_of].
  now rewrite (SAFE_EXPR_rejects expr E).
Qed.

Lemma loop_calc_safe (expr : string) :
  Py.every Pat.safe_char expr = true ->
  ToolsLoop.calc (JStr expr) =
  match py_eval (Py.replace_caret expr) with
  | Returned text => Ok text
  | Raised msg => Raise (EvalRaised msg)
  end.
Proof.
  intros E. destruct (SAFE_EXPR_accepts expr E) as [m Hm].
  unfold ToolsLoop.calc. now rewrite Hm.
Qed.

Lemma loop_calc_unsafe (expr : string) :
  Py.every Pat.safe_char expr = false ->
  ToolsLoop.calc (JStr expr) = Raise (ValueError "bad chars in expr").
Proof.
  intros E. unfold ToolsLoop.calc. now rewrite (SAFE_EXPR_rejects expr E).
Qed.

(** [run_tool] on a well-formed call of [calc]. *)
Lemma run_tool_calc (expr : string) (fs : Fs.t) :
  ToolsLoop.run_tool (JStr "calc") [("expr", JStr expr)] fs =
  (match ToolsLoop.calc (JStr expr) with
   | Ok r => r
   | Raise e => "ERROR: " +:+ exn_str e
   end, fs).
Proof.
  unfold ToolsLoop.run_tool.
  change (ToolsLoop.call_tool (JStr "calc") [("expr", JStr expr)] fs)
    with (ToolsLoop.calc (JStr expr), fs).
  destruct (ToolsLoop.calc (JStr expr)); reflexivity.
Qed.

(** C2.  For every expression: when all its characters are in the
    allow-list (digits, [+ - * / ( ) .], white space, the caret), both
    [calc]s hand the expression with each caret rewritten to [**] to the
    evaluator and return what it gives; when some character is outside,
    they answer with a fixed error text that does not depend on the
    evaluator, so nothing was evaluated.  With an evaluator that does
    integer arithmetic, [2+2] gives [4] and [2^3] gives [8]; the
    expression [__import__('os')] is refused. *)
Theorem calc_allow_list :
  (forall expr fs,
      (Py.every Pat.safe_char expr = true ->
         Agent.calc [("expr", JStr expr)]
           = shown (py_eval (Py.replace_caret expr))
         /\ ToolsLoop.run_tool (JStr "calc") [("expr", JStr expr)] fs
           = (shown (py_eval (Py.replace_caret expr)), fs))
      /\ (Py.every Pat.safe_char expr = false ->
         Agent.calc [("expr", JStr expr)] = "ERROR: invalid characters"
         /\ ToolsLoop.calc (JStr expr) = Raise (ValueError "bad chars in expr")
         /\ ToolsLoop.run_tool (JStr "calc") [("expr", JStr expr)] fs
           = ("ERROR: bad chars in expr", fs)))
  /\ (integer_arithmetic ->
      Agent.calc [("expr", JStr "2+2")] = "4"
      /\ Agent.calc [("expr", JStr "2^3")] = "8"
      /\ forall fs,
           ToolsLoop.run_tool (JStr "calc") [("expr", JStr "2+2")] fs = ("4", fs)
           /\ ToolsLoop.run_tool (JStr "calc") [("expr", JStr "2^3")] fs = ("8", fs))
  /\ Agent.calc [("expr", JStr "__import__('os')")] = "ERROR: invalid characters"
  /\ forall fs,
       ToolsLoop.run_tool (JStr "calc") [("expr", JStr "__import__('os')")] fs
       = ("ERROR: bad chars in expr", fs).
Proof.
  assert (General : forall expr fs,
      (Py.every Pat.safe_char expr = true ->
         Agent.calc [("expr", JStr expr)]
           = shown (py_eval (Py.replace_caret expr))
         /\ ToolsLoop.run_tool (JStr "calc") [("expr", JStr expr)] fs
           = (shown (py_eval (Py.replace_caret expr)), fs))
      /\ (Py.every Pat.safe_char expr = false ->
         Agent.calc [("expr", JStr expr)] = "ERROR: invalid characters"
         /\ ToolsLoop.calc (JStr expr) = Raise (ValueError "bad chars in expr")
         /\ ToolsLoop.run_tool (JStr "calc") [("expr", JStr expr)] fs
           = ("ERROR: bad chars in expr", fs))).
  { intros expr fs. split; intros E.
    - split; [now apply agent_calc_safe|].
      rewrite run_tool_calc, (loop_calc_safe expr E).
      destruct (py_eval (Py.replace_caret expr)); reflexivity.
    - split; [now apply agent_calc_unsafe|].
      split; [now apply loop_calc_unsafe|].
      now rewrite run_tool_calc, (loop_calc_unsafe expr E). }
  split; [exact General|]. split.
  - intros Hint.
    assert (E4 : py_eval (Py.replace_caret "2+2") = Returned "4")
      by (apply (Hint _ 4%Z); vm_compute; reflexivity).
    assert (E8 : py_eval (Py.replace_caret "2^3") = Returned "8")
      by (apply (Hint _ 8%Z); vm_compute; reflexivity).
    split; [|split; [|intros fs; split]].
    + rewrite (proj1 (proj1 (General "2+2" ∅) eq_refl)). now rewrite E4.
    + rewrite (proj1 (proj1 (General "2^3" ∅) eq_refl)). now rewrite E8.
    + rewrite (proj2 (proj1 (General "2+2" fs) eq_refl)). now rewrite E4.
    + rewrite (proj2 (proj1 (General "2^3" fs) eq_refl)). now rewrite E8.
  - split.
    + exact (proj1 (proj2 (General "__import__('os')" ∅) eq_refl)).
    + intros fs. exact (proj2 (proj2 (proj2 (General "__import__('os')" fs) eq_refl))).
Qed.

End CalcFacts.

(** The reference host does integer arithmetic, so the examples of
    [calc_allow_list] hold of it. *)
Lemma calc_allow_list_witness :
  Agent.calc (H := Demo.host Demo.project []) [("expr", JStr "2+2")] = "4"
  /\ Agent.calc (H := Demo.host Demo.project []) [("expr", JStr "2^3")] = "8".
Proof.
  pose proof (proj1 (proj2 (@calc_allow_list (Demo.host Demo.project [])))) as Hex.
  assert (Hint : @Says.integer_arithmetic (Demo.host Demo.project [])).
  { intros s z Hs. cbn. unfold Demo.eval. rewrite Hs. reflexivity. }
  split; [exact (proj1 (Hex Hint)) | exact (proj1 (proj2 (Hex Hint)))].
Defined.

(* ================================================================== *)
(** * The protocol extractor returns the last parseable top-level group *)
(* ================================================================== *)

Section ExtractorFacts.
Context `{Host}.
Import Extractor Braces Says.

Lemma try_parse_keep (g : string) (last : option dict) :
  try_parse g last = keep g last.
Proof.
  unfold try_parse, keep, as_object. destruct (json_loads g) as [[]|]; reflexivity.
Qed.

(** Inside a group the loop only counts: nothing is parsed before the
    depth is back to zero. *)
Lemma scan_inside (body : string) :
  forall text i s d d' last todo,
    nesting d body = Some d' ->
    scan_from text i (body +:+ todo) (Scan (Some s) (S d) last) =
    scan_from text (i + String.length body) todo (Scan (Some s) (S d') last).
Proof.
  induction body as [|c body IH]; intros text i s d d' last todo Hn;
    cbn [nesting] in Hn.
  - injection Hn as <-. simpl. now rewrite Nat.add_0_r.
  - cbn [append scan_from String.length].
    replace (i + S (String.length body)) with (S i + String.length body) by lia.
    unfold scan_step. cbn [depth start Extractor.last].
    destruct (Py.is_char "{" c) eqn:Eo; [|destruct (Py.is_char "}" c) eqn:Ec].
    + cbn [Nat.eqb]. apply IH. exact Hn.
    + destruct d as [|d0]; [discriminate Hn|].
      replace (S (S d0) - 1) with (S d0) by lia.
      cbn [Nat.ltb Nat.leb Nat.eqb]. apply IH. exact Hn.
    + apply IH. exact Hn.
Qed.

(** A balanced group met at depth zero is sliced out whole and parsed
    when its closing brace is read. *)
Lemma scan_group (g : string) :
  balanced_group g ->
  forall pre t st last,
    scan_from (pre +:+ (g +:+ t)) (String.length pre) (g +:+ t) (Scan st 0 last) =
    scan_from (pre +:+ (g +:+ t)) (String.length pre + String.length g) t
      (Scan (Some (String.length pre)) 0 (keep g last)).
Proof.
  intros (body & -> & Hb) pre t st last.
  cbn [append scan_from]. unfold scan_step at 1.
  cbn [depth start Extractor.last Py.is_char Ascii.eqb Bool.eqb Nat.eqb].
  rewrite app_assoc_str.
  rewrite (scan_inside body _ _ _ 0 0) by exact Hb.
  cbn [append scan_from]. unfold scan_step.
  cbn [depth start Extractor.last Py.is_char Ascii.eqb Bool.eqb Nat.eqb
       Nat.ltb Nat.leb Nat.sub].
  rewrite try_parse_keep.
  replace (Py.slice _ _ _) with (String "{" (body +:+ "}")).
  - f_equal. cbn [String.length]. rewrite length_app_str. simpl. lia.
  - symmetry.
    rewrite <- (slice_middle pre (String "{" (body +:+ "}")) t) at 1.
    f_equal.
    + cbn [String.length]. rewrite length_app_str. simpl. lia.
    + cbn [append]. now rewrite app_assoc_str.
Qed.

(** After an opening brace that is never closed nothing more is parsed. *)
Lemma scan_open (t : string) :
  never_closed t ->
  forall text i st last, scan_from text i t (Scan st 0 last) = last.
Proof.
  intros (body & -> & Hb) text i st last.
  destruct (nesting 0 body) as [d'|] eqn:Hn; [|contradiction].
  cbn [scan_from]. unfold scan_step.
  cbn [depth start Extractor.last Py.is_char Ascii.eqb Bool.eqb Nat.eqb].
  rewrite <- (app_nil_r_str body).
  rewrite (scan_inside body _ _ _ 0 d') by exact Hn.
  reflexivity.
Qed.

(** The loop, started anywhere at depth zero, keeps the last group that
    parses among the top-level groups still ahead. *)
Lemma scan_top_level (t : string) (gs : list string) :
  top_level t gs ->
  forall pre st last,
    scan_from (pre +:+ t) (String.length pre) t (Scan st 0 last) = last_kept gs last.
Proof.
  induction 1 as [|c t gs Hc _ IH|g t gs Hg _ IH|t Ht]; intros pre st last.
  - reflexivity.
  - cbn [scan_from]. unfold scan_step. rewrite Hc.
    cbn [depth Nat.ltb Nat.leb].
    replace (if Py.is_char "}" c then Scan st 0 last else Scan st 0 last)
      with (Scan st 0 last) by (now destruct (Py.is_char "}" c)).
    specialize (IH (pre +:+ String c EmptyString) st last).
    rewrite app_assoc_str, length_app_str in IH. cbn [append String.length] in IH.
    rewrite Nat.add_1_r in IH. exact IH.
  - rewrite scan_group by exact Hg.
    specialize (IH (pre +:+ g) (Some (String.length pre)) (keep g last)).
    rewrite app_assoc_str, length_app_str in IH. exact IH.
  - now apply scan_open.
Qed.

Lemma last_kept_none (gs : list string) (last : option dict) :
  Forall (fun g => as_object g = None) gs -> last_kept gs last = last.
Proof.
  intros Hall. revert last. induction Hall as [|g gs Hg _ IH]; intros last.
  - reflexivity.
  - cbn [last_kept fold_left]. unfold keep at 2. rewrite Hg. apply IH.
Qed.

Lemma last_kept_some (before after : list string) (g : string) (d : dict)
  (last : option dict) :
  as_object g = Some d ->
  Forall (fun g' => as_object g' = None) after ->
  last_kept (before ++ g :: after) last = Some d.
Proof.
  intros Hg Hafter. unfold last_kept. rewrite fold_left_app. cbn [fold_left].
  unfold keep at 2. rewrite Hg. now apply last_kept_none.
Qed.

(** Either the group opened before [body] is closed inside it, or it
    stays open to the end. *)
Lemma close_or_open (body : string) :
  forall d,
    (exists b1 t', body = b1 +:+ String "}" t' /\ nesting d b1 = Some 0%nat)
    \/ nesting d body <> None.
Proof.
  induction body as [|c r IH]; intros d.
  - right. discriminate.
  - cbn [nesting].
    destruct (Py.is_char "{" c) eqn:Eo; [|destruct (Py.is_char "}" c) eqn:Ec].
    + destruct (IH (S d)) as [(b1 & t' & -> & Hb)|Hopen]; [left|now right].
      exists (String c b1), t'. split; [reflexivity|]. cbn [nesting]. now rewrite Eo.
    + apply is_char_eq in Ec as ->. destruct d as [|d0].
      * left. exists EmptyString, r. split; reflexivity.
      * destruct (IH d0) as [(b1 & t' & -> & Hb)|Hopen]; [left|now right].
        exists (String "}" b1), t'. split; [reflexivity|]. exact Hb.
    + destruct (IH d) as [(b1 & t' & -> & Hb)|Hopen]; [left|now right].
      exists (String c b1), t'. split; [reflexivity|]. cbn [nesting]. now rewrite Eo, Ec.
Qed.

(** Every text has its list of top-level groups. *)
Lemma top_level_total (text : string) : exists gs, top_level text gs.
Proof.
  remember (String.length text) as n eqn:Hn.
  revert text Hn. induction n as [n IH] using lt_wf_ind. intros text Hn.
  destruct text as [|c t].
  - exists []. constructor.
  - destruct (Py.is_char "{" c) eqn:Eo.
    + apply is_char_eq in Eo as ->.
      destruct (close_or_open t 0) as [(b1 & t' & -> & Hb)|Hopen].
      * destruct (IH (String.length t')) with (text := t') as [gs Hgs]; [|reflexivity|].
        { subst n. cbn [String.length]. rewrite length_app_str. cbn [String.length]. lia. }
        exists (String "{" (b1 +:+ "}") :: gs).
        replace (String "{" (b1 +:+ String "}" t'))
          with (String "{" (b1 +:+ "}") +:+ t')
          by (cbn [append]; now rewrite app_assoc_str).
        apply top_group; [|exact Hgs]. now exists b1.
      * exists []. apply top_open. now exists t.
    + destruct (IH (String.length t)) with (text := t) as [gs Hgs]; [|reflexivity|].
      { subst n. cbn [String.length]. lia. }
      exists gs. now apply top_skip.
Qed.

(** C3.  Let [gs] be the top-level balanced brace groups of the text,
    from left to right.  If a group parses as a JSON object and no group
    after it does, the extractor returns that object: the last parseable
    group wins and malformed ones are skipped.  If no group parses, in
    particular when the text has no balanced braces, it returns none. *)
Theorem extractor_last_wins (text : string) (gs : list string) :
  top_level text gs ->
  (forall before g after d,
      gs = before ++ g :: after ->
      as_object g = Some d ->
      Forall (fun g' => as_object g' = None) after ->
      Agent.extract_last_json_dict text = Some d)
  /\ (Forall (fun g => as_object g = None) gs ->
      Agent.extract_last_json_dict text = None).
Proof.
  intros Htop.
  pose proof (scan_top_level text gs Htop EmptyString None None) as Hscan.
  cbn [append String.length] in Hscan.
  unfold Agent.extract_last_json_dict, extract_last_json_dict, scan0.
  rewrite Hscan. split.
  - intros before g after d -> Hg Hafter. now apply last_kept_some.
  - intros Hall. now apply last_kept_none.
Qed.

End ExtractorFacts.

(** Two objects and a malformed group: the second object is returned. *)
Lemma extractor_last_wins_witness :
  Agent.extract_last_json_dict (H := Demo.host Demo.project [])
    (Py.jq "Plan {`tool`: `calc`} then {`final`: `ok`} or {oops} }")
  = Some [("final", JStr "ok")].
Proof.
  refine (proj1 (@extractor_last_wins (Demo.host Demo.project [])
            (Py.jq "Plan {`tool`: `calc`} then {`final`: `ok`} or {oops} }")
            [Py.jq "{`tool`: `calc`}"; Py.jq "{`final`: `ok`}"; "{oops}"] _)
          [Py.jq "{`tool`: `calc`}"] (Py.jq "{`final`: `ok`}") ["{oops}"]
          [("final", JStr "ok")] eq_refl _ _).
  - do 5 (apply Braces.top_skip; [reflexivity|]).
    apply (Braces.top_group (Py.jq "{`tool`: `calc`}")
             (Py.jq " then {`final`: `ok`} or {oops} }")).
    { exists (Py.jq "`tool`: `calc`"). split; reflexivity. }
    do 6 (apply Braces.top_skip; [reflexivity|]).
    apply (Braces.top_group (Py.jq "{`final`: `ok`}") " or {oops} }").
    { exists (Py.jq "`final`: `ok`"). split; reflexivity. }
    do 4 (apply Braces.top_skip; [reflexivity|]).
    apply (Braces.top_group "{oops}" " }").
    { exists "oops". split; reflexivity. }
    do 2 (apply Braces.top_skip; [reflexivity|]).
    apply Braces.top_end.
  - vm_compute. reflexivity.
  - repeat constructor.
Defined.

(* ================================================================== *)
(** * Writing and reading back *)
(* ================================================================== *)

Section FsFacts.

Lemma is_dir_insert_file (fs : Fs.t) (loc cur : list string) (text : string) :
  Fs.is_dir fs cur = true ->
  fs !! loc <> Some Fs.Dir -> loc <> [] ->
  Fs.is_dir (<[loc := Fs.File text]> fs) cur = true.
Proof.
  intros Hd Hloc Hne. destruct cur as [|c cur']; [reflexivity|].
  cbn [Fs.is_dir] in *.
  destruct (decide (loc = c :: cur')) as [->|Hneq].
  - destruct (fs !! (c :: cur')) as [[]|]; congruence.
  - now rewrite lookup_insert_ne.
Qed.

(** Creating or overwriting a regular file does not change where a path
    leads: a path that went through the place as a directory could not
    have been opened for writing. *)
Lemma walk_insert_file (fs : Fs.t) (loc : list string) (text : string)
  (comps : list string) :
  fs !! loc <> Some Fs.Dir -> loc <> [] ->
  forall cur target,
    Fs.walk fs cur comps = Some target ->
    Fs.walk (<[loc := Fs.File text]> fs) cur comps = Some target.
Proof.
  intros Hloc Hne. induction comps as [|c more IH]; intros cur target Hw.
  - exact Hw.
  - cbn [Fs.walk] in *.
    destruct (Fs.is_dir fs cur) eqn:Hd.
    + rewrite (is_dir_insert_file fs loc cur text Hd Hloc Hne).
      destruct (String.eqb c "" || String.eqb c "."); [now apply IH|].
      destruct (String.eqb c ".."); now apply IH.
    + destruct (String.eqb c "" || String.eqb c "."); [discriminate|].
      destruct (String.eqb c ".."); discriminate.
Qed.

Lemma open_w_then_stat (fs fs1 : Fs.t) (path : string) (loc : list string)
  (text : string) :
  Fs.open_w fs path = Some (loc, fs1) ->
  Fs.stat (Fs.write_at fs1 loc text) path = Some (Fs.File text).
Proof.
  unfold Fs.open_w, Fs.stat, Fs.locate, Fs.write_at.
  destruct (Fs.has_nul path); [discriminate|].
  destruct (Fs.walk fs [] (PosixPath.split_slash path)) as [target|] eqn:Hw; [|discriminate].
  destruct target as [|c target']; [discriminate|].
  destruct (Fs.is_dir fs (Fs.parent (c :: target'))); [|discriminate].
  destruct (fs !! (c :: target')) as [n|] eqn:Hl.
  - destruct n as [old|]; [|discriminate].
    intros [= <- <-]. rewrite insert_insert_eq.
    rewrite (walk_insert_file fs (c :: target') text _) with (target := c :: target');
      [|congruence|discriminate|exact Hw].
    now rewrite lookup_insert_eq.
  - intros [= <- <-]. rewrite insert_insert_eq.
    rewrite (walk_insert_file fs (c :: target') text _) with (target := c :: target');
      [|congruence|discriminate|exact Hw].
    now rewrite lookup_insert_eq.
Qed.

Lemma open_w_then_read (fs fs1 : Fs.t) (path : string) (loc : list string)
  (text : string) :
  Fs.open_w fs path = Some (loc, fs1) ->
  Fs.isfile (Fs.write_at fs1 loc text) path = true
  /\ Fs.read_text (Fs.write_at fs1 loc text) path = Some (Fs.universal_newlines text).
Proof.
  intros Ho. unfold Fs.isfile, Fs.read_text.
  rewrite (open_w_then_stat fs fs1 path loc text Ho). split; reflexivity.
Qed.

End FsFacts.

Section RoundTrip.
Context `{Host}.

Import Says.

(** What a reported write has done. *)
Lemma agent_write_reported (p t : string) (fs : Fs.t) :
  fst (Agent.write_file [("path", JStr p); ("text", JStr t)] fs)
    = Ok (Agent.wrote (String.length t) p) ->
  String.eqb p EmptyString = false
  /\ Py.startswith ROOT (resolved p) = true
  /\ exists loc fs1,
       Fs.open_w fs (resolved p) = Some (loc, fs1)
       /\ snd (Agent.write_file [("path", JStr p); ("text", JStr t)] fs)
          = Fs.write_at fs1 loc t.
Proof.
  unfold Agent.write_file.
  change (Agent.get_or_empty "path" [("path", JStr p); ("text", JStr t)]) with (JStr p).
  change (Agent.get_or_empty "text" [("path", JStr p); ("text", JStr t)]) with (JStr t).
  cbn [truthy]. fold (resolved p).
  destruct (String.eqb p EmptyString); cbn [negb].
  { intros E. simpl in E. discriminate E. }
  destruct (Py.startswith ROOT (resolved p)); cbn [negb].
  2:{ intros E. simpl in E. discriminate E. }
  destruct (Fs.open_w fs (resolved p)) as [[loc fs1]|].
  2:{ intros E. simpl in E. discriminate E. }
  intros _. cbn [snd]. repeat split. now exists loc, fs1.
Qed.

Lemma loop_write_reported (p t : string) (fs : Fs.t) :
  fst (ToolsLoop.write_file (JStr p) (JStr t) fs)
    = Ok (Agent.wrote (String.length t) p) ->
  Py.startswith ROOT (resolved p) = true
  /\ exists loc fs1,
       Fs.open_w fs (resolved p) = Some (loc, fs1)
       /\ snd (ToolsLoop.write_file (JStr p) (JStr t) fs) = Fs.write_at fs1 loc t.
Proof.
  unfold ToolsLoop.write_file. fold (resolved p).
  destruct (Py.startswith ROOT (resolved p)); cbn [negb]; [|discriminate].
  destruct (Fs.open_w fs (resolved p)) as [[loc fs1]|]; [|discriminate].
  intros _. cbn [snd]. split; [reflexivity|]. now exists loc, fs1.
Qed.

(** C8 (amended).  Whenever [write_file(p, t)] reports the write
    ([[wrote N chars to p]]), a following [read_file(p)] returns [t] with
    every [\r\n] and lone [\r] turned into [\n], cut to the read cap
    (4000 characters in [agent.py], 8000 in [tools_loop.py]); for the
    text [hello] that is exactly [hello]. *)
Theorem write_then_read (p : string) (fs : Fs.t) :
  (forall t,
      fst (Agent.write_file [("path", JStr p); ("text", JStr t)] fs)
        = Ok (Agent.wrote (String.length t) p) ->
      Agent.read_file [("path", JStr p)]
        (snd (Agent.write_file [("path", JStr p); ("text", JStr t)] fs))
      = Ok (Py.take_str Agent.read_cap (Fs.universal_newlines t)))
  /\ (forall t,
      fst (ToolsLoop.write_file (JStr p) (JStr t) fs)
        = Ok (Agent.wrote (String.length t) p) ->
      ToolsLoop.read_file (JStr p) (snd (ToolsLoop.write_file (JStr p) (JStr t) fs))
      = Ok (Py.take_str ToolsLoop.read_cap (Fs.universal_newlines t)))
  /\ (fst (Agent.write_file [("path", JStr p); ("text", JStr "hello")] fs)
        = Ok (Agent.wrote 5 p) ->
      Agent.read_file [("path", JStr p)]
        (snd (Agent.write_file [("path", JStr p); ("text", JStr "hello")] fs))
      = Ok "hello")
  /\ (fst (ToolsLoop.write_file (JStr p) (JStr "hello") fs)
        = Ok (Agent.wrote 5 p) ->
      ToolsLoop.read_file (JStr p)
        (snd (ToolsLoop.write_file (JStr p) (JStr "hello") fs))
      = Ok "hello").
Proof.
  assert (A : forall t,
      fst (Agent.write_file [("path", JStr p); ("text", JStr t)] fs)
        = Ok (Agent.wrote (String.length t) p) ->
      Agent.read_file [("path", JStr p)]
        (snd (Agent.write_file [("path", JStr p); ("text", JStr t)] fs))
      = Ok (Py.take_str Agent.read_cap (Fs.universal_newlines t))).
  { intros t Hw.
    destruct (agent_write_reported p t fs Hw) as (Hp & Hs & loc & fs1 & Ho & ->).
    destruct (open_w_then_read fs fs1 (resolved p) loc t Ho) as [Hf Hr].
    unfold Agent.read_file.
    change (Agent.get_or_empty "path" [("path", JStr p)]) with (JStr p).
    cbn [truthy]. fold (resolved p). now rewrite Hp, Hs, Hf, Hr. }
  assert (B : forall t,
      fst (ToolsLoop.write_file (JStr p) (JStr t) fs)
        = Ok (Agent.wrote (String.length t) p) ->
      ToolsLoop.read_file (JStr p) (snd (ToolsLoop.write_file (JStr p) (JStr t) fs))
      = Ok (Py.take_str ToolsLoop.read_cap (Fs.universal_newlines t))).
  { intros t Hw.
    destruct (loop_write_reported p t fs Hw) as (Hs & loc & fs1 & Ho & ->).
    destruct (open_w_then_read fs fs1 (resolved p) loc t Ho) as [Hf Hr].
    unfold ToolsLoop.read_file. fold (resolved p). now rewrite Hs, Hf, Hr. }
  split; [exact A|]. split; [exact B|]. split.
  - intros Hw. rewrite (A "hello" Hw). vm_compute. reflexivity.
  - intros Hw. rewrite (B "hello" Hw). vm_compute. reflexivity.
Qed.

End RoundTrip.

(** A fresh file in the project directory: [hello] is read back. *)
Lemma write_then_read_witness :
  Agent.read_file (H := Demo.host Demo.project []) [("path", JStr "new.txt")]
    (snd (Agent.write_file (H := Demo.host Demo.project [])
            [("path", JStr "new.txt"); ("text", JStr "hello")] Demo.disk))
  = Ok "hello".
Proof.
  refine (proj1 (proj2 (proj2 (@write_then_read (Demo.host Demo.project [])
                   "new.txt" Demo.disk))) _).
  vm_compute. reflexivity.
Defined.

(** The round trip fails for the in-sandbox path [.], which names the
    project directory itself, and for a text with a carriage return,
    which is read back as a line feed. *)
Lemma write_then_read_counterexample :
  (Says.in_sandbox (H := Demo.host Demo.project []) "." = true
   /\ Agent.read_file (H := Demo.host Demo.project []) [("path", JStr ".")]
        (snd (Agent.write_file (H := Demo.host Demo.project [])
                [("path", JStr "."); ("text", JStr "hello")] Demo.disk))
      <> Ok "hello"
   /\ fst (ToolsLoop.run_tool (H := Demo.host Demo.project []) (JStr "read_file")
             [("path", JStr ".")]
             (snd (ToolsLoop.run_tool (H := Demo.host Demo.project [])
                     (JStr "write_file")
                     [("path", JStr "."); ("text", JStr "hello")] Demo.disk)))
      <> "hello")
  /\ (Says.in_sandbox (H := Demo.host Demo.project []) "new.txt" = true
      /\ Agent.read_file (H := Demo.host Demo.project []) [("path", JStr "new.txt")]
           (snd (Agent.write_file (H := Demo.host Demo.project [])
                   [("path", JStr "new.txt"); ("text", JStr Says.with_cr)] Demo.disk))
         = Ok Says.with_lf
      /\ Says.with_lf <> Says.with_cr).
Proof.
  repeat split; try (vm_compute; reflexivity); vm_compute; intros E; discriminate E.
Qed.

(* ================================================================== *)
(** * The agent loop *)
(* ================================================================== *)

Section LoopFacts.
Context `{Host}.
Import ToolsLoop Says.

Lemma ask_eq (st : loop_state) :
  ask (msgs st) (world st) = (llm (asked (world st)) (msgs st), asked_once st).
Proof. reflexivity. Qed.


(** A round whose directive is a tool call runs the tool. *)
Lemma turn_tool (q : string) (st : loop_state) (data args : dict) :
  directive_at st = Some data ->
  truthy (tool_of data) = true ->
  args_of data = Some args ->
  planning_turn q st =
  Again (LoopState
           (msgs st ++ [assistant_says (tool_of data) args;
                        tool_result_note (fst (run_tool (tool_of data) args (files (world st))))])
           (Some (fst (run_tool (tool_of data) args (files (world st)))))
           (with_files (asked_once st)
              (snd (run_tool (tool_of data) args (files (world st)))))).
Proof.
  unfold directive_at, planning_turn. rewrite ask_eq. intros -> Ht Ha.
  destruct data as [|kv data]; [discriminate Ht|].
  rewrite Ht, Ha. cbn [asked_once files].
  destruct (run_tool _ _ _) as [result fs']. reflexivity.
Qed.

Lemma not_tool_call (data : dict) :
  is_tool_call data = false ->
  match truthy (tool_of data), args_of data with
  | true, Some _ => False
  | _, _ => True
  end.
Proof.
  unfold is_tool_call. destruct (truthy (tool_of data)), (args_of data); simpl; easy.
Qed.

(** A round whose directive is a final answer returns. *)
Lemma turn_final (q : string) (st : loop_state) (f : json) :
  final_at st f ->
  planning_turn q st =
  Answer (match _is_read_intent q, last_tool_result st with
          | true, Some r => if nonempty r then r else "[empty file]"
          | _, _ => str_of f
          end) (asked_once st).
Proof.
  intros (data & Hd & Hnt & Hf). unfold directive_at in Hd.
  unfold planning_turn. rewrite ask_eq, Hd.
  destruct data as [|kv data]; [discriminate Hf|].
  apply not_tool_call in Hnt. rewrite Hf.
  destruct (truthy (tool_of (kv :: data))), (args_of (kv :: data));
    try contradiction;
    destruct (_is_read_intent q), (last_tool_result st); reflexivity.
Qed.

Lemma agent_loop_after (k : nat) :
  forall q st0 st n,
    state_after k q st0 = Some st ->
    agent_loop (k + n) q st0 = agent_loop n q st.
Proof.
  induction k as [|k IH]; intros q st0 st n Hs; cbn [state_after] in Hs.
  - now injection Hs as ->.
  - cbn [Nat.add agent_loop]. destruct (planning_turn q st0) as [st1|]; [|discriminate].
    now apply IH.
Qed.

Lemma run_query_enters_loop (q0 q : string) (forced : bool) (w : World) :
  unprefix q0 = (forced, q) ->
  short_circuit forced q (files w) = None ->
  run_query q0 w = agent_loop LOOP_LIMIT q (initial_state forced q w).
Proof. unfold run_query. intros -> ->. reflexivity. Qed.

(** The answer of a run whose round number [k] is a final answer. *)
Lemma answer_at_final (q0 q : string) (forced : bool) (w : World) (k : nat)
  (st : loop_state) (f : json) :
  unprefix q0 = (forced, q) ->
  short_circuit forced q (files w) = None ->
  (k < LOOP_LIMIT)%nat ->
  state_after k q (initial_state forced q w) = Some st ->
  final_at st f ->
  run_query q0 w =
  (match _is_read_intent q, last_tool_result st with
   | true, Some r => if nonempty r then r else "[empty file]"
   | _, _ => str_of f
   end, asked_once st).
Proof.
  intros Hu Hs Hk Hst Hf.
  rewrite (run_query_enters_loop q0 q forced w Hu Hs).
  replace LOOP_LIMIT with (k + S (LOOP_LIMIT - S k)) by lia.
  rewrite (agent_loop_after k q _ st _ Hst).
  cbn [agent_loop]. now rewrite (turn_final q st f Hf).
Qed.


(** C10.  In a run that entered the loop on a read-intent request, if
    the last tool result recorded is the empty string when the model's
    reply is a final answer, the run returns the placeholder
    [[empty file]] and not the empty string. *)
Theorem empty_result_placeholder (q0 q : string) (forced : bool) (w : World)
  (k : nat) (st : loop_state) (f : json) :
  unprefix q0 = (forced, q) ->
  short_circuit forced q (files w) = None ->
  _is_read_intent q = true ->
  (k < LOOP_LIMIT)%nat ->
  state_after k q (initial_state forced q w) = Some st ->
  last_tool_result st = Some EmptyString ->
  final_at st f ->
  run_query q0 w = ("[empty file]", asked_once st).
Proof.
  intros Hu Hs Hq Hk Hst Hr Hf.
  now rewrite (answer_at_final q0 q forced w k st f Hu Hs Hk Hst Hf), Hq, Hr.
Qed.

(** The recorded result is the result of a tool call of this run. *)
Lemma last_result_comes_from_a_tool (k : nat) :
  forall q st0 st r,
    state_after k q st0 = Some st ->
    last_tool_result st = Some r ->
    last_tool_result st0 = Some r
    \/ exists j stj data args,
         (j < k)%nat
         /\ state_after j q st0 = Some stj
         /\ directive_at stj = Some data
         /\ truthy (tool_of data) = true
         /\ args_of data = Some args
         /\ r = fst (run_tool (tool_of data) args (files (world stj))).
Proof.
  induction k as [|k IH]; intros q st0 st r Hs Hr; cbn [state_after] in Hs.
  - injection Hs as ->. now left.
  - destruct (planning_turn q st0) as [st1|] eqn:Ht; [|discriminate].
    destruct (IH q st1 st r Hs Hr) as [H1|(j & stj & data & args & Hj & Hsj & Hd & Htr & Ha & Hres)].
    + (* st1 already holds r: either st0 did, or this round ran the tool *)
      unfold planning_turn in Ht. rewrite ask_eq in Ht.
      destruct (extract_last_json_dict _) as [[|kv data]|] eqn:Hd.
      * injection Ht as <-. now left.
      * destruct (truthy (tool_of (kv :: data))) eqn:Htr.
        -- destruct (args_of (kv :: data)) as [args|] eqn:Ha.
           ++ destruct (run_tool _ _ _) as [result fs'] eqn:Hrun.
              injection Ht as <-. cbn [last_tool_result] in H1. injection H1 as <-.
              right. exists 0, st0, (kv :: data), args.
              cbn [asked_once files] in Hrun.
              repeat split; [lia|exact Hd|exact Htr|exact Ha|now rewrite Hrun].
           ++ destruct (get_not_none "final" (kv :: data)).
              ** destruct (_is_read_intent q), (last_tool_result st0); discriminate Ht.
              ** injection Ht as <-. now left.
        -- destruct (get_not_none "final" (kv :: data)).
           ++ destruct (_is_read_intent q), (last_tool_result st0); discriminate Ht.
           ++ injection Ht as <-. now left.
      * injection Ht as <-. now left.
    + right. exists (S j), stj, data, args.
      repeat split; try assumption; [lia|]. cbn [state_after]. now rewrite Ht.
Qed.


(** The loop returns from a round only on a final answer. *)
Lemma answer_is_final (q : string) (st : loop_state) (text : string) (w' : World) :
  planning_turn q st = Answer text w' -> exists f, final_at st f.
Proof.
  unfold planning_turn, final_at, directive_at, is_tool_call. rewrite ask_eq.
  destruct (extract_last_json_dict _) as [[|kv data]|]; [discriminate| |discriminate].
  destruct (truthy (tool_of (kv :: data))) eqn:Htr;
    destruct (args_of (kv :: data)) as [args|] eqn:Ha;
    try (destruct (run_tool _ _ _); discriminate);
    (destruct (get_not_none "final" (kv :: data)) as [f|] eqn:Hf; [|discriminate]);
    intros _; exists f, (kv :: data); rewrite ?Htr, ?Ha; auto.
Qed.

(** C9 (amended).  When the directive of a round has a [tool] value
    that is truthy, an [args] value that is a dict and a [final] key, the
    round is a tool call: the tool runs, the call and its result are
    appended, the result is recorded, the loop goes round again, and the
    round does not return; the final text is not used.  A round returns
    only on a directive to which the tool branch does not apply
    ([answer_is_final]). *)
Theorem tool_call_before_final (q : string) (st : loop_state) (data args : dict)
  (f : json) :
  directive_at st = Some data ->
  truthy (tool_of data) = true ->
  args_of data = Some args ->
  dict_get "final" data = Some f ->
  let ran := run_tool (tool_of data) args (files (world st)) in
  let next :=
    LoopState (msgs st ++ [assistant_says (tool_of data) args; tool_result_note (fst ran)])
              (Some (fst ran)) (with_files (asked_once st) (snd ran)) in
  planning_turn q st = Again next
  /\ (forall n, agent_loop (S n) q st = agent_loop n q next)
  /\ (forall text w', planning_turn q st <> Answer text w').
Proof.
  intros Hd Ht Ha _ ran next.
  assert (E : planning_turn q st = Again next) by now apply turn_tool.
  split; [exact E|]. split.
  - intros n. cbn [agent_loop]. now rewrite E.
  - intros text w'. rewrite E. discriminate.
Qed.




(** Before the first round nothing is recorded as a tool result, even
    when the bootstrap has read a file. *)
Lemma initial_state_asked (forced : bool) (q : string) (w : World) :
  asked (world (initial_state forced q w)) = asked w
  /\ last_tool_result (initial_state forced q w) = None.
Proof.
  unfold initial_state. destruct (bootstrap forced q (files w)). split; reflexivity.
Qed.


End LoopFacts.

(** The recorded result of a run comes from a tool call of its loop. *)
Lemma recorded_result_is_a_tool_result `{Host} (k : nat) (forced : bool)
  (q : string) (w : World) (st : ToolsLoop.loop_state) (r : string) :
  Says.state_after k q (ToolsLoop.initial_state forced q w) = Some st ->
  ToolsLoop.last_tool_result st = Some r ->
  exists j stj data args,
    (j < k)%nat
    /\ Says.state_after j q (ToolsLoop.initial_state forced q w) = Some stj
    /\ Says.directive_at stj = Some data
    /\ truthy (ToolsLoop.tool_of data) = true
    /\ ToolsLoop.args_of data = Some args
    /\ r = fst (ToolsLoop.run_tool (ToolsLoop.tool_of data) args
                  (files (ToolsLoop.world stj))).
Proof.
  intros Hs Hr.
  destruct (last_result_comes_from_a_tool k q _ st r Hs Hr) as [Hinit|Hex];
    [|exact Hex].
  rewrite (proj2 (initial_state_asked forced q w)) in Hinit. discriminate Hinit.
Qed.




(** An empty file is read, the model answers: the placeholder comes back. *)
Lemma empty_result_placeholder_witness :
  fst (ToolsLoop.run_query (H := Demo.host Demo.project Scripts.reads_empty_again)
         "agent: display empty.txt" Demo.world0)
  = "[empty file]".
Proof.
  refine (f_equal fst
    (@empty_result_placeholder (Demo.host Demo.project Scripts.reads_empty_again)
       "agent: display empty.txt" "display empty.txt" true Demo.world0 1
       (Scripts.after (H := Demo.host Demo.project Scripts.reads_empty_again)
          1 "display empty.txt")
       (JStr "The file is blank.") _ _ _ _ _ _ _)).
  - vm_compute. reflexivity.
  - vm_compute. reflexivity.
  - vm_compute. reflexivity.
  - unfold ToolsLoop.LOOP_LIMIT. lia.
  - vm_compute. reflexivity.
  - vm_compute. reflexivity.
  - exists [("final", JStr "The file is blank.")].
    repeat split; vm_compute; reflexivity.
Defined.


(** A directive with [calc] and a final text: [calc] runs, its result
    is recorded, and the loop goes on. *)
Lemma tool_call_before_final_witness :
  exists st',
    ToolsLoop.planning_turn (H := Demo.host Demo.project Scripts.tool_and_final)
      "compute"
      (ToolsLoop.initial_state (H := Demo.host Demo.project Scripts.tool_and_final)
         true "compute" Demo.world0)
    = ToolsLoop.Again st'
    /\ ToolsLoop.last_tool_result st' = Some "8".
Proof.
  destruct (@tool_call_before_final (Demo.host Demo.project Scripts.tool_and_final)
              "compute"
              (ToolsLoop.initial_state
                 (H := Demo.host Demo.project Scripts.tool_and_final)
                 true "compute" Demo.world0)
              [("tool", JStr "calc"); ("args", JObj [("expr", JStr "2^3")]);
               ("final", JStr "eight")]
              [("expr", JStr "2^3")] (JStr "eight")) as [E _].
  - vm_compute. reflexivity.
  - reflexivity.
  - reflexivity.
  - reflexivity.
  - eexists. split; [exact E|]. vm_compute. reflexivity.
Defined.

(** A directive with the keys [tool], [args] (a dict) and [final] whose
    tool is the empty string is answered as a final answer: no tool runs. *)
Lemma tool_call_before_final_counterexample :
  Says.directive_at (H := Demo.host Demo.project Scripts.empty_tool_and_final)
    (ToolsLoop.initial_state (H := Demo.host Demo.project Scripts.empty_tool_and_final)
       true "hello" Demo.world0)
  = Some [("tool", JStr EmptyString); ("args", JObj []); ("final", JStr "done")]
  /\ has_key "tool" [("tool", JStr EmptyString); ("args", JObj []); ("final", JStr "done")] = true
  /\ ToolsLoop.args_of [("tool", JStr EmptyString); ("args", JObj []); ("final", JStr "done")]
     = Some []
  /\ has_key "final" [("tool", JStr EmptyString); ("args", JObj []); ("final", JStr "done")] = true
  /\ ToolsLoop.planning_turn (H := Demo.host Demo.project Scripts.empty_tool_and_final)
       "hello"
       (ToolsLoop.initial_state (H := Demo.host Demo.project Scripts.empty_tool_and_final)
          true "hello" Demo.world0)
     = ToolsLoop.Answer "done"
         (Says.asked_once
            (ToolsLoop.initial_state
               (H := Demo.host Demo.project Scripts.empty_tool_and_final)
               true "hello" Demo.world0)).
Proof.
  repeat split; vm_compute; reflexivity.
Qed.

(* ================================================================== *)
(** * The tool-execution boundary *)
(* ================================================================== *)

Section ToolBoundary.
Context `{Host}.
Import ToolsLoop.





End ToolBoundary.


(* ================================================================== *)
(** * The sandbox check *)
(* ================================================================== *)

Section SandboxFacts.
Context `{Host}.
Import Says.

(** What the guard does decide: a resolution whose text does not start
    with the root's text is refused before the disk is looked at. *)
Lemma outside_prefix_refused (p t : string) (fs : Fs.t) :
  String.eqb p EmptyString = false ->
  Py.startswith ROOT (resolved p) = false ->
  Agent.read_file [("path", JStr p)] fs = Ok "ERROR: path outside project"
  /\ Agent.write_file [("path", JStr p); ("text", JStr t)] fs
     = (Ok "ERROR: path outside project", fs)
  /\ ToolsLoop.read_file (JStr p) fs = Raise (ValueError "path outside project")
  /\ ToolsLoop.write_file (JStr p) (JStr t) fs
     = (Raise (ValueError "path outside project"), fs).
Proof.
  intros Hp Hs. unfold Agent.read_file, Agent.write_file, ToolsLoop.read_file,
    ToolsLoop.write_file.
  change (Agent.get_or_empty "path" [("path", JStr p)]) with (JStr p).
  change (Agent.get_or_empty "path" [("path", JStr p); ("text", JStr t)]) with (JStr p).
  cbn [truthy]. fold (resolved p). rewrite Hp, Hs. cbn [negb]. auto.
Qed.

End SandboxFacts.

(** C1, the code at a failing input.  With the project root
    [/home/user/proj], the path [../proj2/secret.txt] resolves to
    [/home/user/proj2/secret.txt]: outside the root, yet its text starts
    with the root's text, so [startswith] lets it through.  [read_file]
    returns the content of that file and [write_file] overwrites it.
    (A resolution that does not start with the root's text, such as that
    of [../../etc/passwd], is refused whatever the disk holds.) *)
Theorem sandbox_prefix_escape :
  PosixPath.escapes (ROOT (H := Demo.host Demo.project []))
    (Says.resolved (H := Demo.host Demo.project []) "../proj2/secret.txt") = true
  /\ Agent.read_file (H := Demo.host Demo.project [])
       [("path", JStr "../proj2/secret.txt")] Demo.disk = Ok "top secret"
  /\ ToolsLoop.read_file (H := Demo.host Demo.project [])
       (JStr "../proj2/secret.txt") Demo.disk = Ok "top secret"
  /\ fst (Agent.write_file (H := Demo.host Demo.project [])
            [("path", JStr "../proj2/secret.txt"); ("text", JStr "hello")] Demo.disk)
     = Ok "[wrote 5 chars to ../proj2/secret.txt]"
  /\ snd (Agent.write_file (H := Demo.host Demo.project [])
            [("path", JStr "../proj2/secret.txt"); ("text", JStr "hello")] Demo.disk)
       !! ["home"; "user"; "proj2"; "secret.txt"] = Some (Fs.File "hello")
  /\ snd (ToolsLoop.write_file (H := Demo.host Demo.project [])
            (JStr "../proj2/secret.txt") (JStr "hello") Demo.disk)
       !! ["home"; "user"; "proj2"; "secret.txt"] = Some (Fs.File "hello")
  /\ forall fs,
       Agent.read_file (H := Demo.host Demo.project [])
         [("path", JStr "../../etc/passwd")] fs = Ok "ERROR: path outside project".
Proof.
  do 6 (split; [vm_compute; reflexivity|]).
  intros fs.
  apply (proj1 (@outside_prefix_refused (Demo.host Demo.project [])
                  "../../etc/passwd" EmptyString fs eq_refl eq_refl)).
Qed.

(* ================================================================== *)
(** * The heuristic fallback and its memory *)
(* ================================================================== *)

Section AutowrapFacts.
Context `{Host}.

Lemma autowrap_memory (raw up : string) (known : gset string) (fs : Fs.t) :
  snd (Agent.autowrap_to_action raw up known fs) = Agent.learn (Py.strip up) known.
Proof.
  unfold Agent.autowrap_to_action.
  destruct (Agent.pass_through _); [reflexivity|].
  destruct (Agent.explicit_path _); [reflexivity|].
  destruct (Agent.recall _ _); [reflexivity|].
  destruct (Agent.probe _ _); [reflexivity|].
  destruct (Agent.arithmetic_tail _); reflexivity.
Qed.

Lemma learn_declaration (known : gset string) :
  Agent.learn (Py.strip "budget.csv is a file") known = known ∪ {["budget.csv"]}.
Proof.
  unfold Agent.learn.
  replace (Re.findall1 Pat.IS_A_FILE (Py.strip "budget.csv is a file"))
    with ["budget.csv"] by (vm_compute; reflexivity).
  cbn [fold_left].
  replace (Py.lower (Py.strip "budget.csv")) with "budget.csv"
    by (vm_compute; reflexivity).
  reflexivity.
Qed.

Lemma learn_question (known : gset string) :
  Agent.learn (Py.strip "what's inside budget.csv") known = known.
Proof.
  unfold Agent.learn.
  replace (Re.findall1 Pat.IS_A_FILE (Py.strip "what's inside budget.csv"))
    with (@nil string) by (vm_compute; reflexivity).
  reflexivity.
Qed.

(** C7 (amended).  After a fallback call on the request
    [budget.csv is a file], whatever the raw model text and whichever
    rule answers, the memory contains [budget.csv].  A later call on
    [what's inside budget.csv] returns the read directive for
    [budget.csv] when the raw model text is not itself a JSON object with
    a [tool] or [final] key; when it is, that object is returned as it
    stands (the pass-through rule comes first). *)
Theorem declared_file_is_read (raw1 raw2 : string) (known : gset string)
  (fs1 fs2 : Fs.t) :
  let known1 := snd (Agent.autowrap_to_action raw1 "budget.csv is a file" known fs1) in
  "budget.csv" ∈ known1
  /\ (Agent.pass_through (Py.strip raw2) = None ->
      Agent.autowrap_to_action raw2 "what's inside budget.csv" known1 fs2
      = (Agent.read_directive "budget.csv", known1))
  /\ (forall data, Agent.pass_through (Py.strip raw2) = Some data ->
      Agent.autowrap_to_action raw2 "what's inside budget.csv" known1 fs2
      = (data, known1)).
Proof.
  intros known1. split; [|split].
  - subst known1. rewrite autowrap_memory, learn_declaration. set_solver.
  - intros Hp. unfold Agent.autowrap_to_action. rewrite Hp, learn_question.
    replace (Agent.explicit_path (Py.strip "what's inside budget.csv"))
      with (Some "budget.csv") by (vm_compute; reflexivity).
    reflexivity.
  - intros data Hp. unfold Agent.autowrap_to_action. now rewrite Hp, learn_question.
Qed.

End AutowrapFacts.

(** Two calls whose raw model text is plain prose. *)
Lemma declared_file_is_read_witness :
  fst (Agent.autowrap_to_action (H := Demo.host Demo.project []) "I am not sure."
         "what's inside budget.csv"
         (snd (Agent.autowrap_to_action (H := Demo.host Demo.project [])
                 "Noted." "budget.csv is a file" ∅ Demo.disk))
         Demo.disk)
  = Agent.read_directive "budget.csv".
Proof.
  refine (f_equal fst (proj1 (proj2
    (@declared_file_is_read (Demo.host Demo.project []) "Noted." "I am not sure."
       ∅ Demo.disk Demo.disk)) _)).
  vm_compute. reflexivity.
Defined.

(** When the raw model text of the later call is a final directive, the
    call returns it, not a read directive. *)
Lemma declared_file_is_read_counterexample :
  fst (Agent.autowrap_to_action (H := Demo.host Demo.project [])
         (Py.jq "{`final`: `done`}")
         "what's inside budget.csv"
         (snd (Agent.autowrap_to_action (H := Demo.host Demo.project [])
                 "Noted." "budget.csv is a file" ∅ Demo.disk))
         Demo.disk)
  = Agent.final_directive "done"
  /\ Agent.final_directive "done" <> Agent.read_directive "budget.csv".
Proof.
  split; [vm_compute; reflexivity | discriminate].
Qed.

(* ================================================================== *)
(** * What a match consumed *)
(* ================================================================== *)

Section MatchedFacts.
Import Re Matched.

(** The repetition hands over only cursors the pattern can reach. *)
Lemma star_loop_sound (g : bool) (r : regex) (k : cursor -> option cursor)
  (IH : forall c k e, run r c k = Some e -> exists c', steps r c c' /\ k c' = Some e) :
  forall fuel c e,
    star_loop g (run r) k fuel c = Some e ->
    exists c', steps (Star g r) c c' /\ k c' = Some e.
Proof.
  induction fuel as [|fuel IHf]; intros c e; cbn [star_loop].
  - intros Hk. exists c. split; [constructor|exact Hk].
  - assert (Hagain :
      run r c (fun c' => if (pos c <? pos c')%nat
                         then star_loop g (run r) k fuel c' else None) = Some e ->
      exists c', steps (Star g r) c c' /\ k c' = Some e).
    { intros Hr. apply IH in Hr as (c1 & S1 & Hr).
      destruct (pos c <? pos c1)%nat; [|discriminate Hr].
      apply IHf in Hr as (c2 & S2 & Hk). exists c2. split; [|exact Hk].
      now apply steps_star_more with c1. }
    assert (Hstop : k c = Some e -> exists c', steps (Star g r) c c' /\ k c' = Some e).
    { intros Hk. exists c. split; [constructor|exact Hk]. }
    destruct g.
    + destruct (run r c _) as [e'|] eqn:Hr.
      * intros [= ->]. now apply Hagain.
      * exact Hstop.
    + destruct (k c) as [e'|] eqn:Hk.
      * intros [= ->]. now apply Hstop.
      * exact Hagain.
Qed.

(** The matcher succeeds only along the pattern. *)
Lemma run_sound (r : regex) :
  forall c k e, run r c k = Some e -> exists c', steps r c c' /\ k c' = Some e.
Proof.
  induction r as [|p|r1 IH1 r2 IH2|r1 IH1 r2 IH2|g r IH|i r IH| | |];
    intros c k e; cbn [run].
  - intros Hk. exists c. split; [constructor|exact Hk].
  - destruct (advance c) as [[a c']|] eqn:Ha; [|discriminate].
    destruct (p a) eqn:Hp; [|discriminate].
    intros Hk. exists c'. split; [now apply steps_chr with a|exact Hk].
  - intros Hr. apply IH1 in Hr as (c1 & S1 & Hr). apply IH2 in Hr as (c2 & S2 & Hk).
    exists c2. split; [now apply steps_seq with c1|exact Hk].
  - destruct (run r1 c k) as [e'|] eqn:Hr.
    + intros [= ->]. apply IH1 in Hr as (c1 & S1 & Hk).
      exists c1. split; [now apply steps_alt_l|exact Hk].
    + intros Hr2. apply IH2 in Hr2 as (c1 & S1 & Hk).
      exists c1. split; [now apply steps_alt_r|exact Hk].
  - intros Hr. exact (star_loop_sound g r k IH _ c e Hr).
  - intros Hr. apply IH in Hr as (c1 & S1 & Hk).
    eexists. split; [apply steps_grp; exact S1|exact Hk].
  - destruct (pos c =? 0)%nat eqn:Hp; [|discriminate].
    intros Hk. exists c. split; [|exact Hk]. constructor. now apply Nat.eqb_eq.
  - destruct (at_eol c) eqn:Hp; [|discriminate].
    intros Hk. exists c. split; [|exact Hk]. now constructor.
  - destruct (xorb _ _) eqn:Hp; [|discriminate].
    intros Hk. exists c. split; [|exact Hk]. now constructor.
Qed.

Lemma every_app (p : ascii -> bool) (a b : string) :
  Py.every p (a +:+ b) = Py.every p a && Py.every p b.
Proof.
  induction a as [|x a IH]; [reflexivity|].
  cbn [String.append Py.every]. rewrite IH. now rewrite andb_assoc.
Qed.

Lemma every_weaken (p q : ascii -> bool) (s : string) :
  (forall a, p a = true -> q a = true) ->
  Py.every p s = true -> Py.every q s = true.
Proof.
  intros Hpq. induction s as [|x s IH]; [reflexivity|].
  cbn [Py.every]. intros E. apply andb_true_iff in E as [E1 E2].
  now rewrite (Hpq x E1), IH.
Qed.

(** The text read along a pattern, made of the pattern's characters. *)
Lemma steps_consumed (r : regex) (c c' : cursor) :
  steps r c c' ->
  exists t, consumed c c' t /\ Py.every (alphabet r) t = true.
Proof.
  unfold consumed. induction 1 as
    [c|p c c' a Ha Hp|r1 r2 c c1 c2 _ IH1 _ IH2|r1 r2 c c' _ IH|r1 r2 c c' _ IH
    |g r c|g r c c1 c2 _ IH1 _ IH2|i r c c' _ IH|c Hp|c Hp|c Hp];
    try (exists EmptyString; cbn [String.append String.length Py.every];
         repeat split; lia).
  - unfold advance in Ha. destruct (rest c) as [|x s] eqn:Hr; [discriminate|].
    injection Ha as <- <-. exists (String x EmptyString).
    cbn [rest pos String.append String.length Py.every alphabet].
    rewrite Hp. repeat split. lia.
  - destruct IH1 as (t1 & [R1 P1] & E1), IH2 as (t2 & [R2 P2] & E2).
    exists (t1 +:+ t2). rewrite R1, R2, P2, P1, app_assoc_str, length_app_str.
    split; [split; [reflexivity|lia]|].
    rewrite every_app. apply andb_true_iff. split.
    + apply (every_weaken (alphabet r1)); [|exact E1].
      intros a Ea. cbn [alphabet]. now rewrite Ea.
    + apply (every_weaken (alphabet r2)); [|exact E2].
      intros a Ea. cbn [alphabet]. rewrite Ea. apply orb_true_r.
  - destruct IH as (t & Hc & E). exists t. split; [exact Hc|].
    apply (every_weaken (alphabet r1)); [|exact E].
    intros a Ea. cbn [alphabet]. now rewrite Ea.
  - destruct IH as (t & Hc & E). exists t. split; [exact Hc|].
    apply (every_weaken (alphabet r2)); [|exact E].
    intros a Ea. cbn [alphabet]. rewrite Ea. apply orb_true_r.
  - destruct IH1 as (t1 & [R1 P1] & E1), IH2 as (t2 & [R2 P2] & E2).
    exists (t1 +:+ t2). rewrite R1, R2, P2, P1, app_assoc_str, length_app_str.
    split; [split; [reflexivity|lia]|].
    rewrite every_app. apply andb_true_iff. split; [|exact E2].
    apply (every_weaken (alphabet r)); [|exact E1]. intros a Ea. exact Ea.
  - destruct IH as (t & [R P] & E). exists t. cbn [rest pos].
    split; [now split|].
    apply (every_weaken (alphabet r)); [|exact E]. intros a Ea. exact Ea.
Qed.

(** A search that finds a match found it at some place of the text. *)
Lemma search_from_sound (r : regex) (s : string) :
  forall p pv f,
    search_from r p pv s = Some f ->
    exists pre s' pv',
      s = pre +:+ s'
      /\ match_at r (Cursor (p + String.length pre) pv' s' []) = Some f.
Proof.
  induction s as [|a s IH]; intros p pv f; cbn [search_from].
  - destruct (match_at r _) as [f'|] eqn:Hm; [|discriminate].
    intros [= ->]. exists EmptyString, EmptyString, pv. cbn [String.length].
    now rewrite Nat.add_0_r.
  - destruct (match_at r _) as [f'|] eqn:Hm.
    + intros [= ->]. exists EmptyString, (String a s), pv. cbn [String.length].
      now rewrite Nat.add_0_r.
    + intros Hs. apply IH in Hs as (pre & s' & pv' & -> & Hm').
      exists (String a pre), s', pv'. split; [reflexivity|].
      cbn [String.length]. now replace (p + S (String.length pre))%nat
        with (S p + String.length pre)%nat by lia.
Qed.

(** What a successful search returns: the text of the match lies in the
    searched text, between a prefix and a rest, and the matcher went
    along the pattern over it. *)
Lemma search_sound (r : regex) (text : string) (f : found) :
  search r text = Some f ->
  exists pre t post c e,
    text = pre +:+ (t +:+ post)
    /\ group0 text f = t
    /\ steps r c e
    /\ consumed c e t
    /\ pos c = String.length pre
    /\ rest e = post
    /\ m_caps f = caps e
    /\ Py.every (alphabet r) t = true.
Proof.
  unfold search. intros Hs.
  apply search_from_sound in Hs as (pre & s' & pv' & -> & Hm).
  unfold match_at in Hm. cbn [Nat.add] in Hm.
  destruct (run r _ Some) as [e|] eqn:Hr; [|discriminate]. injection Hm as <-.
  apply run_sound in Hr as (c' & Hst & [= ->]).
  destruct (steps_consumed r _ _ Hst) as (t & [R P] & E).
  cbn [rest pos] in R, P.
  exists pre, t, (rest e), (Cursor (String.length pre) pv' s' []), e.
  rewrite R at 1 2. split; [reflexivity|]. split.
  { unfold group0. cbn [m_start m_end pos]. rewrite P. apply slice_middle. }
  split; [exact Hst|]. split; [split; [exact R|exact P]|].
  split; [reflexivity|]. split; [reflexivity|]. split; [reflexivity|exact E].
Qed.

(** The same for a match at the start. *)
Lemma match_sound (r : regex) (text : string) (f : found) :
  match_ r text = Some f ->
  exists e, steps r (start_cursor text) e /\ m_caps f = caps e.
Proof.
  unfold match_, match_at.
  destruct (run r _ Some) as [e|] eqn:Hr; [|discriminate]. intros [= <-].
  apply run_sound in Hr as (c' & Hst & [= ->]). now exists e.
Qed.

End MatchedFacts.

(* ================================================================== *)
(** * Numbers, arithmetic tails and paths found in a text *)
(* ================================================================== *)

Section FoundFacts.
Context `{Host}.
Import Re Matched.

Lemma within_spec (q p : ascii -> bool) :
  within q p = true -> forall a, q a = true -> p a = true.
Proof.
  unfold within. intros Hw a Hq. rewrite forallb_forall in Hw.
  specialize (Hw (nat_of_ascii a)). rewrite ascii_nat_embedding, Hq in Hw.
  apply Hw, in_seq. pose proof (nat_ascii_bounded a). lia.
Qed.

Lemma has_app (p : ascii -> bool) (a b : string) :
  has p (a +:+ b) = has p a || has p b.
Proof. unfold has. rewrite every_app. apply negb_andb. Qed.

(** A match of a pattern that must read a character of a class has
    read one. *)
Lemma steps_must (p : ascii -> bool) (r : regex) (c c' : cursor) :
  steps r c c' -> must p r = true ->
  forall t, consumed c c' t -> has p t = true.
Proof.
  induction 1 as
    [c|q c c' a Ha Hq|r1 r2 c c1 c2 S1 IH1 S2 IH2|r1 r2 c c' _ IH|r1 r2 c c' _ IH
    |g r c|g r c c1 c2 _ IH1 _ IH2|i r c c' _ IH|c Hp|c Hp|c Hp];
    cbn [must]; try discriminate.
  - intros Hw t [R P]. unfold advance in Ha.
    destruct (rest c) as [|x s] eqn:Hr; [discriminate|]. injection Ha as <- <-.
    cbn [rest pos] in R, P. destruct t as [|y [|z t]].
    + cbn [String.length] in P. lia.
    + cbn [String.append] in R. injection R as E. subst y.
      unfold has. cbn [Py.every]. now rewrite (within_spec q p Hw x Hq).
    + cbn [String.length] in P. lia.
  - intros Hm t [R P].
    destruct (steps_consumed _ _ _ S1) as (t1 & [R1 P1] & _).
    destruct (steps_consumed _ _ _ S2) as (t2 & [R2 P2] & _).
    assert (t = t1 +:+ t2) as ->.
    { rewrite R1, R2, <- app_assoc_str in R.
      assert (L : String.length t = String.length (t1 +:+ t2))
        by (rewrite length_app_str; lia).
      clear - R L. revert t L R. generalize (t1 +:+ t2) as u.
      induction u as [|x u IHu]; intros [|y t] L R; cbn in L; try lia; [reflexivity|].
      cbn [String.append] in R. injection R as -> R. f_equal. apply IHu; [lia|exact R]. }
    rewrite has_app. apply orb_true_iff in Hm as [Hm|Hm].
    + rewrite (IH1 Hm t1); [reflexivity|now split].
    + rewrite (IH2 Hm t2); [apply orb_true_r|now split].
  - intros Hm. apply andb_true_iff in Hm as [Hm _]. now apply IH.
  - intros Hm. apply andb_true_iff in Hm as [_ Hm]. now apply IH.
  - intros Hm t [R P]. cbn [rest pos] in R, P. apply IH; [exact Hm|now split].
Qed.

(** A repetition whose continuation always succeeds succeeds. *)
Lemma star_loop_total (g : bool)
  (body : cursor -> (cursor -> option cursor) -> option cursor)
  (k : cursor -> option cursor) :
  (forall c, k c <> None) -> forall fuel c, star_loop g body k fuel c <> None.
Proof.
  intros Hk. induction fuel as [|fuel IH]; intros c; cbn [star_loop]; [apply Hk|].
  destruct g.
  - destruct (body c _); [discriminate|apply Hk].
  - destruct (k c) eqn:E; [discriminate|]. now apply Hk in E.
Qed.

(** A match somewhere in the text is found by the search, at that place
    or before it. *)
Lemma search_from_complete (r : regex) (pre s' : string) :
  (forall p pv, match_at r (Cursor p pv s' []) <> None) ->
  forall p pv, search_from r p pv (pre +:+ s') <> None.
Proof.
  intros Hm. induction pre as [|a pre IH]; intros p pv.
  - cbn [String.append]. specialize (Hm p pv).
    destruct s'; cbn [search_from]; destruct (match_at r _); congruence.
  - cbn [String.append search_from]. destruct (match_at r _); [discriminate|].
    apply IH.
Qed.

Lemma digit_is_no_sign (a : ascii) :
  Py.is_digit a = true -> Py.one_of "+-" a = false.
Proof. destruct a as [[] [] [] [] [] [] [] []]; vm_compute; congruence. Qed.

Lemma run_alt_l (r1 r2 : regex) (c : cursor) (k : cursor -> option cursor) :
  run r1 c k <> None -> run (Alt r1 r2) c k <> None.
Proof. cbn [run]. destruct (run r1 c k); congruence. Qed.

Lemma run_alt_r (r1 r2 : regex) (c : cursor) (k : cursor -> option cursor) :
  run r2 c k <> None -> run (Alt r1 r2) c k <> None.
Proof. cbn [run]. destruct (run r1 c k); congruence. Qed.

Lemma run_chr_at (p : ascii -> bool) (k : cursor -> option cursor)
  (n : nat) (pv : option ascii) (a : ascii) (s : string) cs :
  p a = true ->
  run (Chr p) (Cursor n pv (String a s) cs) k = k (Cursor (S n) (Some a) s cs).
Proof. intros Hp. cbn [run advance rest pos caps]. now rewrite Hp. Qed.

(** At a digit [NUM_RE] matches. *)
Lemma NUM_RE_at_digit (a : ascii) (s : string) (p : nat) (pv : option ascii) :
  Py.is_digit a = true ->
  match_at Pat.NUM_RE (Cursor p pv (String a s) []) <> None.
Proof.
  intros Hd. unfold match_at.
  assert (Hr : run Pat.NUM_RE (Cursor p pv (String a s) []) Some <> None).
  { unfold Pat.NUM_RE, Opt, Plus.
    match goal with
    | |- run (Seq (Alt ?sg Eps) (Alt (Seq (Seq ?d ?ds) ?tl) ?B)) ?c Some <> None =>
        change (run (Alt sg Eps) c
                  (fun c' => run (Alt (Seq (Seq d ds) tl) B) c' Some) <> None);
        apply run_alt_r;
        change (run (Alt (Seq (Seq d ds) tl) B) c Some <> None);
        apply run_alt_l;
        change (run d c (fun c1 => run ds c1 (fun c2 => run tl c2 Some)) <> None)
    end.
    rewrite run_chr_at by exact Hd.
    apply star_loop_total. intros c0. apply run_alt_r. discriminate. }
  destruct (run Pat.NUM_RE _ Some); congruence.
Qed.

(** A text with a digit splits at its first digit. *)
Lemma first_digit (text : string) :
  has Py.is_digit text = true ->
  exists pre a s, text = pre +:+ String a s /\ Py.is_digit a = true.
Proof.
  unfold has. induction text as [|x text IH]; cbn [Py.every]; [discriminate|].
  destruct (Py.is_digit x) eqn:Hx; cbn [negb andb].
  - intros _. now exists EmptyString, x, text.
  - intros Ht. destruct (IH Ht) as (pre & a & s & -> & Ha).
    now exists (String x pre), a, s.
Qed.

Lemma NUM_RE_must_read_digit : must Py.is_digit Pat.NUM_RE = true.
Proof. vm_compute. reflexivity. Qed.

Lemma NUM_RE_alphabet (a : ascii) :
  alphabet Pat.NUM_RE a = true -> num_char a = true.
Proof.
  unfold num_char. cbn [alphabet Pat.NUM_RE Opt Plus lit Py.one_of].
  unfold Py.is_char. destruct (Py.is_digit a); cbn [orb]; [reflexivity|].
  destruct (Ascii.eqb "+" a), (Ascii.eqb "-" a), (Ascii.eqb "." a); cbn; congruence.
Qed.

(** What the search for a number finds. *)
Lemma NUM_RE_search (text : string) :
  match search Pat.NUM_RE text with
  | None => has Py.is_digit text = false
  | Some m =>
      exists pre post,
        text = pre +:+ (group0 text m +:+ post)
        /\ Py.every num_char (group0 text m) = true
        /\ has Py.is_digit (group0 text m) = true
  end.
Proof.
  destruct (search Pat.NUM_RE text) as [m|] eqn:Hs.
  - destruct (search_sound _ _ _ Hs)
      as (pre & t & post & c & e & Ht & Hg & Hst & Hc & _ & _ & _ & Ha).
    rewrite Hg. exists pre, post. split; [exact Ht|]. split.
    + exact (every_weaken _ _ t NUM_RE_alphabet Ha).
    + exact (steps_must _ _ _ _ Hst NUM_RE_must_read_digit t Hc).
  - destruct (has Py.is_digit text) eqn:Hd; [|reflexivity].
    destruct (first_digit text Hd) as (pre & a & s & -> & Ha).
    exfalso. revert Hs. apply search_from_complete.
    intros p pv. now apply NUM_RE_at_digit.
Qed.

(** X1.  [find_number] fails exactly on texts without a decimal
    digit: [agent.py] then returns its error text and [tools_loop.py]
    raises ValueError.  On any other text both return the same piece of
    the text, which contains a digit and is made only of digits, signs
    and dots. *)
Theorem find_number_needs_a_digit (text : string) :
  (has Py.is_digit text = false ->
   Agent.find_number [("text", JStr text)] = "ERROR: no number found"
   /\ ToolsLoop.find_number (JStr text) = Raise (ValueError "no number found"))
  /\ (has Py.is_digit text = true ->
      exists pre num post,
        text = pre +:+ (num +:+ post)
        /\ Agent.find_number [("text", JStr text)] = num
        /\ ToolsLoop.find_number (JStr text) = Ok num
        /\ Py.every num_char num = true
        /\ has Py.is_digit num = true).
Proof.
  unfold Agent.find_number, ToolsLoop.find_number.
  change (str_of (Agent.get_or_empty "text" [("text", JStr text)])) with text.
  pose proof (NUM_RE_search text) as Hs.
  destruct (search Pat.NUM_RE text) as [m|].
  - destruct Hs as (pre & post & Ht & Hc & Hd). split.
    + intros Hn. rewrite Ht, !has_app, Hd, orb_true_r in Hn. discriminate Hn.
    + intros _. now exists pre, (group0 text m), post.
  - split; [now split|]. intros Hd. rewrite Hs in Hd. discriminate Hd.
Qed.

(** ** Texts cut at their ends *)

Lemma rev_onto_app (s acc : string) :
  Py.rev_str_onto s acc = Py.rev_str s +:+ acc.
Proof.
  unfold Py.rev_str. revert acc. induction s as [|x s IH]; intros acc; [reflexivity|].
  cbn [Py.rev_str_onto]. rewrite (IH (String x acc)), (IH (String x EmptyString)).
  now rewrite app_assoc_str.
Qed.

Lemma rev_str_cons (x : ascii) (s : string) :
  Py.rev_str (String x s) = Py.rev_str s +:+ String x EmptyString.
Proof. unfold Py.rev_str at 1. cbn [Py.rev_str_onto]. apply rev_onto_app. Qed.

Lemma rev_str_app (a b : string) :
  Py.rev_str (a +:+ b) = Py.rev_str b +:+ Py.rev_str a.
Proof.
  induction a as [|x a IH]; cbn [String.append].
  - now rewrite app_nil_r_str.
  - now rewrite !rev_str_cons, IH, app_assoc_str.
Qed.

Lemma rev_str_involutive (s : string) : Py.rev_str (Py.rev_str s) = s.
Proof.
  induction s as [|x s IH]; [reflexivity|].
  now rewrite rev_str_cons, rev_str_app, IH.
Qed.













End FoundFacts.


(* ================================================================== *)
(** * The first path of a request and the deterministic layer *)
(* ================================================================== *)

Section PathFacts.
Context `{Host}.
Import Re Matched.

Lemma app_same_rest (a b r : string) :
  a +:+ r = b +:+ r -> String.length a = String.length b -> a = b.
Proof.
  revert b. induction a as [|x a IH]; intros [|y b] E L; cbn in L; try lia;
    [reflexivity|].
  cbn [String.append] in E. injection E as -> E. f_equal. apply IH; [exact E|lia].
Qed.

Lemma consumed_unique (c c' : cursor) (t u : string) :
  consumed c c' t -> consumed c c' u -> t = u.
Proof.
  intros [R1 P1] [R2 P2]. apply (app_same_rest t u (rest c')); [congruence|lia].
Qed.

Lemma consumed_trans (c c1 c2 : cursor) (t u : string) :
  consumed c c1 t -> consumed c1 c2 u -> consumed c c2 (t +:+ u).
Proof.
  intros [R1 P1] [R2 P2]. split.
  - now rewrite R1, R2, app_assoc_str.
  - rewrite length_app_str. lia.
Qed.

(** A literal matched without regard to case reads the literal, up to
    case. *)
Lemma steps_lits_i (w : string) :
  forall c c', steps (lits_i w) c c' ->
    exists t, consumed c c' t /\ Py.lower t = Py.lower w.
Proof.
  assert (Hone : forall x c c', steps (lit_i x) c c' ->
    exists t, consumed c c' t /\ Py.lower t = Py.lower (String x EmptyString)).
  { intros x c c' Hs. inversion Hs as [|p c0 c0' a Ha Hp| | | | | | | | |]; subst.
    unfold advance in Ha. destruct (rest c) as [|y s] eqn:Hr; [discriminate|].
    injection Ha as <- <-. exists (String y EmptyString). split.
    - split; cbn [rest pos String.append String.length]; [exact Hr|lia].
    - cbn [Py.lower]. apply Ascii.eqb_eq in Hp. now rewrite Hp. }
  induction w as [|x w IH]; intros c c' Hs.
  - inversion Hs; subst. exists EmptyString.
    split; [split; cbn; [reflexivity|lia]|reflexivity].
  - destruct w as [|y w]; [now apply Hone|].
    change (lits_i (String x (String y w)))
      with (Seq (lit_i x) (lits_i (String y w))) in Hs.
    inversion Hs as [| |r1 r2 c0 c1 c2 H1 H2| | | | | | | |]; subst.
    destruct (Hone x _ _ H1) as (t1 & C1 & L1).
    destruct (IH _ _ H2) as (t2 & C2 & L2).
    exists (t1 +:+ t2). split; [exact (consumed_trans _ _ _ _ _ C1 C2)|].
    destruct t1 as [|a [|b t1]]; try discriminate L1.
    cbn [String.append Py.lower] in *. injection L1 as L1. now rewrite L1, L2.
Qed.

Lemma rstrip_keeps_last (q : ascii -> bool) (s : string) (a : ascii) :
  q a = false ->
  Py.rstrip_by q (s +:+ String a EmptyString) = s +:+ String a EmptyString.
Proof.
  intros Hq. unfold Py.rstrip_by. rewrite rev_str_app.
  change (Py.rev_str (String a EmptyString)) with (String a EmptyString).
  cbn [String.append Py.lstrip_by]. rewrite Hq.
  now rewrite rev_str_cons, rev_str_involutive.
Qed.

Lemma lower_t_is_no_punct (a : ascii) :
  Py.lower_char a = "t"%char -> Pat.trailing_punct a = false.
Proof. destruct a as [[] [] [] [] [] [] [] []]; vm_compute; congruence. Qed.

(** A text that ends with [.txt] loses nothing when trailing
    punctuation is cut off. *)
Lemma rstrip_txt (path : string) :
  ends_with_txt path -> Py.rstrip_by Pat.trailing_punct path = path.
Proof.
  intros (stem & ext & -> & L).
  destruct ext as [|a1 [|a2 [|a3 [|a4 [|a5 ext]]]]]; try discriminate L.
  cbn [Py.lower] in L. injection L as _ _ _ L4.
  change (stem +:+ String a1 (String a2 (String a3 (String a4 EmptyString))))
    with (stem +:+ (String a1 (String a2 (String a3 EmptyString))
                    +:+ String a4 EmptyString)).
  rewrite <- app_assoc_str. apply rstrip_keeps_last. now apply lower_t_is_no_punct.
Qed.

(** What the search for a path finds. *)
Lemma FILE_RE_group (t : string) (m : found) :
  search Pat.FILE_RE t = Some m ->
  ends_with_txt (group0 t m)
  /\ exists pre post, t = pre +:+ (group0 t m +:+ post).
Proof.
  intros Hs.
  destruct (search_sound _ _ _ Hs)
    as (pre & u & post & c & e & Ht & Hg & Hst & Hc & _).
  rewrite Hg. split; [|now exists pre, post].
  unfold Pat.FILE_RE in Hst.
  inversion Hst as [| |r1 r2 c0 c1 c2 H1 H2| | | | | | | |]; subst.
  inversion H2 as [| |r1 r2 c0 c3 c4 H3 H4| | | | | | | |]; subst.
  destruct (steps_consumed _ _ _ H1) as (t1 & C1 & _).
  destruct (steps_consumed _ _ _ H3) as (t3 & C3 & _).
  destruct (steps_lits_i ".txt" _ _ H4) as (ext & C4 & L).
  exists (t1 +:+ t3), ext. split; [|exact L].
  apply (consumed_unique c e); [exact Hc|].
  exact (consumed_trans _ _ _ _ _ (consumed_trans _ _ _ _ _ C1 C3) C4).
Qed.

Lemma contains_split (w s : string) :
  Py.contains w s = true ->
  exists pre s', s = pre +:+ s' /\ Py.startswith w s' = true.
Proof.
  induction s as [|x s IH]; cbn [Py.contains].
  - rewrite orb_false_r. intros E. now exists EmptyString, EmptyString.
  - destruct (Py.startswith w (String x s)) eqn:E; cbn [orb].
    + intros _. now exists EmptyString, (String x s).
    + intros Hc. destruct (IH Hc) as (pre & s' & -> & Hs).
      now exists (String x pre), s'.
Qed.

Lemma startswith_split (w s : string) :
  Py.startswith w s = true -> exists s', s = w +:+ s'.
Proof.
  revert s. induction w as [|x w IH]; intros s; [now exists s|].
  destruct s as [|y s]; cbn [Py.startswith]; [discriminate|].
  intros E. apply andb_true_iff in E as [E1 E2]. apply Ascii.eqb_eq in E1. subst y.
  destruct (IH s E2) as (s' & ->). now exists s'.
Qed.

(** Where [.txt] stands in a text, [FILE_RE] matches. *)
Lemma FILE_RE_at_txt (s : string) (p : nat) (pv : option ascii) :
  match_at Pat.FILE_RE (Cursor p pv (".txt" +:+ s) []) <> None.
Proof.
  unfold match_at.
  assert (Hr : run Pat.FILE_RE (Cursor p pv (".txt" +:+ s) []) Some <> None).
  { unfold Pat.FILE_RE, Opt.
    match goal with
    | |- run (Seq (Alt ?o Eps) (Seq (Star false ?b) ?l)) ?c Some <> None =>
        change (run (Alt o Eps) c
                  (fun c' => run (Star false b) c' (fun c2 => run l c2 Some)) <> None);
        apply run_alt_r;
        change (star_loop false (run b) (fun c2 => run l c2 Some)
                  (S (String.length (rest c))) c <> None)
    end.
    cbn [star_loop].
    match goal with
    | |- match ?k with Some e => Some e | None => _ end <> None =>
        assert (Hk : k <> None) by (vm_compute; discriminate);
        destruct k; [discriminate|congruence]
    end. }
  destruct (run Pat.FILE_RE _ Some); congruence.
Qed.

Lemma FILE_RE_finds_txt (t : string) :
  Py.contains ".txt" t = true -> search Pat.FILE_RE t <> None.
Proof.
  intros Hc. destruct (contains_split _ _ Hc) as (pre & s' & -> & Hs).
  destruct (startswith_split _ _ Hs) as (s'' & ->).
  apply search_from_complete. intros p pv. apply FILE_RE_at_txt.
Qed.

Lemma ends_with_txt_nonempty (path : string) :
  ends_with_txt path -> ToolsLoop.nonempty path = true.
Proof.
  intros (stem & ext & -> & L). destruct ext as [|a ext]; [discriminate L|].
  now destruct stem.
Qed.

Lemma first_path_sound (t path : string) :
  ToolsLoop._first_path_in t = Some path ->
  ends_with_txt path
  /\ ToolsLoop.nonempty path = true
  /\ exists pre post, t = pre +:+ (path +:+ post).
Proof.
  unfold ToolsLoop._first_path_in.
  destruct (String.eqb t EmptyString); [discriminate|].
  destruct (search Pat.FILE_RE t) as [m|] eqn:Hs; [|discriminate].
  destruct (FILE_RE_group t m Hs) as (He & Hin).
  rewrite (rstrip_txt _ He). intros [= <-].
  split; [exact He|]. split; [now apply ends_with_txt_nonempty|exact Hin].
Qed.

Lemma first_path_complete (t : string) :
  Py.contains ".txt" t = true -> ToolsLoop._first_path_in t <> None.
Proof.
  unfold ToolsLoop._first_path_in.
  intros Hc. destruct (String.eqb t EmptyString) eqn:E.
  - apply String.eqb_eq in E. subst t. discriminate Hc.
  - pose proof (FILE_RE_finds_txt t Hc). destruct (search Pat.FILE_RE t); congruence.
Qed.

(** X3.  The path [_first_path_in] picks is a piece of the text that
    ends with [.txt] in some letter case, with nothing cut off by the
    removal of trailing punctuation, and it is never the empty string;
    a text that contains [.txt] always yields one.  So the pre-read and
    the deterministic layer read only paths ending in [.txt]. *)
Theorem first_path_ends_with_txt (t : string) :
  (forall path,
      ToolsLoop._first_path_in t = Some path ->
      ends_with_txt path
      /\ ToolsLoop.nonempty path = true
      /\ exists pre post, t = pre +:+ (path +:+ post))
  /\ (Py.contains ".txt" t = true -> ToolsLoop._first_path_in t <> None).
Proof. split; [apply first_path_sound|apply first_path_complete]. Qed.

(** X4.  The deterministic layer answers exactly the requests that
    contain the words [what is in] (in any case) and the text [.txt]: for
    those it never falls through to the model and never raises.  Its
    answer is what [read_file] returns for the first path of the
    request, or the text of the exception between [[error: ] and []]. *)
Theorem deterministic_layer_answers (p : string) (fs : Fs.t) :
  (ToolsLoop.deterministic_execute p fs <> None
   <-> search Pat.WHAT_IS_IN p <> None /\ Py.contains ".txt" p = true)
  /\ forall r,
       ToolsLoop.deterministic_execute p fs = Some r ->
       exists path,
         ToolsLoop._first_path_in p = Some path
         /\ ends_with_txt path
         /\ r = match ToolsLoop.read_file (JStr path) fs with
                | Ok text => text
                | Raise e => "[error: " +:+ exn_str e +:+ "]"
                end.
Proof.
  unfold ToolsLoop.deterministic_execute. cbn [ToolsLoop.ENABLE_DETERMINISTIC negb].
  pose proof (first_path_sound p) as Hpath.
  pose proof (first_path_complete p) as Hfound.
  destruct (search Pat.WHAT_IS_IN p) as [w|].
  2: { split; [split; [congruence|intros [? _]; congruence]|discriminate]. }
  destruct (Py.contains ".txt" p) eqn:Hc.
  2: { split; [split; [congruence|intros [_ ?]; congruence]|discriminate]. }
  specialize (Hfound eq_refl).
  destruct (ToolsLoop._first_path_in p) as [path|]; [|congruence].
  destruct (Hpath path eq_refl) as (He & Hn & _). rewrite Hn. split.
  - split; [intros _; split; congruence|intros _].
    destruct (ToolsLoop.read_file (JStr path) fs); discriminate.
  - intros r Hr. exists path. split; [reflexivity|]. split; [exact He|].
    destruct (ToolsLoop.read_file (JStr path) fs); now injection Hr as <-.
Qed.

Lemma steps_chr_consumed (p : ascii -> bool) (c c' : cursor) :
  steps (Chr p) c c' ->
  exists a, consumed c c' (String a EmptyString) /\ p a = true.
Proof.
  intros Hs. inversion Hs as [|q c0 c0' a Ha Hp| | | | | | | | |]; subst.
  unfold advance in Ha. destruct (rest c) as [|y s] eqn:Hr; [discriminate|].
  injection Ha as <- <-. exists y. split; [|exact Hp].
  split; cbn [rest pos String.append String.length]; [exact Hr|lia].
Qed.

(** A bounded repetition of a class reads a text that ends with a
    character of the class. *)
Lemma steps_upto (p : ascii -> bool) (n : nat) :
  forall c c', steps (upto n (Chr p)) c c' ->
    exists u a, consumed c c' (u +:+ String a EmptyString) /\ p a = true.
Proof.
  induction n as [|n IH]; intros c c' Hs.
  - destruct (steps_chr_consumed p c c' Hs) as (a & Hc & Hp).
    now exists EmptyString, a.
  - cbn [upto] in Hs. unfold Opt in Hs.
    inversion Hs as [| |r1 r2 c0 c1 c2 H1 H2| | | | | | | |]; subst.
    destruct (steps_chr_consumed p c c1 H1) as (a1 & C1 & P1).
    inversion H2 as [| | |r1 r2 c0 c0' Hl|r1 r2 c0 c0' Hr| | | | | |]; subst.
    + destruct (IH _ _ Hl) as (u & a & C2 & P2).
      exists (String a1 u), a. split; [|exact P2].
      exact (consumed_trans _ _ _ _ _ C1 C2).
    + inversion Hr; subst. now exists EmptyString, a1.
Qed.

Lemma alnum_is_no_punct (a : ascii) :
  Pat.alnum_ascii a = true -> Pat.trailing_punct a = false.
Proof. destruct a as [[] [] [] [] [] [] [] []]; vm_compute; congruence. Qed.

Lemma PATH_RE_alphabet (a : ascii) :
  alphabet Pat.PATH_RE a = true -> Pat.path_char a = true.
Proof. destruct a as [[] [] [] [] [] [] [] []]; vm_compute; congruence. Qed.

(** What the search for an explicit path finds. *)
Lemma PATH_RE_group (up : string) (m : found) :
  search Pat.PATH_RE up = Some m ->
  Py.rstrip_by Pat.trailing_punct (group0 up m) = group0 up m
  /\ Py.every Pat.path_char (group0 up m) = true
  /\ has (Py.is_char ".") (group0 up m) = true
  /\ exists pre post, up = pre +:+ (group0 up m +:+ post).
Proof.
  intros Hs.
  destruct (search_sound _ _ _ Hs)
    as (pre & t & post & c & e & Ht & Hg & Hst & Hc & _ & _ & _ & Ha).
  rewrite Hg. split; [|split; [|split]].
  - clear Ht Hg Hs. unfold Pat.PATH_RE in Hst.
    inversion Hst as [| |r1 r2 c0 c1 c2 H1 H2| | | | | | | |]; subst.
    inversion H2 as [| |r1 r2 c0 c3 c4 H3 H4| | | | | | | |]; subst.
    inversion H4 as [| |r1 r2 c0 c5 c6 H5 H6| | | | | | | |]; subst.
    destruct (steps_consumed _ _ _ H1) as (t1 & C1 & _).
    destruct (steps_consumed _ _ _ H3) as (t3 & C3 & _).
    destruct (steps_consumed _ _ _ H5) as (t5 & C5 & _).
    destruct (steps_upto Pat.alnum_ascii 7 _ _ H6) as (u & a & C6 & Pa).
    pose proof (consumed_trans _ _ _ _ _
      (consumed_trans _ _ _ _ _ (consumed_trans _ _ _ _ _ C1 C3) C5) C6) as Call.
    rewrite (consumed_unique c e _ _ Hc Call), <- app_assoc_str.
    apply rstrip_keeps_last. now apply alnum_is_no_punct.
  - exact (every_weaken _ _ t PATH_RE_alphabet Ha).
  - apply (steps_must _ _ _ _ Hst); [vm_compute; reflexivity|exact Hc].
  - now exists pre, post.
Qed.

(** X5.  The path of a read directive that the fallback builds from an
    explicit path in the request is a piece of the request itself: the
    removal of trailing punctuation cuts nothing off the match.  It is
    made only of ASCII letters, digits, dots, underscores, slashes and
    hyphens, and it holds a dot. *)
Theorem explicit_path_is_clean (up path : string) :
  Agent.explicit_path up = Some path ->
  Py.every Pat.path_char path = true
  /\ has (Py.is_char ".") path = true
  /\ exists pre post, up = pre +:+ (path +:+ post).
Proof.
  unfold Agent.explicit_path.
  destruct (search Pat.PATH_RE up) as [m|] eqn:Hs; [|discriminate].
  destruct (PATH_RE_group up m Hs) as (Hr & He & Hd & Hin).
  rewrite Hr. intros [= <-]. now repeat split.
Qed.

End PathFacts.

(** A path followed by a question mark. *)
Lemma explicit_path_is_clean_witness :
  Py.every Pat.path_char "docs/plan.md" = true
  /\ Matched.has (Py.is_char ".") "docs/plan.md" = true
  /\ exists pre post, "could you open docs/plan.md?" = pre +:+ ("docs/plan.md" +:+ post).
Proof.
  apply (explicit_path_is_clean "could you open docs/plan.md?" "docs/plan.md").
  vm_compute. reflexivity.
Defined.

(* ================================================================== *)
(** * The agent loop: what is sent to the model *)
(* ================================================================== *)

Section LoopBounds.
Context `{Host}.
Import ToolsLoop Says Trace.

(** What a round does to the conversation and to the record of calls. *)
Lemma turn_effect (q : string) (st : loop_state) :
  match planning_turn q st with
  | Again st' =>
      asked (world st') = asked (world st) ++ [msgs st]
      /\ exists more, msgs st' = msgs st ++ more
  | Answer _ w' =>
      asked w' = asked (world st) ++ [msgs st]
      /\ files w' = files (world st)
  end.
Proof.
  unfold planning_turn. rewrite ask_eq.
  destruct (extract_last_json_dict _) as [[|kv data]|].
  - split; [reflexivity|]. now exists [corrective].
  - destruct (truthy (tool_of (kv :: data))); [destruct (args_of (kv :: data)) as [args|]|].
    + destruct (run_tool _ _ _) as [result fs']. split; [reflexivity|]. eauto.
    + destruct (get_not_none "final" (kv :: data)).
      * destruct (_is_read_intent q), (last_tool_result st); split; reflexivity.
      * split; [reflexivity|]. exists []. now rewrite app_nil_r.
    + destruct (get_not_none "final" (kv :: data)).
      * destruct (_is_read_intent q), (last_tool_result st); split; reflexivity.
      * split; [reflexivity|]. exists []. now rewrite app_nil_r.
  - split; [reflexivity|]. now exists [corrective].
Qed.

Lemma grows_from_weaken (ms ms' : list message) (sent : list (list message)) :
  (exists more, ms' = ms ++ more) -> grows_from ms' sent -> grows_from ms sent.
Proof.
  intros (m1 & ->). destruct sent as [|c later]; [easy|].
  cbn [grows_from]. intros [(m2 & ->) Hl]. split; [|exact Hl].
  exists (m1 ++ m2). now rewrite app_assoc.
Qed.

(** The conversations a loop of [n] rounds sends. *)
Lemma agent_loop_sent (n : nat) :
  forall q st,
    exists sent,
      asked (snd (agent_loop n q st)) = asked (world st) ++ sent
      /\ (List.length sent <= n)%nat
      /\ grows_from (msgs st) sent.
Proof.
  induction n as [|n IH]; intros q st.
  - exists []. cbn [agent_loop snd]. rewrite app_nil_r. repeat split. cbn. lia.
  - cbn [agent_loop]. pose proof (turn_effect q st) as He.
    destruct (planning_turn q st) as [st'|text w'].
    + destruct He as [Ha Hm]. destruct (IH q st') as (sent & Hs & Hl & Hg).
      exists (msgs st :: sent). rewrite Hs, Ha, <- app_assoc. split; [reflexivity|].
      split; [cbn; lia|]. cbn [grows_from]. split.
      * exists []. now rewrite app_nil_r.
      * now apply (grows_from_weaken (msgs st) (msgs st')).
    + destruct He as [Ha _]. exists [msgs st]. cbn [snd]. split; [exact Ha|].
      split; [cbn; lia|]. cbn [grows_from]. split; [|exact I].
      exists []. now rewrite app_nil_r.
Qed.

(** A loop with a round to go sends the conversation it starts from. *)
Lemma agent_loop_first (n : nat) (q : string) (st : loop_state) :
  exists later,
    asked (snd (agent_loop (S n) q st)) = asked (world st) ++ msgs st :: later.
Proof.
  cbn [agent_loop]. pose proof (turn_effect q st) as He.
  destruct (planning_turn q st) as [st'|text w'].
  - destruct He as [Ha _]. destruct (agent_loop_sent n q st') as (sent & Hs & _).
    exists sent. now rewrite Hs, Ha, <- app_assoc.
  - destruct He as [Ha _]. exists []. exact Ha.
Qed.

(** The pre-read: what it appends, and that it changes no file. *)
Lemma bootstrap_read_effect (ms : list message) (path : string) (fs : Fs.t) :
  _bootstrap_file_read ms path fs
  = (fst (run_tool (JStr "read_file") [("path", JStr path)] fs),
     ms ++ exchange (JStr "read_file") [("path", JStr path)]
             (fst (run_tool (JStr "read_file") [("path", JStr path)] fs)),
     fs).
Proof.
  unfold _bootstrap_file_read, exchange. cbn [ENABLE_BOOTSTRAP negb].
  unfold run_tool.
  change (call_tool (JStr "read_file") [("path", JStr path)] fs)
    with (read_file (JStr path) fs, fs).
  destruct (read_file (JStr path) fs); reflexivity.
Qed.

(** The conversation before the first round. *)
Lemma bootstrap_effect (forced : bool) (q : string) (fs : Fs.t) :
  snd (bootstrap forced q fs) = fs
  /\ (fst (bootstrap forced q fs) = opening q
      \/ exists path,
           forced = false
           /\ fst (bootstrap forced q fs)
              = opening q ++ exchange (JStr "read_file") [("path", JStr path)]
                  (fst (run_tool (JStr "read_file") [("path", JStr path)] fs))).
Proof.
  unfold bootstrap. fold (opening q). cbn [ENABLE_BOOTSTRAP andb].
  destruct forced; cbn [negb]; [split; [reflexivity|now left]|].
  destruct (_first_path_in q) as [p|].
  - destruct (nonempty p); [|split; [reflexivity|now left]].
    rewrite bootstrap_read_effect. split; [reflexivity|]. right. now exists p.
  - destruct (Py.contains " file" (Py.lower q)); [|split; [reflexivity|now left]].
    destruct (Fs.isfile fs _); [|split; [reflexivity|now left]].
    rewrite bootstrap_read_effect. split; [reflexivity|]. right. now exists "./notes.txt".
Qed.

Lemma initial_state_opening (forced : bool) (q : string) (w : World) :
  (exists more, msgs (initial_state forced q w) = opening q ++ more)
  /\ files (world (initial_state forced q w)) = files w.
Proof.
  unfold initial_state. pose proof (bootstrap_effect forced q (files w)) as [Hf Hm].
  destruct (bootstrap forced q (files w)) as [ms fs']. cbn [fst snd] in *. subst fs'.
  split; [|reflexivity]. cbn [msgs].
  destruct Hm as [->|(path & _ & ->)]; [|eauto].
  exists []. now rewrite app_nil_r.
Qed.

(** X6.  A run of [run_query] in [tools_loop.py] calls the model at most
    forty times, whatever the model replies; when the deterministic
    layer answers, it does not call the model at all. *)
Theorem model_calls_bounded (q0 : string) (w : World) :
  exists sent,
    asked (snd (run_query q0 w)) = asked w ++ sent
    /\ (List.length sent <= 40)%nat
    /\ (short_circuit (fst (unprefix q0)) (snd (unprefix q0)) (files w) <> None ->
        sent = []).
Proof.
  unfold run_query. destruct (unprefix q0) as [forced q]. cbn [fst snd].
  destruct (short_circuit forced q (files w)) as [det|] eqn:Hs.
  - exists []. cbn [snd]. rewrite app_nil_r. repeat split. cbn; lia.
  - destruct (agent_loop_sent LOOP_LIMIT q (initial_state forced q w))
      as (sent & Ha & Hl & _).
    exists sent. rewrite Ha, (proj1 (initial_state_asked forced q w)).
    split; [reflexivity|]. split; [exact Hl|]. congruence.
Qed.

(** X7.  The conversations a run sends to the model form a chain: the
    first begins with the system prompt and the request (the prefix
    [agent:] taken off), and each later one is the one before it with
    messages appended; nothing sent is ever dropped or rewritten. *)
Theorem conversation_only_grows (q0 : string) (w : World) :
  exists sent,
    asked (snd (run_query q0 w)) = asked w ++ sent
    /\ grows_from (opening (snd (unprefix q0))) sent.
Proof.
  unfold run_query. destruct (unprefix q0) as [forced q]. cbn [snd].
  destruct (short_circuit forced q (files w)) as [det|].
  - exists []. cbn [snd]. now rewrite app_nil_r.
  - destruct (agent_loop_sent LOOP_LIMIT q (initial_state forced q w))
      as (sent & Ha & _ & Hg).
    exists sent. rewrite Ha, (proj1 (initial_state_asked forced q w)).
    split; [reflexivity|].
    apply (grows_from_weaken _ (msgs (initial_state forced q w)));
      [apply initial_state_opening | exact Hg].
Qed.

(** X8.  When the model gives a final answer and either the request
    shows no read intent or no tool has run in the loop, [run_query]
    returns the model's final text itself, even when a file was
    pre-read before the loop. *)
Theorem final_text_returned (q0 q : string) (forced : bool) (w : World) (k : nat)
  (st : loop_state) (f : json) :
  unprefix q0 = (forced, q) ->
  short_circuit forced q (files w) = None ->
  (k < LOOP_LIMIT)%nat ->
  state_after k q (initial_state forced q w) = Some st ->
  final_at st f ->
  _is_read_intent q = false \/ last_tool_result st = None ->
  run_query q0 w = (str_of f, asked_once st).
Proof.
  intros Hu Hs Hk Hst Hf Hor.
  rewrite (answer_at_final q0 q forced w k st f Hu Hs Hk Hst Hf).
  destruct Hor as [-> | ->]; [reflexivity|].
  now destruct (_is_read_intent q).
Qed.

(** X9.  With the prefix [agent:] (in any case) the deterministic layer
    and the pre-read are skipped: the model is called, and the first
    conversation it gets is exactly the system prompt and the request
    with the prefix and the white space after it taken off. *)
Theorem forced_agent_asks_first (q0 : string) (w : World) :
  Py.startswith "agent:" (Py.lower q0) = true ->
  exists later,
    asked (snd (run_query q0 w))
    = asked w ++ opening (Py.lstrip (Py.drop_str 6 q0)) :: later.
Proof.
  intros Hp. unfold run_query, unprefix.
  change FORCE_AGENT_PREFIX with "agent:". rewrite Hp.
  change (String.length "agent:") with 6%nat.
  set (q := Py.lstrip (Py.drop_str 6 q0)).
  change (short_circuit true q (files w)) with (@None string). cbv beta iota.
  destruct (agent_loop_first 39 q (initial_state true q w)) as (later & Hl).
  exists later. exact Hl.
Qed.

(** X10.  Before the first model call the conversation is the system
    prompt and the request, followed by at most one pre-read: the
    [read_file] directive and the note with what [run_tool] returned for
    it.  The pre-read changes no file, and a forced-agent run has none. *)
Theorem preread_shape (forced : bool) (q : string) (w : World) :
  files (world (initial_state forced q w)) = files w
  /\ last_tool_result (initial_state forced q w) = None
  /\ (msgs (initial_state forced q w) = opening q
      \/ exists path,
           forced = false
           /\ msgs (initial_state forced q w)
              = opening q ++ exchange (JStr "read_file") [("path", JStr path)]
                  (fst (run_tool (JStr "read_file") [("path", JStr path)] (files w)))).
Proof.
  unfold initial_state. pose proof (bootstrap_effect forced q (files w)) as [Hf Hm].
  destruct (bootstrap forced q (files w)) as [ms fs']. cbn [fst snd] in *. subst fs'.
  split; [reflexivity|]. split; [reflexivity|]. exact Hm.
Qed.

End LoopBounds.

(** A request without read intent: the model's final text comes back. *)
Lemma final_text_returned_witness :
  fst (ToolsLoop.run_query (H := Demo.host Demo.project [Py.jq "{`final`: `Paris`}"])
         "capital of France?" Demo.world0)
  = "Paris".
Proof.
  refine (f_equal fst
    (@final_text_returned (Demo.host Demo.project [Py.jq "{`final`: `Paris`}"])
       "capital of France?" "capital of France?" false Demo.world0 0
       (ToolsLoop.initial_state (H := Demo.host Demo.project [Py.jq "{`final`: `Paris`}"])
          false "capital of France?" Demo.world0)
       (JStr "Paris") _ _ _ _ _ _)).
  - vm_compute. reflexivity.
  - vm_compute. reflexivity.
  - unfold ToolsLoop.LOOP_LIMIT. lia.
  - reflexivity.
  - exists [("final", JStr "Paris")]. repeat split; vm_compute; reflexivity.
  - left. vm_compute. reflexivity.
Defined.

(** A forced request in capitals. *)
Lemma forced_agent_asks_first_witness :
  exists later,
    asked (snd (ToolsLoop.run_query (H := Demo.host Demo.project [])
                  "AGENT:   what is in notes.txt" Demo.world0))
    = Trace.opening "what is in notes.txt" :: later.
Proof.
  destruct (@forced_agent_asks_first (Demo.host Demo.project [])
              "AGENT:   what is in notes.txt" Demo.world0) as (later & E).
  - vm_compute. reflexivity.
  - exists later. exact E.
Defined.

(* ================================================================== *)
(** * What the tools leave alone *)
(* ================================================================== *)

Section FrameFacts.
Context `{Host}.
Import Says.

(** Opening a file for writing touches the place the path names and no
    other. *)
Lemma open_w_frame (fs fs1 : Fs.t) (path : string) (loc : list string) :
  Fs.open_w fs path = Some (loc, fs1) ->
  Fs.locate fs path = Some loc
  /\ forall text other, other <> loc ->
       fs1 !! other = fs !! other
       /\ Fs.write_at fs1 loc text !! other = fs !! other.
Proof.
  unfold Fs.open_w, Fs.write_at.
  destruct (Fs.locate fs path) as [[|c target]|]; try discriminate.
  destruct (Fs.is_dir fs (Fs.parent (c :: target))); [|discriminate].
  assert (E : forall fs0, Some (c :: target, fs0) = Some (loc, fs1) ->
                loc = c :: target /\ fs1 = fs0) by (now intros fs0 [= <- <-]).
  destruct (fs !! (c :: target)) as [[old|]|] eqn:Hl; try discriminate;
    intros Hs; apply E in Hs as [-> ->]; (split; [reflexivity|]);
    intros text other Hne; rewrite !lookup_insert_ne by congruence; now split.
Qed.



(** Only the tool called [write_file] can change a file. *)
Lemma other_tools_keep_files (n : json) (a : dict) (fs : Fs.t) :
  n <> JStr "write_file" -> snd (ToolsLoop.call_tool n a fs) = fs.
Proof.
  intros Hn. unfold ToolsLoop.call_tool. destruct n as [| | | |name| |]; try reflexivity.
  destruct (ToolsLoop.assoc name ToolsLoop.TOOLS) as [t|] eqn:Ha; [|reflexivity].
  destruct (negb (ToolsLoop.binds t a)); [reflexivity|].
  destruct t; try reflexivity.
  exfalso. apply Hn. f_equal.
  revert Ha. unfold ToolsLoop.TOOLS. cbn [ToolsLoop.assoc].
  destruct (String.eqb name "read_file"); [discriminate|].
  destruct (String.eqb name "write_file") eqn:E; [intros _; now apply String.eqb_eq|].
  destruct (String.eqb name "calc"); [discriminate|].
  destruct (String.eqb name "find_number"); discriminate.
Qed.

Lemma run_tool_files (n : json) (a : dict) (fs : Fs.t) :
  snd (ToolsLoop.run_tool n a fs) = snd (ToolsLoop.call_tool n a fs).
Proof.
  unfold ToolsLoop.run_tool. now destruct (ToolsLoop.call_tool n a fs) as [[r|e] fs'].
Qed.

Lemma is_write_file_dec (n : json) : n = JStr "write_file" \/ n <> JStr "write_file".
Proof.
  destruct n as [| | | |name| |]; try (right; discriminate).
  destruct (String.eqb name "write_file") eqn:E.
  - left. f_equal. now apply String.eqb_eq.
  - right. intros [= ->]. now rewrite String.eqb_refl in E.
Qed.



End FrameFacts.



(* ================================================================== *)
(** * What a whole run leaves alone *)
(* ================================================================== *)

Section LoopFrame.
Context `{Host}.
Import ToolsLoop Says Trace.

(** Writing a regular file where no directory stands leaves the
    directories as they are. *)
Lemma is_dir_insert_eq (fs : Fs.t) (loc cur : list string) (text : string) :
  fs !! loc <> Some Fs.Dir -> loc <> [] ->
  Fs.is_dir (<[loc := Fs.File text]> fs) cur = Fs.is_dir fs cur.
Proof.
  intros Hloc Hne. destruct cur as [|c cur']; [reflexivity|].
  cbn [Fs.is_dir]. destruct (decide (loc = c :: cur')) as [->|Hneq].
  - rewrite lookup_insert_eq. destruct (fs !! (c :: cur')) as [[]|]; congruence.
  - now rewrite lookup_insert_ne.
Qed.

Lemma walk_same_dirs (fs fs0 : Fs.t) (comps : list string) :
  (forall cur, Fs.is_dir fs cur = Fs.is_dir fs0 cur) ->
  forall cur, Fs.walk fs cur comps = Fs.walk fs0 cur comps.
Proof.
  intros Hd. induction comps as [|c more IH]; intros cur; [reflexivity|].
  cbn [Fs.walk]. rewrite Hd.
  destruct (String.eqb c "" || String.eqb c "."); [now rewrite IH|].
  destruct (String.eqb c ".."); now rewrite IH.
Qed.

Lemma locate_same_dirs (fs fs0 : Fs.t) (path : string) :
  (forall cur, Fs.is_dir fs cur = Fs.is_dir fs0 cur) ->
  Fs.locate fs path = Fs.locate fs0 path.
Proof.
  intros Hd. unfold Fs.locate. destruct (Fs.has_nul path); [reflexivity|].
  now apply walk_same_dirs.
Qed.

(** What a successful [open] for writing did. *)
Lemma open_w_inserts (fs fs1 : Fs.t) (path : string) (loc : list string) :
  Fs.open_w fs path = Some (loc, fs1) ->
  Fs.locate fs path = Some loc
  /\ loc <> [] /\ fs !! loc <> Some Fs.Dir
  /\ fs1 = <[loc := Fs.File EmptyString]> fs.
Proof.
  unfold Fs.open_w.
  destruct (Fs.locate fs path) as [[|c target]|]; try discriminate.
  destruct (Fs.is_dir fs (Fs.parent (c :: target))); [|discriminate].
  destruct (fs !! (c :: target)) as [[old|]|] eqn:Hl; try discriminate;
    intros [= <- <-]; repeat split; congruence.
Qed.

Lemma only_files_refl (fs : Fs.t) : only_files_within fs fs.
Proof. split; [reflexivity|]. intros loc Hne. congruence. Qed.

(** One more write of a regular file at such a place. *)
Lemma only_files_insert (fs0 fs : Fs.t) (p : string) (loc : list string)
  (text : string) :
  only_files_within fs0 fs ->
  Py.startswith ROOT (resolved p) = true ->
  Fs.locate fs (resolved p) = Some loc ->
  loc <> [] -> fs !! loc <> Some Fs.Dir ->
  only_files_within fs0 (<[loc := Fs.File text]> fs).
Proof.
  intros [Hd Hc] Hs Hl Hne Hnd. split.
  - intros cur. now rewrite is_dir_insert_eq.
  - intros other Ho. destruct (decide (other = loc)) as [->|Hneq].
    + exists p. split; [exact Hs|]. split.
      * now rewrite <- (locate_same_dirs fs fs0 _ Hd).
      * exists text. now rewrite lookup_insert_eq.
    + rewrite lookup_insert_ne in Ho by congruence.
      destruct (Hc other Ho) as (p' & Hs' & Hl' & text' & Ht').
      exists p'. split; [exact Hs'|]. split; [exact Hl'|].
      exists text'. now rewrite lookup_insert_ne by congruence.
Qed.

Lemma only_files_write (fs0 fs : Fs.t) (path text : json) :
  only_files_within fs0 fs ->
  only_files_within fs0 (snd (ToolsLoop.write_file path text fs)).
Proof.
  intros Hw. unfold ToolsLoop.write_file.
  destruct path as [| | | |p| |]; cbn [snd]; try exact Hw.
  fold (resolved p).
  destruct (Py.startswith ROOT (resolved p)) eqn:Hs; cbn [negb snd]; [|exact Hw].
  destruct (Fs.open_w fs (resolved p)) as [[loc fs1]|] eqn:Ho; cbn [snd]; [|exact Hw].
  destruct (open_w_inserts fs fs1 _ loc Ho) as (Hl & Hne & Hnd & ->).
  pose proof (only_files_insert fs0 fs p loc EmptyString Hw Hs Hl Hne Hnd) as H1.
  destruct text as [| | | |t| |]; cbn [snd]; try exact H1.
  unfold Fs.write_at. rewrite insert_insert_eq.
  exact (only_files_insert fs0 fs p loc t Hw Hs Hl Hne Hnd).
Qed.

Lemma only_files_run_tool (fs0 fs : Fs.t) (n : json) (a : dict) :
  only_files_within fs0 fs ->
  only_files_within fs0 (snd (run_tool n a fs)).
Proof.
  intros Hw. rewrite run_tool_files.
  destruct (is_write_file_dec n) as [->|Hn];
    [|now rewrite (other_tools_keep_files n a fs Hn)].
  unfold call_tool.
  change (assoc "write_file" TOOLS) with (Some T_write_file). cbv beta iota.
  destruct (negb (binds T_write_file a)); cbn [snd]; [exact Hw|].
  now apply only_files_write.
Qed.

Lemma only_files_turn (fs0 : Fs.t) (q : string) (st : loop_state) :
  only_files_within fs0 (files (world st)) ->
  match planning_turn q st with
  | Again st' => only_files_within fs0 (files (world st'))
  | Answer _ w' => only_files_within fs0 (files w')
  end.
Proof.
  intros Hw. unfold planning_turn. rewrite ask_eq.
  destruct (extract_last_json_dict _) as [[|kv data]|]; try exact Hw.
  destruct (truthy (tool_of (kv :: data))); [destruct (args_of (kv :: data)) as [args|]|].
  - pose proof (only_files_run_tool fs0 (files (asked_once st))
                  (tool_of (kv :: data)) args Hw) as Hr.
    destruct (run_tool _ _ _) as [result fs']. exact Hr.
  - destruct (get_not_none "final" (kv :: data)); [|exact Hw].
    destruct (_is_read_intent q), (last_tool_result st); exact Hw.
  - destruct (get_not_none "final" (kv :: data)); [|exact Hw].
    destruct (_is_read_intent q), (last_tool_result st); exact Hw.
Qed.

Lemma only_files_loop (fs0 : Fs.t) (n : nat) :
  forall q st,
    only_files_within fs0 (files (world st)) ->
    only_files_within fs0 (files (snd (agent_loop n q st))).
Proof.
  induction n as [|n IH]; intros q st Hw; [exact Hw|].
  cbn [agent_loop]. pose proof (only_files_turn fs0 q st Hw) as Ht.
  destruct (planning_turn q st) as [st'|text w']; [now apply IH|exact Ht].
Qed.

(** X13.  Whatever the model replies in the rounds of a run of
    [run_query] in [tools_loop.py], the run creates, removes or changes
    no directory, and every place of the file system that differs
    afterwards holds a regular file and is named by the resolution of a
    path that begins with the text of [ROOT]. *)
Theorem run_writes_only_files_within (q0 : string) (w : World) :
  only_files_within (files w) (files (snd (run_query q0 w))).
Proof.
  unfold run_query. destruct (unprefix q0) as [forced q].
  destruct (short_circuit forced q (files w)); [apply only_files_refl|].
  apply only_files_loop.
  rewrite (proj2 (initial_state_opening forced q w)). apply only_files_refl.
Qed.

End LoopFrame.

(* ================================================================== *)
(** * The heuristic fallback: memory and the shape of its directive *)
(* ================================================================== *)

Section FallbackFacts.
Context `{Host}.

Lemma lower_char_idem (c : ascii) :
  Py.lower_char (Py.lower_char c) = Py.lower_char c.
Proof. destruct c as [[] [] [] [] [] [] [] []]; vm_compute; reflexivity. Qed.

Lemma lower_idem (s : string) : Py.lower (Py.lower s) = Py.lower s.
Proof.
  induction s as [|c s IH]; [reflexivity|].
  cbn [Py.lower]. now rewrite lower_char_idem, IH.
Qed.

(** What the memory holds after a list of declared names. *)
Lemma learn_fold (names : list string) (known : gset string) (x : string) :
  x ∈ fold_left (fun acc name => acc ∪ {[ Py.lower (Py.strip name) ]}) names known
  <-> x ∈ known \/ exists name, In name names /\ x = Py.lower (Py.strip name).
Proof.
  revert known. induction names as [|n names IH]; intros known; cbn [fold_left].
  - split; [now left|]. intros [Hx|(name & [] & _)]. exact Hx.
  - rewrite IH. split.
    + intros [Hx|(name & Hin & ->)].
      * apply elem_of_union in Hx as [Hx|Hx]; [now left|].
        apply elem_of_singleton in Hx. right. exists n. split; [now left|exact Hx].
      * right. exists name. split; [now right|reflexivity].
    + intros [Hx|(name & [<-|Hin] & ->)].
      * left. apply elem_of_union. now left.
      * left. apply elem_of_union. right. now apply elem_of_singleton.
      * right. now exists name.
Qed.

Lemma take_str_length (n : nat) (s : string) :
  (String.length (Py.take_str n s) <= n)%nat.
Proof.
  revert s. induction n as [|n IH]; intros [|c s]; cbn [Py.take_str String.length]; try lia.
  specialize (IH s). lia.
Qed.

(** X14.  The session memory only grows: a call of [autowrap_to_action]
    forgets no name, whatever it returns, and every name it adds is a
    name declared in the request by [... is a file], stripped and in
    lower case (so lowering it again changes nothing). *)
Theorem memory_only_grows (raw up : string) (known : gset string) (fs : Fs.t) :
  known ⊆ snd (Agent.autowrap_to_action raw up known fs)
  /\ forall name,
       name ∈ snd (Agent.autowrap_to_action raw up known fs) ->
       name ∈ known
       \/ (Py.lower name = name
           /\ exists declared,
                In declared (Re.findall1 Pat.IS_A_FILE (Py.strip up))
                /\ name = Py.lower (Py.strip declared)).
Proof.
  rewrite autowrap_memory. unfold Agent.learn. split.
  - intros x Hx. apply learn_fold. now left.
  - intros name Hn. apply learn_fold in Hn as [Hk|(declared & Hin & ->)]; [now left|].
    right. split; [apply lower_idem|]. now exists declared.
Qed.

(** X15.  [autowrap_to_action] always returns a directive with a [tool]
    key or a [final] key, so the last [return] of [run_query] in
    [agent.py] is never reached from it.  When the raw model text is not
    passed through, the directive is a [read_file] call, a [calc] call
    or a final text; a final text is never empty and has at most 4000
    characters. *)
Theorem fallback_always_directs (raw up : string) (known : gset string) (fs : Fs.t) :
  (has_key "tool" (fst (Agent.autowrap_to_action raw up known fs))
   || has_key "final" (fst (Agent.autowrap_to_action raw up known fs)) = true)
  /\ (Agent.pass_through (Py.strip raw) = None ->
      (exists path, fst (Agent.autowrap_to_action raw up known fs)
                    = Agent.read_directive path)
      \/ (exists expr, fst (Agent.autowrap_to_action raw up known fs)
                       = Agent.calc_directive expr)
      \/ (exists text, fst (Agent.autowrap_to_action raw up known fs)
                       = Agent.final_directive text
                       /\ text <> EmptyString
                       /\ (String.length text <= 4000)%nat)).
Proof.
  unfold Agent.autowrap_to_action.
  destruct (Agent.pass_through (Py.strip raw)) as [data|] eqn:Hp.
  { split; [|discriminate]. cbn [fst]. unfold Agent.pass_through in Hp.
    destruct (json_loads _) as [[| | | | | |d]|]; try discriminate.
    destruct (has_key "tool" d || has_key "final" d) eqn:E; [|discriminate].
    now injection Hp as <-. }
  destruct (Agent.explicit_path _) as [path|]; [split; [reflexivity|eauto]|].
  destruct (Agent.recall _ _) as [name|]; [split; [reflexivity|eauto]|].
  destruct (Agent.probe _ _) as [token|]; [split; [reflexivity|eauto]|].
  destruct (Agent.arithmetic_tail _) as [expr|]; [split; [reflexivity|eauto]|].
  split; [reflexivity|]. intros _. right. right. eexists. split; [reflexivity|].
  unfold Agent.or_no_output.
  destruct (String.eqb (Py.take_str Agent.final_cap (Py.strip raw)) "") eqn:E.
  - split; [discriminate|]. cbn. lia.
  - split.
    + intros E0. rewrite E0 in E. discriminate.
    + change 4000%nat with Agent.final_cap at 1. apply take_str_length.
Qed.

End FallbackFacts.

(* ================================================================== *)
(** * [run_query] of [agent.py] *)
(* ================================================================== *)

Section AgentRunFacts.
Context `{Host} `{Service}.
Import AgentRun AgentSays.

Lemma llm_eq (ms : list message) (temp : string) (limit : nat) (s : Session) :
  llm ms temp limit s
  = (complete (calls s) (Request ms temp limit),
     MkSession (disk s) (known_files s) (calls s ++ [Request ms temp limit])).
Proof. reflexivity. Qed.

Lemma plan_route_session (q : string) (s : Session) :
  snd (plan_route q s)
  = MkSession (disk s) (known_files s) (calls s ++ [planner_call q]).
Proof.
  unfold plan_route. rewrite llm_eq.
  destruct (json_loads _) as [[| | | | | |obj]|];
    try (destruct (Agent.extract_last_json_dict _)); reflexivity.
Qed.

Lemma lower_is_bang (a : ascii) :
  Ascii.eqb (Py.lower_char a) (Py.lower_char "!") = true -> a = "!"%char.
Proof.
  destruct a as [[] [] [] [] [] [] [] []]; vm_compute; intros E;
    try discriminate E; reflexivity.
Qed.

(** A pattern that starts with [!] matches only texts that start with
    it. *)
Lemma bang_first (w r : Re.regex) (q : string) :
  Re.match_ (Re.Seq Re.Bol (Re.Seq (Re.Seq (Re.lit_i "!") w) r)) q <> None ->
  Py.startswith "!" q = true.
Proof.
  unfold Re.match_, Re.match_at, Re.start_cursor, Re.lit_i.
  destruct q as [|a q]; [intros Hm; now contradiction Hm|].
  cbn [Re.run Re.pos Nat.eqb Re.advance Re.rest].
  destruct (Ascii.eqb (Py.lower_char a) (Py.lower_char "!")) eqn:E;
    [|intros Hm; now contradiction Hm].
  intros _. apply lower_is_bang in E. subst a. reflexivity.
Qed.

Lemma direct_starts_with_bang (q : string) (fs : Fs.t) :
  handle_direct_command q fs <> None -> Py.startswith "!" q = true.
Proof.
  unfold handle_direct_command. intros Hd.
  destruct (Re.match_ RE_READ q) eqn:E1.
  { unfold RE_READ in E1.
    change (Re.lits_i "!read") with (Re.Seq (Re.lit_i "!") (Re.lits_i "read")) in E1.
    eapply bang_first. rewrite E1. discriminate. }
  destruct (Re.match_ RE_WRITE q) eqn:E2.
  { unfold RE_WRITE in E2.
    change (Re.lits_i "!write") with (Re.Seq (Re.lit_i "!") (Re.lits_i "write")) in E2.
    eapply bang_first. rewrite E2. discriminate. }
  destruct (Re.match_ RE_CALC q) eqn:E3.
  { unfold RE_CALC in E3.
    change (Re.lits_i "!calc") with (Re.Seq (Re.lit_i "!") (Re.lits_i "calc")) in E3.
    eapply bang_first. rewrite E3. discriminate. }
  destruct (Re.match_ RE_NUM q) eqn:E4.
  { unfold RE_NUM in E4.
    change (Re.lits_i "!num") with (Re.Seq (Re.lit_i "!") (Re.lits_i "num")) in E4.
    eapply bang_first. rewrite E4. discriminate. }
  congruence.
Qed.

Lemma remembers_refl (q : string) (known : gset string) :
  remembers_more q known known.
Proof. split; [reflexivity|]. intros name Hn. now left. Qed.

Lemma remembers_trans (q : string) (k1 k2 k3 : gset string) :
  remembers_more q k1 k2 -> remembers_more q k2 k3 -> remembers_more q k1 k3.
Proof.
  intros [S1 A1] [S2 A2]. split; [now transitivity k2|].
  intros name Hn. destruct (A2 name Hn) as [H2|H2]; [auto|now right].
Qed.

Lemma remembers_learn (raw q : string) (known : gset string) (fs : Fs.t) :
  remembers_more q known (snd (Agent.autowrap_to_action raw q known fs)).
Proof.
  rewrite autowrap_memory. unfold Agent.learn. split.
  - intros x Hx. apply learn_fold. now left.
  - intros name Hn. apply learn_fold in Hn as [Hk|(declared & Hin & ->)]; [now left|].
    right. now exists declared.
Qed.

Lemma agent_write_within (args : dict) (fs : Fs.t) :
  writes_within fs (snd (Agent.write_file args fs)).
Proof.
  unfold Agent.write_file, Agent.get_or_empty.
  destruct (dict_get "path" args) as [path|]; cbn [truthy String.eqb negb snd];
    [|now left].
  destruct (truthy path); cbn [negb snd]; [|now left].
  destruct path as [| | | |p| |]; cbn [snd]; try (now left).
  fold (Says.resolved p).
  destruct (Py.startswith ROOT (Says.resolved p)) eqn:Hs; cbn [negb snd]; [|now left].
  destruct (Fs.open_w fs (Says.resolved p)) as [[target fs1]|] eqn:Ho; cbn [snd];
    [|now left].
  destruct (open_w_frame fs fs1 (Says.resolved p) target Ho) as [Hloc Hfr].
  right. exists p, target. split; [exact Hs|]. split; [exact Hloc|].
  intros other Hne.
  destruct (match dict_get "text" args with Some v => v | None => JStr "" end);
    cbn [snd]; apply (Hfr EmptyString other Hne) || apply (Hfr _ other Hne).
Qed.

(** The tools registered in [TOOLS], by name. *)
Lemma tools_by_name (name : string) (fn : dict -> Fs.t -> result string * Fs.t) :
  ToolsLoop.assoc name TOOLS = Some fn ->
  (name = "read_file" /\ fn = fun args fs => (Agent.read_file args fs, fs))
  \/ (name = "write_file" /\ fn = fun args fs => Agent.write_file args fs)
  \/ (name = "calc" /\ fn = fun args fs => (Ok (Agent.calc args), fs))
  \/ (name = "find_number" /\ fn = fun args fs => (Ok (Agent.find_number args), fs)).
Proof.
  unfold TOOLS. cbn [ToolsLoop.assoc].
  destruct (String.eqb name "read_file") eqn:E1.
  { intros [= <-]. left. split; [now apply String.eqb_eq|reflexivity]. }
  destruct (String.eqb name "write_file") eqn:E2.
  { intros [= <-]. right. left. split; [now apply String.eqb_eq|reflexivity]. }
  destruct (String.eqb name "calc") eqn:E3.
  { intros [= <-]. right. right. left. split; [now apply String.eqb_eq|reflexivity]. }
  destruct (String.eqb name "find_number") eqn:E4; [|discriminate].
  intros [= <-]. right. right. right. split; [now apply String.eqb_eq|reflexivity].
Qed.

Lemma dispatch_within (t a : json) (fs : Fs.t) :
  writes_within fs (snd (dispatch t a fs)).
Proof.
  unfold dispatch.
  assert (Hstr : forall name,
    writes_within fs (snd (
      match ToolsLoop.assoc name TOOLS with
      | None => (Returns (JStr ("ERROR: unknown tool '" +:+ str_of (JStr name) +:+ "'")), fs)
      | Some fn =>
          match a with
          | JObj args =>
              match fn args fs with
              | (Ok res, fs') =>
                  (Returns (JStr (if is_read_file (JStr name) then res
                                  else "[TOOL RESULT] " +:+ res)), fs')
              | (Raise e, fs') => (Fails (InTool e), fs')
              end
          | other => (Fails (NoGet other), fs)
          end
      end))).
  { intros name. destruct (ToolsLoop.assoc name TOOLS) as [fn|] eqn:Ha; [|now left].
    destruct a as [| | | | | |args]; try (now left).
    assert (Hfn : writes_within fs (snd (fn args fs))).
    { destruct (tools_by_name name fn Ha) as [[_ ->]|[[_ ->]|[[_ ->]|[_ ->]]]];
        try (now left). apply agent_write_within. }
    destruct (fn args fs) as [[res|e] fs']; exact Hfn. }
  destruct t as [| | | |name| |]; try (now left). apply Hstr.
Qed.

(** What running a tool does to the session. *)
Lemma run_tool_of_session (t a : json) (s : Session) :
  snd (run_tool_of t a s)
  = MkSession (snd (dispatch t a (disk s))) (known_files s) (calls s).
Proof. unfold run_tool_of. now destruct (dispatch t a (disk s)). Qed.

Lemma free_chat_eq (q : string) (s : Session) :
  free_chat q s
  = (Returns (JStr (Py.strip (complete (calls s) (chat_call q)))),
     MkSession (disk s) (known_files s) (calls s ++ [chat_call q])).
Proof. reflexivity. Qed.

(** What the fallback does to the session. *)
Lemma fallback_session (q : string) (s : Session) :
  calls (snd (fallback q s)) = calls s ++ [fallback_call q]
  /\ remembers_more q (known_files s) (known_files (snd (fallback q s)))
  /\ writes_within (disk s) (disk (snd (fallback q s))).
Proof.
  unfold fallback. rewrite llm_eq. cbn [known_files disk].
  pose proof (remembers_learn
    (complete (calls s) (Request [Message "system" "You are an assistant. Respond naturally.";
                                  Message "user" q] "0.3" 500))
    q (known_files s) (disk s)) as Hk.
  destruct (Agent.autowrap_to_action _ q (known_files s) (disk s)) as [data known].
  cbn [snd] in Hk.
  destruct (has_key "tool" data).
  - rewrite run_tool_of_session. cbn [calls known_files disk with_known].
    split; [reflexivity|]. split; [exact Hk|]. apply dispatch_within.
  - destruct (has_key "final" data); cbn [snd calls known_files disk with_known];
      (split; [reflexivity|]; split; [exact Hk|now left]).
Qed.

Lemma chat_or_fallback_session (route : string) (c f : bool) (q : string)
  (s : Session) :
  (calls (snd (chat_or_fallback route c f q s)) = calls s ++ [chat_call q]
   \/ calls (snd (chat_or_fallback route c f q s)) = calls s ++ [fallback_call q])
  /\ remembers_more q (known_files s)
       (known_files (snd (chat_or_fallback route c f q s)))
  /\ writes_within (disk s) (disk (snd (chat_or_fallback route c f q s))).
Proof.
  unfold chat_or_fallback.
  destruct (String.eqb route "chat" && c && negb f).
  - rewrite free_chat_eq. cbn [snd calls known_files disk].
    split; [now left|]. split; [apply remembers_refl|now left].
  - destruct (fallback_session q s) as (Hc & Hk & Hd).
    split; [now right|]. now split.
Qed.

(** What the planner pass and its branches do to the session. *)
Lemma planned_session_effect (force : bool) (q : string) (s : Session) :
  (exists later,
      calls (snd (planned force q s)) = calls s ++ planner_call q :: later
      /\ (later = [] \/ later = [chat_call q] \/ later = [fallback_call q]))
  /\ remembers_more q (known_files s) (known_files (snd (planned force q s)))
  /\ writes_within (disk s) (disk (snd (planned force q s))).
Proof.
  unfold planned.
  pose proof (plan_route_session q s) as Hs1.
  destruct (plan_route q s) as [plan s1]. cbn [snd] in Hs1. subst s1.
  set (s1 := MkSession (disk s) (known_files s) (calls s ++ [planner_call q])).
  set (route := if force then "tool" else _).
  set (tool := get_or "tool" JNull plan).
  set (args := match dict_get "args" plan with Some (JObj d) => d | _ => [] end).
  set (conf := if force then true else confident plan).
  assert (Hstop : forall o : outcome,
    (exists later,
        calls (snd (o, s1)) = calls s ++ planner_call q :: later
        /\ (later = [] \/ later = [chat_call q] \/ later = [fallback_call q]))
    /\ remembers_more q (known_files s) (known_files (snd (o, s1)))
    /\ writes_within (disk s) (disk (snd (o, s1)))).
  { intros o. cbn [snd]. split; [exists []; split; [reflexivity|now left]|].
    split; [apply remembers_refl|now left]. }
  assert (Htool : forall t a known,
    remembers_more q (known_files s) known ->
    (exists later,
        calls (snd (run_tool_of t a (with_known s1 known)))
        = calls s ++ planner_call q :: later
        /\ (later = [] \/ later = [chat_call q] \/ later = [fallback_call q]))
    /\ remembers_more q (known_files s)
         (known_files (snd (run_tool_of t a (with_known s1 known))))
    /\ writes_within (disk s) (disk (snd (run_tool_of t a (with_known s1 known))))).
  { intros t a known Hk. rewrite run_tool_of_session.
    cbn [calls known_files disk with_known s1].
    split; [exists []; split; [reflexivity|now left]|].
    split; [exact Hk|]. apply dispatch_within. }
  assert (Hrest : forall known,
    remembers_more q (known_files s) known ->
    (exists later,
        calls (snd (chat_or_fallback route conf force q (with_known s1 known)))
        = calls s ++ planner_call q :: later
        /\ (later = [] \/ later = [chat_call q] \/ later = [fallback_call q]))
    /\ remembers_more q (known_files s)
         (known_files (snd (chat_or_fallback route conf force q (with_known s1 known))))
    /\ writes_within (disk s)
         (disk (snd (chat_or_fallback route conf force q (with_known s1 known))))).
  { intros known Hk.
    destruct (chat_or_fallback_session route conf force q (with_known s1 known))
      as (Hc & Hm & Hd).
    cbn [calls known_files disk with_known s1] in Hc, Hm, Hd.
    split; [|split; [exact (remembers_trans _ _ _ _ Hk Hm)|exact Hd]].
    destruct Hc as [-> | ->]; rewrite <- app_assoc; cbn [app]; eauto. }
  assert (Hsame : with_known s1 (known_files s) = s1) by reflexivity.
  destruct (if String.eqb route "tool" && (force || conf)
            then match tool with JNull => Done true | _ => valid_tool_choice tool args end
            else Done false) as [[|]|f].
  - destruct (if truthy tool then valid_tool_choice tool args else Done false)
      as [[|]|f'].
    + rewrite <- Hsame. apply Htool, remembers_refl.
    + pose proof (remembers_learn EmptyString q (known_files s) (disk s)) as Hk.
      change (known_files s1) with (known_files s). change (disk s1) with (disk s).
      destruct (Agent.autowrap_to_action EmptyString q (known_files s) (disk s))
        as [data known]. cbn [snd] in Hk.
      destruct (has_key "tool" data); [now apply Htool | now apply Hrest].
    + apply Hstop.
  - rewrite <- Hsame. apply Hrest, remembers_refl.
  - apply Hstop.
Qed.

Lemma chat_not_agent (q : string) :
  Py.startswith SENTINEL_CHAT q = true -> Py.startswith SENTINEL_AGENT q = false.
Proof.
  unfold SENTINEL_CHAT, SENTINEL_AGENT. intros Hc.
  destruct q as [|a [|b [|c q]]]; try reflexivity.
  - cbn [Py.startswith]. now rewrite andb_false_r.
  - cbn [Py.startswith]. now rewrite !andb_false_r.
  - cbn [Py.startswith] in Hc |- *.
    destruct (Ascii.eqb "<" a); [|discriminate Hc].
    destruct (Ascii.eqb "|" b); [|discriminate Hc].
    destruct (Ascii.eqb "c" c) eqn:E; [|discriminate Hc].
    apply Ascii.eqb_eq in E. subst c. reflexivity.
Qed.

Lemma chat_not_direct (q : string) (fs : Fs.t) :
  Py.startswith SENTINEL_CHAT q = true -> handle_direct_command q fs = None.
Proof.
  intros Hc. destruct (handle_direct_command q fs) eqn:Hd; [|reflexivity].
  assert (Hb : Py.startswith "!" q = true)
    by (apply (direct_starts_with_bang q fs); congruence).
  destruct q as [|a q]; [discriminate|].
  unfold SENTINEL_CHAT in Hc. cbn [Py.startswith] in Hc, Hb.
  destruct (Ascii.eqb "<" a) eqn:E1; [|discriminate].
  apply Ascii.eqb_eq in E1. subst a. discriminate.
Qed.

(** [run_query] once the request is known not to be a direct command. *)
Lemma run_query_not_direct (input : string) (s : Session) :
  is_direct input s = false ->
  run_query input s
  = if free input && negb (forced input) then free_chat (Py.strip input) s
    else planned (forced input) (request_text input) s.
Proof.
  unfold request_text, is_direct, run_query, free, forced.
  destruct (handle_direct_command _ _); [discriminate|]. intros _.
  destruct (Py.startswith SENTINEL_AGENT (Py.strip input)); cbn [negb andb];
    [now rewrite andb_false_r|].
  now destruct (Py.startswith SENTINEL_CHAT (Py.strip input)).
Qed.

(** A direct command leaves the calls and the memory as they were. *)
Lemma direct_session (input : string) (s : Session) :
  is_direct input s = true ->
  calls (snd (run_query input s)) = calls s
  /\ known_files (snd (run_query input s)) = known_files s.
Proof.
  unfold is_direct, run_query.
  destruct (handle_direct_command _ _) as [[direct fs']|]; [|discriminate].
  intros _. split; reflexivity.
Qed.

(** X16.  A direct command never reaches the model: a request handled
    by [handle_direct_command] starts with [!] once stripped, and
    [run_query] answers it without calling the model and without
    touching the session memory. *)
Theorem direct_command_is_local (input : string) (s : Session) :
  is_direct input s = true ->
  Py.startswith "!" (Py.strip input) = true
  /\ calls (snd (run_query input s)) = calls s
  /\ known_files (snd (run_query input s)) = known_files s.
Proof.
  intros Hd. split; [|now apply direct_session].
  apply (direct_starts_with_bang _ (disk s)). unfold is_direct in Hd.
  destruct (handle_direct_command _ _); [discriminate|discriminate Hd].
Qed.

(** X17.  One request makes at most two model calls.  A direct command
    makes none; a request with the chat sentinel makes exactly one, the
    free chat on the stripped request with the sentinel still in it;
    every other request asks the planner first, about the request
    without the agent sentinel, and then at most once more: the free
    chat or the fallback call on the same text. *)
Theorem agent_calls_at_most_two (input : string) (s : Session) :
  exists sent,
    calls (snd (run_query input s)) = calls s ++ sent
    /\ (List.length sent <= 2)%nat
    /\ (is_direct input s = true -> sent = [])
    /\ (is_direct input s = false -> free input = true ->
        sent = [chat_call (Py.strip input)])
    /\ (is_direct input s = false -> free input = false ->
        exists later,
          sent = planner_call (request_text input) :: later
          /\ (later = []
              \/ later = [chat_call (request_text input)]
              \/ later = [fallback_call (request_text input)])).
Proof.
  destruct (is_direct input s) eqn:Hd.
  - destruct (direct_session input s Hd) as (Hc & _).
    exists []. rewrite Hc, app_nil_r. repeat split; try discriminate. cbn. lia.
  - rewrite (run_query_not_direct input s Hd).
    destruct (free input) eqn:Hf.
    + rewrite (chat_not_agent _ Hf : forced input = false). cbn [negb andb].
      rewrite free_chat_eq. cbn [snd calls].
      exists [chat_call (Py.strip input)]. repeat split; try discriminate. cbn. lia.
    + cbn [andb].
      destruct (planned_session_effect (forced input) (request_text input) s)
        as ((later & Hc & Hl) & _ & _).
      exists (planner_call (request_text input) :: later).
      split; [exact Hc|]. split.
      { destruct Hl as [->|[->| ->]]; cbn; lia. }
      split; [discriminate|]. split; [discriminate|]. intros _ _. now exists later.
Qed.

(** X18.  Whatever the model replies, one request changes at most one
    place of the file system, and only the place named by the
    resolution of a path that begins with the text of [ROOT]; every
    other file is left as it was. *)
Theorem query_writes_within (input : string) (s : Session) :
  writes_within (disk s) (disk (snd (run_query input s))).
Proof.
  destruct (is_direct input s) eqn:Hd.
  - unfold is_direct in Hd. unfold run_query, handle_direct_command in *.
    destruct (Re.match_ RE_READ _); [now left|].
    destruct (Re.match_ RE_WRITE _) as [m|].
    { pose proof (agent_write_within
        [("path", JStr (Re.group 1 (Py.strip input) m));
         ("text", JStr (Re.group 2 (Py.strip input) m))] (disk s)) as Hw.
      destruct (Agent.write_file _ (disk s)) as [direct fs']. exact Hw. }
    destruct (Re.match_ RE_CALC _); [now left|].
    destruct (Re.match_ RE_NUM _); [now left|discriminate Hd].
  - rewrite (run_query_not_direct input s Hd).
    destruct (free input && negb (forced input)); [now left|].
    apply planned_session_effect.
Qed.

(** X19.  Across a request the session memory only grows, and only by
    names the request declares with [... is a file], stripped and in
    lower case; direct commands and the free chat leave it as it is. *)
Theorem query_remembers_more (input : string) (s : Session) :
  remembers_more (request_text input) (known_files s)
    (known_files (snd (run_query input s)))
  /\ (is_direct input s = true \/ free input = true ->
      known_files (snd (run_query input s)) = known_files s).
Proof.
  destruct (is_direct input s) eqn:Hd.
  - destruct (direct_session input s Hd) as (_ & Hk). rewrite Hk.
    split; [apply remembers_refl|reflexivity].
  - rewrite (run_query_not_direct input s Hd).
    destruct (free input) eqn:Hf.
    + rewrite (chat_not_agent _ Hf : forced input = false). cbn [negb andb].
      split; [apply remembers_refl|reflexivity].
    + cbn [andb]. split; [apply planned_session_effect|].
      intros [Hx|Hx]; discriminate Hx.
Qed.

(** X20.  A tool choice that [valid_tool_choice] accepts can be run: the
    tool is a string naming a function of [TOOLS], and [args] holds
    every key that function reads, so no default is taken and the
    unknown-tool text cannot come from the planner's branch. *)
Theorem valid_choice_is_runnable (tool : json) (args : dict) :
  valid_tool_choice tool args = Done true ->
  exists name fn,
    tool = JStr name
    /\ ToolsLoop.assoc name TOOLS = Some fn
    /\ forallb (fun k => has_key k args) (keys_read name) = true.
Proof.
  unfold valid_tool_choice. destruct tool as [| | | |name| |]; try discriminate.
  destruct (bool_decide (name ∈ WHITELIST_TOOLS)) eqn:Hw; cbn [negb]; [|discriminate].
  apply bool_decide_eq_true in Hw. unfold WHITELIST_TOOLS in Hw.
  assert (Hn : name = "read_file" \/ name = "write_file" \/ name = "calc"
               \/ name = "find_number").
  { rewrite !elem_of_union, !elem_of_singleton in Hw. tauto. }
  clear Hw. intros Hv.
  destruct Hn as [->|[->|[->| ->]]]; cbn [String.eqb Ascii.eqb Bool.eqb andb] in Hv.
  - exists "read_file", (fun args fs => (Agent.read_file args fs, fs)).
    split; [reflexivity|]. split; [reflexivity|].
    cbn [keys_read String.eqb Ascii.eqb Bool.eqb forallb].
    destruct (has_key "path" args); [reflexivity|discriminate Hv].
  - exists "write_file", (fun args fs => Agent.write_file args fs).
    split; [reflexivity|]. split; [reflexivity|].
    change (keys_read "write_file") with ["path"; "text"].
    destruct (forallb _ ["path"; "text"]); [reflexivity|discriminate Hv].
  - exists "calc", (fun args fs => (Ok (Agent.calc args), fs)).
    split; [reflexivity|]. split; [reflexivity|].
    change (keys_read "calc") with ["expr"]. cbn [forallb].
    destruct (has_key "expr" args); [reflexivity|discriminate Hv].
  - exists "find_number", (fun args fs => (Ok (Agent.find_number args), fs)).
    split; [reflexivity|]. split; [reflexivity|].
    change (keys_read "find_number") with ["text"]. cbn [forallb].
    destruct (has_key "text" args); [reflexivity|discriminate Hv].
Qed.

(** X21.  A plan without enough confidence is not acted on: when the
    request carries no sentinel and the planner's confidence is absent,
    is not a number or stays below the threshold, the planner's tool is
    not run and [run_query] is the fallback on the stripped request. *)
Theorem unconfident_plan_not_run (input : string) (s : Session) :
  is_direct input s = false ->
  forced input = false ->
  free input = false ->
  confident (plan_of input s) = false ->
  run_query input s = fallback (Py.strip input) (planned_session input s).
Proof.
  intros Hd Hf Hc Hu. rewrite (run_query_not_direct input s Hd).
  unfold plan_of, planned_session in *. unfold request_text in *.
  rewrite Hf in *. rewrite Hc. cbn [andb]. unfold planned.
  pose proof (plan_route_session (Py.strip input) s) as Hs1.
  destruct (plan_route (Py.strip input) s) as [plan s1]. cbn [fst snd] in Hs1, Hu.
  subst s1. rewrite Hu. cbn [orb]. rewrite andb_false_r.
  unfold chat_or_fallback. now rewrite andb_false_r.
Qed.

(** X22.  A plan whose [tool] is a list or a dict ends the run with an
    exception: when the confident tool branch is reached (the agent
    sentinel, or route [tool] with enough confidence), the whitelist
    test hashes the value and raises a TypeError that nothing catches.
    No tool has run and no second call was made. *)
Theorem unhashable_tool_raises (input : string) (s : Session) :
  is_direct input s = false ->
  free input = false ->
  forced input = true
  \/ (route_of (plan_of input s) = "tool" /\ confident (plan_of input s) = true) ->
  is_container (get_or "tool" JNull (plan_of input s)) = true ->
  run_query input s
  = (Fails (Unhashable (get_or "tool" JNull (plan_of input s))),
     planned_session input s).
Proof.
  intros Hd Hc Hbranch Ht. rewrite (run_query_not_direct input s Hd).
  rewrite Hc. cbn [andb]. unfold plan_of, planned_session in *.
  set (q := request_text input) in *. unfold planned.
  pose proof (plan_route_session q s) as Hs1.
  destruct (plan_route q s) as [plan s1]. cbn [fst snd] in Hs1, Hbranch, Ht |- *.
  subst s1. fold (route_of plan).
  assert (Hgate : String.eqb (if forced input then "tool" else route_of plan) "tool"
                  && (forced input || (if forced input then true else confident plan))
                  = true).
  { destruct Hbranch as [-> | [-> ->]]; [reflexivity|].
    destruct (forced input); reflexivity. }
  rewrite Hgate.
  destruct (get_or "tool" JNull plan) as [| | | | |items|fields]; try discriminate Ht;
    reflexivity.
Qed.

(** X23.  A request with the chat sentinel gets the model's reply,
    stripped, after one call whose user message still carries the
    sentinel; no tool runs, and the files and the memory stay as they
    were. *)
Theorem chat_sentinel_one_call (input : string) (s : Session) :
  free input = true ->
  run_query input s
  = (Returns (JStr (Py.strip (complete (calls s) (chat_call (Py.strip input))))),
     MkSession (disk s) (known_files s) (calls s ++ [chat_call (Py.strip input)])).
Proof.
  intros Hf.
  assert (Hd : is_direct input s = false).
  { unfold is_direct. now rewrite (chat_not_direct _ (disk s) Hf). }
  rewrite (run_query_not_direct input s Hd), Hf.
  rewrite (chat_not_agent _ Hf : forced input = false). reflexivity.
Qed.

End AgentRunFacts.

(** Reading a file by a direct command, in capitals. *)
Lemma direct_command_is_local_witness :
  Py.startswith "!" (Py.strip "  !READ notes.txt ") = true
  /\ AgentRun.calls (snd (AgentRun.run_query (H := Demo.host Demo.project [])
                   (H0 := DemoService.service [])
                   "  !READ notes.txt " DemoService.session0)) = []
  /\ AgentRun.known_files (snd (AgentRun.run_query (H := Demo.host Demo.project [])
                         (H0 := DemoService.service [])
                         "  !READ notes.txt " DemoService.session0)) = ∅.
Proof.
  apply (@direct_command_is_local (Demo.host Demo.project [])
           (DemoService.service []) "  !READ notes.txt " DemoService.session0).
  vm_compute. reflexivity.
Defined.

(** A write with both of its arguments. *)
Lemma valid_choice_is_runnable_witness :
  exists name fn,
    JStr "write_file" = JStr name
    /\ ToolsLoop.assoc name (AgentRun.TOOLS (H := Demo.host Demo.project []))
       = Some fn
    /\ forallb (fun k => has_key k [("path", JStr "a.txt"); ("text", JStr "hi")])
         (AgentSays.keys_read name) = true.
Proof.
  apply (@valid_choice_is_runnable (Demo.host Demo.project [])
           (JStr "write_file") [("path", JStr "a.txt"); ("text", JStr "hi")]).
  vm_compute. reflexivity.
Defined.

(** The planner names [calc] without a confidence: the fallback answers. *)
Lemma unconfident_plan_not_run_witness :
  fst (AgentRun.run_query (H := Demo.host Demo.project [])
         (H0 := DemoService.service
                  [Py.jq "{`route`: `tool`, `tool`: `calc`, `args`: {`expr`: `6*7`}}";
                   "Hello!"])
         "good morning" DemoService.session0)
  = AgentRun.Returns (JStr "Hello!").
Proof.
  rewrite (@unconfident_plan_not_run (Demo.host Demo.project [])
             (DemoService.service
                [Py.jq "{`route`: `tool`, `tool`: `calc`, `args`: {`expr`: `6*7`}}";
                 "Hello!"])
             "good morning" DemoService.session0);
    vm_compute; reflexivity.
Defined.

(** The planner answers with a list as the tool. *)
Lemma unhashable_tool_raises_witness :
  fst (AgentRun.run_query (H := Demo.host Demo.project [])
         (H0 := DemoService.service
                  [Py.jq "{`route`: `tool`, `tool`: [`calc`], `confidence`: 1}"])
         "add one and one" DemoService.session0)
  = AgentRun.Fails (AgentRun.Unhashable (JArr [JStr "calc"])).
Proof.
  rewrite (@unhashable_tool_raises (Demo.host Demo.project [])
             (DemoService.service
                [Py.jq "{`route`: `tool`, `tool`: [`calc`], `confidence`: 1}"])
             "add one and one" DemoService.session0).
  - vm_compute. reflexivity.
  - vm_compute. reflexivity.
  - vm_compute. reflexivity.
  - right. split; vm_compute; reflexivity.
  - vm_compute. reflexivity.
Defined.

(** A free chat. *)
Lemma chat_sentinel_one_call_witness :
  AgentRun.run_query (H := Demo.host Demo.project [])
    (H0 := DemoService.service [" Hi there. "])
    " <|chat|> hello" DemoService.session0
  = (AgentRun.Returns (JStr "Hi there."),
     AgentRun.MkSession Demo.disk ∅ [AgentSays.chat_call "<|chat|> hello"]).
Proof.
  rewrite (@chat_sentinel_one_call (Demo.host Demo.project [])
             (DemoService.service [" Hi there. "]) " <|chat|> hello"
             DemoService.session0);
    vm_compute; reflexivity.
Defined.
